(** * GATN: gradient adversarial transformation network utilities

    A shallow embedding of [utils/ts_nn/gatn_utils.py] and of the grid-search
    script [search_ts_nn_gatn_whitebox-Copy1.py].

    Numbers: tensors hold float32 values in the source.  They are embedded
    as exact rationals [Q], compared with [==] ([Qeq]); rounding, overflow,
    [inf] and [nan] are outside the model, and every statement that divides
    carries the facts that make the divisor nonzero.

    Tensors: a rank-1 tensor is a [list Q], a label or probability matrix of
    shape [N, C] a list of N rows, a signal batch of shape [B, T, C] a list
    of B samples, each a list of T rows. *)

From Stdlib Require Import QArith Qminmax ZArith List Lia Permutation Sorted.
From stdpp Require Import gmap strings list pretty.

Import ListNotations.

(** ** Exceptions and fallible results *)

Inductive Exception : Type :=
| IndexError
| ValueError
| ZeroDivisionError
| InvalidArgumentError
| AssertionError
| NotFoundError (path : string)
| RuntimeError (msg : string).

Inductive result (A : Type) : Type :=
| Ok (a : A)
| Raise (e : Exception).

Arguments Ok {A} a.
Arguments Raise {A} e.

#[global] Instance result_ret : MRet result := fun _ a => Ok a.

#[global] Instance result_bind : MBind result := fun _ _ k r =>
  match r with
  | Ok a => k a
  | Raise e => Raise e
  end.

Fixpoint rmapM {A B : Type} (f : A -> result B) (l : list A) : result (list B) :=
  match l with
  | [] => Ok []
  | a :: l' =>
      match f a with
      | Raise e => Raise e
      | Ok b =>
          match rmapM f l' with
          | Raise e => Raise e
          | Ok bs => Ok (b :: bs)
          end
      end
  end.

Fixpoint rfoldl {A S : Type} (f : S -> A -> result S) (st : S) (l : list A)
  : result S :=
  match l with
  | [] => Ok st
  | a :: l' =>
      match f st a with
      | Raise e => Raise e
      | Ok st' => rfoldl f st' l'
      end
  end.

(** State threaded through a computation that may raise; the state reached
    when the exception was raised is kept. *)
Definition StateErr (W A : Type) : Type := W -> result A * W.

#[global] Instance StateErr_ret {W} : MRet (StateErr W) := fun _ a w => (Ok a, w).

#[global] Instance StateErr_bind {W} : MBind (StateErr W) := fun _ _ k m w =>
  match m w with
  | (Ok a, w') => k a w'
  | (Raise e, w') => (Raise e, w')
  end.

Definition lift {W A : Type} (r : result A) : StateErr W A := fun w => (r, w).

(** ** Tensor kernels *)

Module Kernels.

Local Open Scope Q_scope.

Definition Row := list Q.
Definition Matrix := list (list Q).
Definition Signal := list (list Q).
Definition Batch := list (list (list Q)).

Definition Qltb (a b : Q) : bool := negb (Qle_bool b a).

(** [tf.reduce_sum] of a rank-1 tensor. *)
Definition reduce_sum (r : list Q) : Q := fold_right Qplus 0 r.

(** [tf.reduce_mean] of a rank-1 tensor (TensorFlow yields [nan] on an empty
    one; the model's [x / 0] is [0]). *)
Definition reduce_mean (r : list Q) : Q :=
  reduce_sum r / inject_Z (Z.of_nat (length r)).

(** [tf.reduce_max(_, axis=-1)] of one row; [None] stands for the [-inf]
    TensorFlow returns on an empty row. *)
Fixpoint reduce_max (r : list Q) : option Q :=
  match r with
  | [] => None
  | a :: r' =>
      match reduce_max r' with
      | None => Some a
      | Some m => Some (Qmax a m)
      end
  end.

(** Position of the first maximum, [np.argmax] / [tf.argmax] on one row.
    numpy raises [ValueError] on an empty row. *)
Fixpoint argmax_from (best : Q) (besti : nat) (i : nat) (r : list Q) : nat :=
  match r with
  | [] => besti
  | a :: r' =>
      if Qltb best a then argmax_from a i (S i) r'
      else argmax_from best besti (S i) r'
  end.

Definition argmax (r : list Q) : result nat :=
  match r with
  | [] => Raise ValueError
  | a :: r' => Ok (argmax_from a 0%nat 1%nat r')
  end.

(** Python / numpy index normalisation on an axis of length [n]: indices in
    [-n, n) are accepted, negative ones count from the end. *)
Definition norm_index (n : nat) (i : Z) : result nat :=
  if ((0 <=? i) && (i <? Z.of_nat n))%Z then Ok (Z.to_nat i)
  else if ((- Z.of_nat n <=? i) && (i <? 0))%Z then Ok (Z.to_nat (i + Z.of_nat n))
  else Raise IndexError.

(** [weighted_y[:, target] = alpha * max_y], one row at a time. *)
Definition assign_target (target : Z) (alpha : Q) (row : list Q) (m : option Q)
  : result (list Q) :=
  i ← norm_index (length row) target;
  match m with
  | Some m => Ok (<[i := alpha * m]> row)
  | None => Raise IndexError
  end.

Definition normalize_row (row : list Q) : list Q :=
  map (fun v => v / reduce_sum row) row.

(** [reranking(y, target, alpha)], lines 37-61. *)
Definition reranking (y : Matrix) (target : Z) (alpha : Q) : result Matrix :=
  let max_y := map reduce_max y in
  weighted_y ← rmapM (fun rm => assign_target target alpha (fst rm) (snd rm))
                 (combine y max_y);
  Ok (map normalize_row weighted_y).

(** [tf.losses.mean_squared_error(y_true, y_pred)]: squared difference
    averaged over the last axis, one value per row. *)
Definition sq_diff (a b : Q) : Q := (b - a) * (b - a).

Definition mse_row (t p : list Q) : Q :=
  reduce_mean (zip_with sq_diff t p).

Definition mean_squared_error (y_true y_pred : Matrix) : list Q :=
  zip_with mse_row y_true y_pred.

(** [targetted_mse(y_generated, y_pred, target_id, alpha)], lines 12-34. *)
Definition targetted_mse (y_generated y_pred : Matrix) (target_id : Z) (alpha : Q)
  : result Q :=
  y_pred' ← reranking y_pred target_id alpha;
  let initial_loss := mean_squared_error y_pred' y_generated in
  let loss := reduce_mean initial_loss in
  Ok loss.


(** [tf.reduce_mean] over every element of a rank-3 tensor. *)
Definition flatten3 (x : Batch) : list Q := concat (concat x).

(** [tf.square(x - x_adversarial)], elementwise on [B, T, C]. *)
Definition squared_difference (x xa : Batch) : Batch :=
  zip_with (zip_with (zip_with (fun a b => (a - b) * (a - b)))) x xa.

(** [tf.losses.mean_squared_error] on rank-3 operands reduces the last axis
    and leaves a [B, T] tensor, flattened here. *)
Definition mean_squared_error3 (x xa : Batch) : list Q :=
  concat (zip_with (zip_with mse_row) x xa).

(** [np.argwhere(found)[:, 0]]: positions of the true entries. *)
Fixpoint argwhere_from (i : nat) (found : list bool) : list nat :=
  match found with
  | [] => []
  | b :: found' =>
      if b then i :: argwhere_from (S i) found' else argwhere_from (S i) found'
  end.

Definition argwhere (found : list bool) : list nat := argwhere_from 0 found.

(** [tf.argmax(y, axis=-1)] on a matrix. *)
Definition argmax_rows (y : Matrix) : result (list nat) := rmapM argmax y.

(** Python's [//] and [%] on integers. *)
Definition floordiv (a b : Z) : result Z :=
  if (b =? 0)%Z then Raise ZeroDivisionError else Ok (a / b)%Z.

Definition pymod (a b : Z) : result Z :=
  if (b =? 0)%Z then Raise ZeroDivisionError else Ok (a mod b)%Z.

(** [n // batchsize + int(n % batchsize != 0)]. *)
Definition num_batches (n batchsize : Z) : result Z :=
  q ← floordiv n batchsize;
  r ← pymod n batchsize;
  Ok (q + (if (r =? 0)%Z then 0 else 1))%Z.

(** ** [tf.keras.metrics.Mean] *)

Record Mean : Type := { total : Q; count : Q }.

Definition Mean_new : Mean := {| total := 0; count := 0 |}.

Definition Mean_update (m : Mean) (v : Q) : Mean :=
  {| total := total m + v; count := count m + 1 |}.

(** [result()] is [div_no_nan(total, count)]. *)
Definition Mean_result (m : Mean) : Q :=
  if Qeq_bool (count m) 0 then 0 else total m / count m.

(** ** Collaborators from [utils/generic_utils.py] *)

(** Modelled from the spec: [checked_argmax] of [utils/generic_utils.py] is
    not among the sources; the spec reads the labels it yields as the argmax
    of each row of the classifier output. *)
Definition checked_argmax (y : Matrix) : result (list nat) := rmapM argmax y.

Definition count_true (l : list bool) : nat := length (List.filter (fun b => b) l).

Definition fraction (k n : nat) : Q := inject_Z (Z.of_nat k) / inject_Z (Z.of_nat n).

(** Modelled from the spec: [target_accuracy] of [utils/generic_utils.py] is
    not among the sources.  It returns [(accuracy, target_rate)]: the
    agreement rate between the labels of [y_pred] and those of
    [y_true_or_proxy], and the fraction of samples whose predicted label is
    the target class. *)
Definition target_accuracy (y_label y_pred : Matrix) (target_id : Z)
  : result (Q * Q) :=
  pred ← checked_argmax y_pred;
  lab ← checked_argmax y_label;
  let agree := zip_with (fun a b => Nat.eqb a b) lab pred in
  let hit := map (fun a => (Z.of_nat a =? target_id)%Z) pred in
  Ok (fraction (count_true agree) (length pred),
      fraction (count_true hit) (length pred)).

(** Batches of at most [n] consecutive elements, the last one possibly
    shorter; [fuel] bounds the number of batches. *)
Fixpoint chunks {A : Type} (fuel n : nat) (l : list A) : list (list A) :=
  match fuel with
  | O => []
  | S fuel' =>
      match l with
      | [] => []
      | _ :: _ => take n l :: chunks fuel' n (drop n l)
      end
  end.

Definition Sample : Type := Signal * Row.
Definition DataBatch : Type := Batch * Matrix.

Definition to_batch (b : list Sample) : DataBatch := (map fst b, map snd b).

(** Modelled from the spec: [prepare_dataset] of [utils/generic_utils.py] is
    not among the sources.  It pairs signals with labels and produces
    batch-shaped, optionally shuffled iterables: consecutive batches of
    [batch_size] samples, the last one smaller when the sample count is not
    a multiple.  [order] is the order the pass visits the samples in (the
    identity when unshuffled).  Mismatched array lengths and a batch size
    below 1 are rejected. *)
Definition batch_split (order : list Sample -> list Sample)
    (X : Batch) (y : Matrix) (batch_size : Z) : result (list DataBatch) :=
  if negb (Nat.eqb (length X) (length y)) then Raise ValueError
  else if (batch_size <? 1)%Z then Raise InvalidArgumentError
  else
    let samples := order (zip X y) in
    Ok (map to_batch (chunks (length samples) (Z.to_nat batch_size) samples)).

End Kernels.

(** ** Models, checkpoints and entry points *)

Module Gatn.

Import Kernels.

(** The frozen classifier and the ATN, as the entry points use them: a
    forward pass, the gradient of the target column with respect to the
    input, and one optimizer step on the taped loss.  Both models return one
    row (one signal) per input sample. *)
Class Backend : Type := {
  ClfParams : Type;
  AtnParams : Type;
  clf_fresh : ClfParams;
  atn_fresh : AtnParams;
  clf_model_name_of : string;
  atn_model_name_of : string;
  clf_model : ClfParams -> Batch -> Matrix;
  input_gradient : ClfParams -> Z -> Batch -> Batch;
  atn_model : AtnParams -> Batch -> Batch -> bool -> Batch;
  optimizer_step : AtnParams -> (AtnParams -> result Q) -> AtnParams;
  clf_model_rows : forall p x, length (clf_model p x) = length x;
  atn_model_rows : forall p x g t, length (atn_model p x g t) = length x
}.

(** Dataset collaborators of [utils/generic_utils.py]: loading, splitting
    and the order a shuffled pass visits the samples in. *)
Class GenericUtils : Type := {
  load_dataset : string -> result ((Batch * Matrix) * (Batch * Matrix));
  split_dataset : Batch -> Matrix -> Q -> (Batch * Matrix) * (Batch * Matrix);
  shuffle_order : nat -> list Sample -> list Sample;
  shuffle_default : bool;
  shuffle_order_perm : forall seed l, shuffle_order seed l ≡ₚ l
}.

(** [best_loss] starts at [np.inf]. *)
Inductive xloss : Type :=
| PosInf
| Fin (q : Q).

(** [best_loss > train_loss_val]. *)
Definition xgt (best : xloss) (v : Q) : bool :=
  match best with
  | PosInf => true
  | Fin b => Qltb v b
  end.

(** One line of the CSV log, the fields of [template]. *)
Record LogRow : Type := {
  dataset_id : Z;
  row_beta : Q;
  row_mse : Q;
  row_acc_realistic : Q;
  row_acc_optimistic : Q;
  row_target_rate : Q;
  num_adversaries : Z
}.

Inductive Msg : Type :=
| EpochSummary (epoch : nat) (train_loss test_acc test_target_rate : Q)
| SavingWeights (best_loss : xloss) (train_loss_val : Q)
| FinishedTraining
| NumBatches (n : Z)
| AdversaryIds (ids : list Z)
| EvalSummary (mse acc_white acc_black rate : Q)
| TrainingBase (name : string)
| FinishedEvaluating (dataset : string) (beta : Q)
| ExceptionText (e : Exception)
| Summary (successes errors : list LogRow).

Section EntryPoints.

Context {backend : Backend} {utils : GenericUtils}.

(** The part of the outside world the entry points touch: directories,
    the two checkpoint families, the shuffle seed, the console and the rows
    appended to the CSV log. *)
Record World : Type := {
  dirs : gset string;
  clf_ckpts : gmap string ClfParams;
  atn_ckpts : gmap string AtnParams;
  rng : nat;
  console : list Msg;
  logfile : list LogRow
}.

Definition M (A : Type) : Type := StateErr World A.

Definition print (m : Msg) : M unit := fun w =>
  (Ok tt, {| dirs := dirs w; clf_ckpts := clf_ckpts w; atn_ckpts := atn_ckpts w;
             rng := rng w; console := console w ++ [m]; logfile := logfile w |}).

(** [if not os.path.exists(p): os.makedirs(p, exist_ok=True)]. *)
Definition makedirs (p : string) : M unit := fun w =>
  (Ok tt, {| dirs := {[p]} ∪ dirs w; clf_ckpts := clf_ckpts w;
             atn_ckpts := atn_ckpts w; rng := rng w; console := console w;
             logfile := logfile w |}).

(** [tf.train.Checkpoint.restore(path)]: TensorFlow raises [NotFoundError]
    when nothing was saved under [path]. *)
Definition restore_clf (path : string) : M ClfParams := fun w =>
  match clf_ckpts w !! path with
  | Some p => (Ok p, w)
  | None => (Raise (NotFoundError path), w)
  end.

Definition restore_atn (path : string) : M AtnParams := fun w =>
  match atn_ckpts w !! path with
  | Some p => (Ok p, w)
  | None => (Raise (NotFoundError path), w)
  end.

(** [atn_checkpoint.write(path)]. *)
Definition write_atn (path : string) (p : AtnParams) : M unit := fun w =>
  (Ok tt, {| dirs := dirs w; clf_ckpts := clf_ckpts w;
             atn_ckpts := <[path := p]> (atn_ckpts w); rng := rng w;
             console := console w; logfile := logfile w |}).

(** Modelled from the spec: [prepare_dataset] of [utils/generic_utils.py] is
    not among the sources.  It returns the train and the test iterable,
    batch-shaped and optionally shuffled; a shuffled pass draws its order
    from the seed and advances it. *)
Definition prepare_dataset (X_train : Batch) (y_train : Matrix)
    (X_test : Batch) (y_test : Matrix) (batch_size : Z) (shuffle : bool)
  : M (list DataBatch * list DataBatch) := fun w =>
  let order := if shuffle then shuffle_order (rng w) else (fun l => l) in
  let w' := {| dirs := dirs w; clf_ckpts := clf_ckpts w; atn_ckpts := atn_ckpts w;
               rng := if shuffle then S (rng w) else rng w;
               console := console w; logfile := logfile w |} in
  match batch_split order X_train y_train batch_size with
  | Raise e => (Raise e, w)
  | Ok train_dataset =>
      match batch_split order X_test y_test batch_size with
      | Raise e => (Raise e, w)
      | Ok test_dataset => (Ok (train_dataset, test_dataset), w')
      end
  end.

(** ['weights/%s/%s/' % (dataset_name, clf_model_name)]. *)
Definition clf_basepath (dataset_name clf_model_name : string) : string :=
  "weights/" +:+ dataset_name +:+ "/" +:+ clf_model_name +:+ "/".

(** ['gatn_weights/%s/%s/' % (dataset_name, atn_model_name + "_%d" % target)]. *)
Definition gatn_basepath (dataset_name atn_model_name : string) (target : Z) : string :=
  "gatn_weights/" +:+ dataset_name +:+ "/" +:+ (atn_model_name +:+ "_" +:+ pretty target) +:+ "/".

Definition name_or (name : option string) (default : string) : string :=
  match name with
  | None => default
  | Some n => n
  end.

(** [compute_target_gradient(x, model, target)], lines 64-83. *)
Definition compute_target_gradient (x : Batch) (model : ClfParams) (target : Z)
  : result (Matrix * Batch) :=
  let out := clf_model model x in
  target_out ← rmapM (fun row => norm_index (length row) target) out;
  let input_grad := input_gradient model target x in
  Ok (out, input_grad).

(** *** Training, lines 86-292 *)

(** [idx = (np.argmax(y_train, axis=-1) != target_class_id)]. *)
Definition cleaning_mask (y_train : Matrix) (target_class_id : Z) : result (list bool) :=
  labels ← argmax_rows y_train;
  Ok (map (fun l => negb (Z.of_nat l =? target_class_id)%Z) labels).

(** Boolean-mask indexing [a[idx]]; numpy raises [IndexError] when the mask
    and the first axis differ in length. *)
Definition mask_select {A : Type} (a : list A) (idx : list bool) : result (list A) :=
  if Nat.eqb (length a) (length idx)
  then Ok (map fst (List.filter snd (zip a idx)))
  else Raise IndexError.

(** The cleaning step, lines 128-131. *)
Definition cleaning (X_train : Batch) (y_train : Matrix) (target_class_id : Z)
  : result (Batch * Matrix) :=
  idx ← cleaning_mask y_train target_class_id;
  X_train ← mask_select X_train idx;
  y_train ← mask_select y_train idx;
  Ok (X_train, y_train).

(** The taped loss of one training batch, lines 227-248, as a function of
    the ATN parameters. *)
Definition batch_loss (clf_model_p : ClfParams) (target_class_id : Z) (alpha beta : Q)
    (x : Batch) (atn_model_p : AtnParams) : result Q :=
  '(y_pred, x_grad) ← compute_target_gradient x clf_model_p target_class_id;
  let x_adversarial := atn_model atn_model_p x x_grad true in
  let y_pred_adversarial := clf_model clf_model_p x_adversarial in
  let squared_difference := squared_difference x x_adversarial in
  let loss_x := reduce_mean (flatten3 squared_difference) in
  loss_y ← targetted_mse y_pred_adversarial y_pred target_class_id alpha;
  let reshaped_loss_x := [[loss_x]] in
  let loss_x := reduce_sum (concat reshaped_loss_x) in
  let loss := (beta * loss_x + loss_y)%Q in
  Ok loss.

(** One iteration of the training loop, lines 221-261. *)
Definition train_step (clf_model_p : ClfParams) (target_class_id : Z) (alpha beta : Q)
    (st : AtnParams * Mean) (b : DataBatch) : result (AtnParams * Mean) :=
  let '(atn_model_p, train_loss) := st in
  let '(x, y) := b in
  loss ← batch_loss clf_model_p target_class_id alpha beta x atn_model_p;
  let atn_model_p' :=
    optimizer_step atn_model_p (batch_loss clf_model_p target_class_id alpha beta x) in
  let loss_val := reduce_mean [loss] in
  Ok (atn_model_p', Mean_update train_loss loss_val).

(** One iteration of the per-epoch test loop, lines 266-276. *)
Definition train_test_step (clf_model_p : ClfParams) (atn_model_p : AtnParams)
    (target_class_id : Z) (st : Mean * Mean) (b : DataBatch) : result (Mean * Mean) :=
  let '(test_acc, test_target_rate) := st in
  let '(x, y) := b in
  '(y_test_pred, x_test_grad) ← compute_target_gradient x clf_model_p target_class_id;
  let x_test_adversarial := atn_model atn_model_p x x_test_grad false in
  let y_pred_adversarial := clf_model clf_model_p x_test_adversarial in
  '(acc_val, target_rate) ← target_accuracy y y_pred_adversarial target_class_id;
  Ok (Mean_update test_acc acc_val, Mean_update test_target_rate target_rate).

(** The end of an epoch, lines 282-289. *)
Definition checkpoint_decision (atn_checkpoint_path : string) (atn_model_p : AtnParams)
    (best_loss : xloss) (train_loss_val : Q) : M xloss :=
  if xgt best_loss train_loss_val then
    _ ← print (SavingWeights best_loss train_loss_val);
    let best_loss := Fin train_loss_val in
    _ ← write_atn atn_checkpoint_path atn_model_p;
    mret best_loss
  else mret best_loss.

(** The body of [for epoch_id in range(epochs)], lines 213-289. *)
Definition run_epoch (clf_model_p : ClfParams) (target_class_id : Z) (alpha beta : Q)
    (train_dataset test_dataset : list DataBatch) (num_train_batches : Z)
    (atn_checkpoint_path : string) (epoch_id : nat)
    (st : AtnParams * xloss) : M (AtnParams * xloss) :=
  let '(atn_model_p, best_loss) := st in
  '(atn_model_p, train_loss) ←
    lift (rfoldl (train_step clf_model_p target_class_id alpha beta)
            (atn_model_p, Mean_new)
            (take (Z.to_nat num_train_batches) train_dataset));
  '(test_acc, test_target_rate) ←
    lift (rfoldl (train_test_step clf_model_p atn_model_p target_class_id)
            (Mean_new, Mean_new) test_dataset);
  _ ← print (EpochSummary (epoch_id + 1) (Mean_result train_loss)
               (Mean_result test_acc) (Mean_result test_target_rate));
  let train_loss_val := Mean_result train_loss in
  best_loss ← checkpoint_decision atn_checkpoint_path atn_model_p best_loss train_loss_val;
  mret (atn_model_p, best_loss).

Fixpoint epochs_loop (body : nat -> AtnParams * xloss -> M (AtnParams * xloss))
    (epochs : nat) (epoch_id : nat) (st : AtnParams * xloss)
  : M (AtnParams * xloss) :=
  match epochs with
  | O => mret st
  | S epochs' =>
      st' ← body epoch_id st;
      epochs_loop body epochs' (S epoch_id) st'
  end.

(** [train_gatn]; [lr] and [device] do not reach the modelled state. *)
Definition train_gatn (dataset_name : string) (target_class_id : Z) (alpha beta : Q)
    (epochs : nat) (batchsize : Z) (atn_name clf_name : option string) : M unit :=
  '(_, (X_test, y_test)) ← lift (load_dataset dataset_name);
  let '((X_train, y_train), (X_test, y_test)) := split_dataset X_test y_test (1 # 2) in
  '(X_train, y_train) ← lift (cleaning X_train y_train target_class_id);
  let batchsize := Z.min batchsize (Z.of_nat (length X_train)) in
  num_train_batches ← lift (num_batches (Z.of_nat (length X_train)) batchsize);
  num_test_batches ← lift (num_batches (Z.of_nat (length X_test)) batchsize);
  '(train_dataset, test_dataset) ←
    prepare_dataset X_train y_train X_test y_test batchsize shuffle_default;
  let clf_model_p := clf_fresh in
  let atn_model_p := atn_fresh in
  let clf_model_name := name_or clf_name clf_model_name_of in
  let basepath := clf_basepath dataset_name clf_model_name in
  _ ← makedirs basepath;
  let checkpoint_path := basepath +:+ clf_model_name in
  clf_model_p ← restore_clf checkpoint_path;
  let atn_model_name := name_or atn_name atn_model_name_of in
  let gatn_basepath := gatn_basepath dataset_name atn_model_name target_class_id in
  _ ← makedirs gatn_basepath;
  let atn_checkpoint_path :=
    gatn_basepath +:+ atn_model_name +:+ "_" +:+ pretty target_class_id in
  let best_loss := PosInf in
  _ ← epochs_loop
        (run_epoch clf_model_p target_class_id alpha beta train_dataset test_dataset
           num_train_batches atn_checkpoint_path)
        epochs 0 (atn_model_p, best_loss);
  print FinishedTraining.

(** *** Evaluation, lines 295-799 *)

Record EvalState : Type := {
  acc_realistic : Mean;
  acc_optimistic : Mean;
  target_rate_mean : Mean;
  mse_mean : Mean;
  batch_id : Z;
  adversary_ids : list Z
}.

Definition EvalState_new : EvalState :=
  {| acc_realistic := Mean_new; acc_optimistic := Mean_new;
     target_rate_mean := Mean_new; mse_mean := Mean_new;
     batch_id := 0; adversary_ids := [] |}.

(** What one batch contributes: the four per-batch metric values and the
    in-batch positions of the adversaries, lines 588-619 (the same text is
    at 413-443 and 761-792). *)
Record BatchScores : Type := {
  b_mse : Q;
  b_acc_white : Q;
  b_acc_black : Q;
  b_target_rate : Q;
  b_not_same : list nat
}.

Definition found_adversary (y_labels y_pred_labels y_adv_labels : list nat) : list bool :=
  let pred_eq_ground := zip_with Nat.eqb y_labels y_pred_labels in
  let pred_neq_adv_labels :=
    zip_with (fun a b => negb (Nat.eqb a b)) y_pred_labels y_adv_labels in
  zip_with andb pred_eq_ground pred_neq_adv_labels.

Definition eval_batch (clf_model_p : ClfParams) (atn_model_p : AtnParams)
    (target_class_id : Z) (b : DataBatch) : result BatchScores :=
  let '(x, y) := b in
  '(y_test_pred, x_test_grad) ← compute_target_gradient x clf_model_p target_class_id;
  let x_test_adversarial := atn_model atn_model_p x x_test_grad false in
  let y_test_pred := clf_model clf_model_p x in
  let y_pred_adversarial := clf_model clf_model_p x_test_adversarial in
  '(acc_val_white, target_rate) ← target_accuracy y y_pred_adversarial target_class_id;
  '(acc_val_black, _) ← target_accuracy y_test_pred y_pred_adversarial target_class_id;
  let initial_loss := mean_squared_error3 x x_test_adversarial in
  let x_mse := reduce_mean initial_loss in
  y_labels ← argmax_rows y;
  y_pred_labels ← checked_argmax y_test_pred;
  y_adv_labels ← checked_argmax y_pred_adversarial;
  let not_same := argwhere (found_adversary y_labels y_pred_labels y_adv_labels) in
  Ok {| b_mse := x_mse; b_acc_white := acc_val_white; b_acc_black := acc_val_black;
        b_target_rate := target_rate; b_not_same := not_same |}.

(** The accumulators after one more batch, lines 602-623. *)
Definition eval_accumulate (batchsize : Z) (st : EvalState) (s : BatchScores) : EvalState :=
  let not_same := map (fun i => (batch_id st * batchsize + Z.of_nat i)%Z) (b_not_same s) in
  {| acc_realistic := Mean_update (acc_realistic st) (b_acc_white s);
     acc_optimistic := Mean_update (acc_optimistic st) (b_acc_black s);
     target_rate_mean := Mean_update (target_rate_mean st) (b_target_rate s);
     mse_mean := Mean_update (mse_mean st) (b_mse s);
     batch_id := batch_id st + 1;
     adversary_ids := adversary_ids st ++ not_same |}.

Definition eval_step (clf_model_p : ClfParams) (atn_model_p : AtnParams)
    (target_class_id : Z) (batchsize : Z) (st : EvalState) (b : DataBatch)
  : result EvalState :=
  s ← eval_batch clf_model_p atn_model_p target_class_id b;
  Ok (eval_accumulate batchsize st s).

(** [for x, y in iterator] over a whole iterable. *)
Definition eval_pass (clf_model_p : ClfParams) (atn_model_p : AtnParams)
    (target_class_id : Z) (batchsize : Z) (dataset : list DataBatch) : result EvalState :=
  rfoldl (eval_step clf_model_p atn_model_p target_class_id batchsize)
    EvalState_new dataset.

(** [for test_iter, (x, y) in enumerate(iterator)] with the
    [if test_iter >= num_batches: break] guard. *)
Definition scores_pass (clf_model_p : ClfParams) (atn_model_p : AtnParams)
    (target_class_id : Z) (batchsize : Z) (num_batches : Z)
    (dataset : list DataBatch) : result EvalState :=
  eval_pass clf_model_p atn_model_p target_class_id batchsize
    (take (Z.to_nat num_batches) dataset).

Definition Scores : Type := Q * Q * Q * Q * list Z.

Definition scores_of (st : EvalState) : Scores :=
  (Mean_result (mse_mean st), Mean_result (acc_realistic st),
   Mean_result (acc_optimistic st), Mean_result (target_rate_mean st),
   adversary_ids st).

(** The checkpoint preamble shared by the evaluation entry points, lines
    374-395, 546-567, 717-739, 868-890. *)
Definition restore_models (dataset_name : string) (target_class_id : Z)
    (atn_name clf_name : option string) : M (ClfParams * AtnParams) :=
  let clf_model_name := name_or clf_name clf_model_name_of in
  let basepath := clf_basepath dataset_name clf_model_name in
  _ ← makedirs basepath;
  let checkpoint_path := basepath +:+ clf_model_name in
  clf_model_p ← restore_clf checkpoint_path;
  let atn_model_name := name_or atn_name atn_model_name_of in
  let gatn_basepath := gatn_basepath dataset_name atn_model_name target_class_id in
  _ ← makedirs gatn_basepath;
  let atn_checkpoint_path :=
    gatn_basepath +:+ atn_model_name +:+ "_" +:+ pretty target_class_id in
  atn_model_p ← restore_atn atn_checkpoint_path;
  mret (clf_model_p, atn_model_p).

(** [evaluate_gatn], lines 295-456. *)
Definition evaluate_gatn (dataset_name : string) (target_class_id : Z)
    (batchsize : Z) (atn_name clf_name : option string) : M unit :=
  '(_, (X_test, y_test)) ← lift (load_dataset dataset_name);
  let '((X_train, y_train), (X_test, y_test)) := split_dataset X_test y_test (1 # 2) in
  let batchsize := Z.min batchsize (Z.of_nat (length X_train)) in
  num_test_batches ← lift (num_batches (Z.of_nat (length X_test)) batchsize);
  '(train_dataset, test_dataset) ←
    prepare_dataset X_train y_train X_test y_test batchsize shuffle_default;
  '(clf_model_p, atn_model_p) ←
    restore_models dataset_name target_class_id atn_name clf_name;
  st ← lift (eval_pass clf_model_p atn_model_p target_class_id batchsize test_dataset);
  _ ← print (AdversaryIds (adversary_ids st));
  _ ← print (EvalSummary (Mean_result (mse_mean st)) (Mean_result (acc_realistic st))
               (Mean_result (acc_optimistic st)) (Mean_result (target_rate_mean st)));
  print FinishedTraining.

(** [train_scores_gatn], lines 459-627. *)
Definition train_scores_gatn (dataset_name : string) (target_class_id : Z)
    (batchsize : Z) (atn_name clf_name : option string) (shuffle : bool) : M Scores :=
  '(_, (X_test, y_test)) ← lift (load_dataset dataset_name);
  let '((X_train, y_train), (X_test, y_test)) := split_dataset X_test y_test (1 # 2) in
  let batchsize := Z.min batchsize (Z.of_nat (length X_train)) in
  num_train_batches ← lift (num_batches (Z.of_nat (length X_train)) batchsize);
  _ ← print (NumBatches num_train_batches);
  '(train_dataset, _) ←
    prepare_dataset X_train y_train X_test y_test batchsize shuffle;
  '(clf_model_p, atn_model_p) ←
    restore_models dataset_name target_class_id atn_name clf_name;
  st ← lift (scores_pass clf_model_p atn_model_p target_class_id batchsize
               num_train_batches train_dataset);
  mret (scores_of st).

(** [test_scores_gatn], lines 630-799. *)
Definition test_scores_gatn (dataset_name : string) (target_class_id : Z)
    (batchsize : Z) (atn_name clf_name : option string) (shuffle : bool) : M Scores :=
  '(_, (X_test, y_test)) ← lift (load_dataset dataset_name);
  let '((X_train, y_train), (X_test, y_test)) := split_dataset X_test y_test (1 # 2) in
  let batchsize := Z.min batchsize (Z.of_nat (length X_train)) in
  num_test_batches ← lift (num_batches (Z.of_nat (length X_test)) batchsize);
  _ ← print (NumBatches num_test_batches);
  '(_, test_dataset) ←
    prepare_dataset X_train y_train X_test y_test batchsize shuffle;
  '(clf_model_p, atn_model_p) ←
    restore_models dataset_name target_class_id atn_name clf_name;
  st ← lift (scores_pass clf_model_p atn_model_p target_class_id batchsize
               num_test_batches test_dataset);
  mret (scores_of st).

(** The preamble of [visualise_gatn], lines 829-890: argument checks and
    checkpoint restoration; the sampling and plotting that follow are not
    modelled. *)
Definition visualise_gatn_preamble (dataset_name : string) (target_class_id : Z)
    (class_id : option Z) (atn_name clf_name : option string)
    (dataset_type : string) : M (ClfParams * AtnParams) :=
  _ ← lift (if bool_decide (dataset_type = "train") || bool_decide (dataset_type = "test")
            then Ok tt else Raise ValueError);
  '((X_train, y_train), (X_test, y_test)) ← lift (load_dataset dataset_name);
  _ ← lift (match class_id with
            | None => Ok tt
            | Some c =>
                labels ← argmax_rows y_test;
                if existsb (fun l => (Z.of_nat l =? c)%Z) labels
                then Ok tt else Raise AssertionError
            end);
  restore_models dataset_name target_class_id atn_name clf_name.

End EntryPoints.

End Gatn.

(** ** The grid search, [search_ts_nn_gatn_whitebox-Copy1.py] *)

Module GridSearch.

Import Kernels Gatn.

Section Script.

Context {backend : Backend} {utils : GenericUtils}.

(** [train_base(clf_model_fn, dataset, epochs=300, model_name=...)] of
    [utils/base_utils.py], which is not among the sources. *)
Variable train_base : string -> string -> M unit.

Definition datasets : list Z := [21%Z].
Definition TARGET_CLASS : Z := 0.
Definition ALPHA : Q := 3 # 2.
Definition BETAS : list Q :=
  [1 # 10; 5 # 100; 1 # 100; 5 # 1000; 1 # 1000; 5 # 10000; 1 # 10000; 1 # 100000]%Q.

Definition clf_model_name : string := "gridsearch-TSFullyConvolutionalNetwork".
Definition atn_model_name : string := "gridsearch-TSFullyConnectedGATN".

(** [template % (dataset_id, beta, -1, -1, -1, -1, -1)]. *)
Definition failure_tag (dataset_id : Z) (beta : Q) : LogRow :=
  {| dataset_id := dataset_id; row_beta := beta; row_mse := (-1)%Q;
     row_acc_realistic := (-1)%Q; row_acc_optimistic := (-1)%Q;
     row_target_rate := (-1)%Q; num_adversaries := (-1)%Z |}.

Record Lists : Type := { SUCCESS : list LogRow; ERRORS : list LogRow }.

(** [f.write(update)]. *)
Definition write_log (update : LogRow) : M unit := fun w =>
  (Ok tt, {| dirs := dirs w; clf_ckpts := clf_ckpts w; atn_ckpts := atn_ckpts w;
             rng := rng w; console := console w; logfile := logfile w ++ [update] |}).

Definition path_exists (p : string) : M bool := fun w =>
  (Ok (bool_decide (p ∈ dirs w)), w).

(** [try: ... except Exception as e: ...]. *)
Definition try_except {A : Type} (body : M A) (handler : Exception -> M A) : M A :=
  fun w =>
    match body w with
    | (Ok a, w') => (Ok a, w')
    | (Raise e, w') => handler e w'
    end.

(** The statements inside [try], lines 87-101. *)
Definition trial (lists : Lists) (dataset_id : Z) (dataset : string) (beta : Q)
  : M Lists :=
  _ ← train_gatn dataset TARGET_CLASS ALPHA beta 10 128
        (Some atn_model_name) (Some clf_model_name);
  '(mse, acc_realistic, acc_optimistic, rate, ids) ←
    train_scores_gatn dataset TARGET_CLASS 128
      (Some atn_model_name) (Some clf_model_name) true;
  _ ← print (FinishedEvaluating dataset beta);
  let update :=
    {| dataset_id := dataset_id; row_beta := beta; row_mse := mse;
       row_acc_realistic := acc_realistic; row_acc_optimistic := acc_optimistic;
       row_target_rate := rate; num_adversaries := Z.of_nat (length ids) |} in
  _ ← write_log update;
  mret {| SUCCESS := SUCCESS lists ++ [update]; ERRORS := ERRORS lists |}.

(** The [except] clause, lines 103-107. *)
Definition on_error (lists : Lists) (dataset_id : Z) (beta : Q) (e : Exception)
  : M Lists :=
  _ ← print (ExceptionText e);
  let tag := failure_tag dataset_id beta in
  mret {| SUCCESS := SUCCESS lists; ERRORS := ERRORS lists ++ [tag] |}.

(** The base-classifier check before [try], lines 80-85. *)
Definition ensure_base (dataset : string) : M unit :=
  let basepath := "weights/" +:+ dataset +:+ "/" +:+ clf_model_name +:+ "/" in
  present ← path_exists basepath;
  if present : bool then (mret tt : M unit)
  else
    _ ← print (TrainingBase clf_model_name);
    train_base dataset clf_model_name.

(** The body of [for beta in BETAS], lines 67-112.  Resetting the Keras
    session and opening, flushing and closing the log file have no
    counterpart in the modelled world. *)
Definition sweep_body (dataset_id : Z) (lists : Lists) (beta : Q) : M Lists :=
  let dataset := "ucr/" +:+ pretty dataset_id in
  _ ← ensure_base dataset;
  try_except (trial lists dataset_id dataset beta) (on_error lists dataset_id beta).

Fixpoint mfoldl {A S : Type} (f : S -> A -> M S) (st : S) (l : list A) : M S :=
  match l with
  | [] => mret st
  | a :: l' => (st' ← f st a; mfoldl f st' l') : M S
  end.

(** The two nested loops and the closing report, lines 66-126. *)
Definition sweep (datasets : list Z) (betas : list Q) : M Lists :=
  lists ← mfoldl (fun lists dataset_id => mfoldl (sweep_body dataset_id) lists betas)
            {| SUCCESS := []; ERRORS := [] |} datasets;
  _ ← print (Summary (SUCCESS lists) (ERRORS lists));
  mret lists.

Definition main : M Lists := sweep datasets BETAS.

End Script.

End GridSearch.

(** ** The test-split evaluation script, [eval_ts_nn_gatn_whitebox.py] *)

Module EvalScript.

Import Kernels Gatn.

Section Script.

Context {backend : Backend} {utils : GenericUtils}.

Definition datasets : list Z := [21%Z].
Definition TARGET_CLASS : Z := 0.

(** [beta = 0.], "cosmetic": it only labels the row. *)
Definition beta : Q := 0.

(** The statements inside [try], lines 76-88. *)
Definition trial (lists : GridSearch.Lists) (dataset_id : Z) (dataset : string)
  : M GridSearch.Lists :=
  '(mse, acc_realistic, acc_optimistic, rate, ids) ←
    test_scores_gatn dataset TARGET_CLASS 128
      (Some GridSearch.atn_model_name) (Some GridSearch.clf_model_name) true;
  _ ← print (FinishedEvaluating dataset beta);
  let update :=
    {| dataset_id := dataset_id; row_beta := beta; row_mse := mse;
       row_acc_realistic := acc_realistic; row_acc_optimistic := acc_optimistic;
       row_target_rate := rate; num_adversaries := Z.of_nat (length ids) |} in
  _ ← GridSearch.write_log update;
  mret {| GridSearch.SUCCESS := GridSearch.SUCCESS lists ++ [update];
          GridSearch.ERRORS := GridSearch.ERRORS lists |}.

(** The body of [for dataset_id in datasets], lines 61-99; the [except]
    clause is that of the grid search. *)
Definition eval_body (lists : GridSearch.Lists) (dataset_id : Z) : M GridSearch.Lists :=
  let dataset := "ucr/" +:+ pretty dataset_id in
  GridSearch.try_except (trial lists dataset_id dataset)
    (GridSearch.on_error lists dataset_id beta).

(** The loop and the closing report, lines 61-113. *)
Definition evaluate_all (datasets : list Z) : M GridSearch.Lists :=
  lists ← GridSearch.mfoldl eval_body
            {| GridSearch.SUCCESS := []; GridSearch.ERRORS := [] |} datasets;
  _ ← print (Summary (GridSearch.SUCCESS lists) (GridSearch.ERRORS lists));
  mret lists.

Definition main : M GridSearch.Lists := evaluate_all datasets.

End Script.

End EvalScript.

(** ** The single-sample visualiser, [visualise_gatn], lines 802-978 *)

Module Visualise.

Import Kernels Gatn.

Section Visualiser.

Context {backend : Backend} {utils : GenericUtils}.

(** What [visualise_gatn] prints about the sample: the ground truth, the
    clean prediction and its probability, the adversarial prediction and its
    probability, and the mean squared error between the two signals. *)
Record Report : Type := {
  ground_truth : nat;
  y_pred_class : nat;
  y_pred_proba : Q;
  y_pred_adversarial_label : nat;
  y_adversarial_pred_proba : Q;
  mse_scalar : Q
}.

(** [a[i]] on the first axis, with Python's negative indices. *)
Definition np_index {A : Type} (a : list A) (i : Z) : result A :=
  k ← norm_index (length a) i;
  match a !! k with
  | Some v => Ok v
  | None => Raise IndexError
  end.

(** The sample selection, lines 895-920: [x = X[[sample_idx]]] and
    [y = np.argmax(y[sample_idx])], on the whole split or on the samples of
    [class_id]. *)
Definition select_sample (X : Batch) (y : Matrix) (class_id : option Z)
    (sample_idx : Z) : result (Batch * nat) :=
  match class_id with
  | None =>
      x ← np_index X sample_idx;
      row ← np_index y sample_idx;
      label ← argmax row;
      Ok ([x], label)
  | Some c =>
      labels ← argmax_rows y;
      let class_indices := map (fun l => (Z.of_nat l =? c)%Z) labels in
      X_c ← mask_select X class_indices;
      x ← np_index X_c sample_idx;
      y_c ← mask_select y class_indices;
      row ← np_index y_c sample_idx;
      label ← argmax row;
      Ok ([x], label)
  end.

(** [visualise_gatn] up to the printed report, lines 829-942; the plotting
    that follows is not modelled. *)
Definition visualise_gatn (dataset_name : string) (target_class_id : Z)
    (class_id : option Z) (sample_id : Z) (atn_name clf_name : option string)
    (dataset_type : string) : M Report :=
  _ ← lift (if bool_decide (dataset_type = "train") || bool_decide (dataset_type = "test")
            then Ok tt else Raise ValueError);
  '((X_train, y_train), (X_test, y_test)) ← lift (load_dataset dataset_name);
  _ ← lift (match class_id with
            | None => Ok tt
            | Some c =>
                labels ← argmax_rows y_test;
                if existsb (fun l => (Z.of_nat l =? c)%Z) labels
                then Ok tt else Raise AssertionError
            end);
  '(clf_model_p, atn_model_p) ←
    restore_models dataset_name target_class_id atn_name clf_name;
  let sample_idx := sample_id in
  '(x, y) ← lift (if bool_decide (dataset_type = "train")
                  then select_sample X_train y_train class_id sample_idx
                  else select_sample X_test y_test class_id sample_idx);
  '(y_pred_label, x_test_grad) ←
    lift (compute_target_gradient x clf_model_p target_class_id);
  let x_test_adversarial := atn_model atn_model_p x x_test_grad false in
  let y_pred_adversarial := clf_model clf_model_p x_test_adversarial in
  adv_labels ← lift (checked_argmax y_pred_adversarial);
  y_pred_adversarial_label ← lift (np_index adv_labels 0);
  pred_labels ← lift (checked_argmax y_pred_label);
  y_pred_class ← lift (np_index pred_labels 0);
  y_pred_proba ←
    lift (row ← np_index y_pred_label 0; np_index row (Z.of_nat y_pred_class));
  y_adversarial_pred_proba ←
    lift (row ← np_index y_pred_adversarial 0;
          np_index row (Z.of_nat y_pred_adversarial_label));
  let mse_loss := mean_squared_error3 x x_test_adversarial in
  let mse_scalar := reduce_mean mse_loss in
  mret {| ground_truth := y; y_pred_class := y_pred_class;
          y_pred_proba := y_pred_proba;
          y_pred_adversarial_label := y_pred_adversarial_label;
          y_adversarial_pred_proba := y_adversarial_pred_proba;
          mse_scalar := mse_scalar |}.

End Visualiser.

End Visualise.

(** ** A small concrete instance

    A two-class setting used to run the entry points on concrete data: a
    sample carries the scores the classifier gives it in its first row, the
    ATN moves that row to the end, so that the scores of the adversarial
    sample are those of the second row. *)

Module Toy.

Import Kernels Gatn.

Definition toy_clf_model (p : unit) (x : Batch) : Matrix :=
  map (fun s : Signal => nth 0 s []) x.

Definition toy_atn_model (p : nat) (x x_grad : Batch) (training : bool) : Batch :=
  map (fun s : Signal => drop 1 s ++ take 1 s) x.

#[export] Instance toy_backend : Backend := {|
  ClfParams := unit;
  AtnParams := nat;
  clf_fresh := tt;
  atn_fresh := 0%nat;
  clf_model_name_of := "clf";
  atn_model_name_of := "atn";
  clf_model := toy_clf_model;
  input_gradient := fun _ _ x => x;
  atn_model := toy_atn_model;
  optimizer_step := fun p _ => S p;
  clf_model_rows := fun _ x => List.length_map _ x;
  atn_model_rows := fun _ x _ _ => List.length_map _ x
|}.

Definition flips : Signal := [[1; 0]; [0; 1]]%Q.
Definition holds : Signal := [[1; 0]; [1; 0]]%Q.

Definition class0 : Row := [1; 0]%Q.
Definition class1 : Row := [0; 1]%Q.

(** Ground truth [0,1,0,1]; clean predictions all 0, so right on samples 0
    and 2 only; adversarial predictions 1 on samples 0, 1, 2 and the clean
    prediction on sample 3. *)
Definition scenario_batch : DataBatch :=
  ([flips; flips; flips; holds], [class0; class1; class0; class1]).

Definition toy_X : Batch := [flips; flips; flips; holds; flips; holds; flips].
Definition toy_y : Matrix := [class0; class1; class0; class1; class0; class0; class1].

Definition toy_split (X : Batch) (y : Matrix) (fraction : Q)
  : (Batch * Matrix) * (Batch * Matrix) :=
  ((take 4 X, take 4 y), (drop 4 X, drop 4 y)).

#[export] Instance toy_utils : GenericUtils := {|
  load_dataset := fun _ => Ok (([], []), (toy_X, toy_y));
  split_dataset := toy_split;
  shuffle_order := fun _ l => rev l;
  shuffle_default := false;
  shuffle_order_perm := fun _ l => Permutation_sym (Permutation_rev l)
|}.

Definition empty_world : World :=
  {| dirs := ∅; clf_ckpts := ∅; atn_ckpts := ∅; rng := 0; console := [];
     logfile := [] |}.

(** A world in which the classifier of the toy dataset ["d"] was saved. *)
Definition trained_clf_world : World :=
  {| dirs := {["weights/d/clf/"]}; clf_ckpts := {["weights/d/clf/clf" := tt]};
     atn_ckpts := ∅; rng := 0; console := []; logfile := [] |}.

End Toy.

(** * Specification-side notions *)

Module SpecSide.

Import Kernels.

Local Open Scope Q_scope.

(** A probability row: non-negative entries that sum to one. *)
Definition prob_row (r : list Q) : Prop :=
  Forall (fun v => 0 <= v) r /\ reduce_sum r == 1.

(** [m] is the maximum value of [r]. *)
Definition is_row_max (m : Q) (r : list Q) : Prop :=
  In m r /\ Forall (fun v => v <= m) r.

(** Reranking as the specification words it: set entry [t] to [alpha] times
    the maximum of the row, then divide the entire row by its new sum. *)
Definition rerank_row_spec (row : list Q) (t : nat) (alpha m : Q) : list Q :=
  let boosted := <[t := alpha * m]> row in
  map (fun v => v / reduce_sum boosted) boosted.

(** The mean squared error of two matrices of one shape: the mean of the
    squared differences over all entries. *)
Definition mse_all (y_true y_pred : Matrix) : Q :=
  reduce_mean (concat (zip_with (zip_with sq_diff) y_true y_pred)).

(** [mean((x - x_adv)^2)] over every entry of the batch. *)
Definition mean_sq (x x_adv : Batch) : Q :=
  reduce_mean (concat (concat
    (zip_with (zip_with (zip_with (fun a b => (a - b) * (a - b)))) x x_adv))).

(** The label of a one-hot (or score) row: the position of its first
    maximum. *)
Definition row_label (r : list Q) : nat :=
  match r with
  | [] => 0%nat
  | a :: r' => argmax_from a 0%nat 1%nat r'
  end.

Definition is_target_row (t : Z) (r : list Q) : bool :=
  (Z.of_nat (row_label r) =? t)%Z.

(** What the console tells about the epochs of a training run: the mean
    training loss of each reported epoch and whether the "Saving weights"
    line follows it. *)
Fixpoint epoch_log (msgs : list Gatn.Msg) : list (Q * bool) :=
  match msgs with
  | [] => []
  | Gatn.EpochSummary _ l _ _ :: rest =>
      match rest with
      | Gatn.SavingWeights _ _ :: _ => (l, true) :: epoch_log rest
      | _ => (l, false) :: epoch_log rest
      end
  | _ :: rest => epoch_log rest
  end.

(** The best loss after the losses [ls], starting from [best]. *)
Definition best_after (best : Gatn.xloss) (ls : list Q) : Gatn.xloss :=
  fold_left (fun b l => if Gatn.xgt b l then Gatn.Fin l else b) ls best.

(** The flags the strict-improvement rule gives the losses [ls]. *)
Fixpoint save_flags (best : Gatn.xloss) (ls : list Q) : list (Q * bool) :=
  match ls with
  | [] => []
  | l :: ls' =>
      (l, Gatn.xgt best l)
        :: save_flags (if Gatn.xgt best l then Gatn.Fin l else best) ls'
  end.

(** Order on best-loss values, [PosInf] on top. *)
Definition xle (a b : Gatn.xloss) : Prop :=
  match a, b with
  | _, Gatn.PosInf => True
  | Gatn.PosInf, Gatn.Fin _ => False
  | Gatn.Fin x, Gatn.Fin y => x <= y
  end.

(** The global indices of a pass: batch index times batch size plus the
    offset within the batch, batch after batch. *)
Fixpoint global_ids (batchsize : Z) (k : Z) (offsets : list (list nat)) : list Z :=
  match offsets with
  | [] => []
  | o :: offsets' =>
      map (fun i => (k * batchsize + Z.of_nat i)%Z) o
        ++ global_ids batchsize (k + 1) offsets'
  end.

Section EpochSpec.

Context {backend : Gatn.Backend} {utils : Gatn.GenericUtils}.

Import Gatn.

(** What one epoch may do to the console: nothing when it raises, else the
    summary line, followed by the "Saving weights" line when the loss
    improved. *)
Definition epoch_effect (body : nat -> AtnParams * xloss -> M (AtnParams * xloss)) : Prop :=
  forall e atn best w,
    (exists err, body e (atn, best) w = (Raise err, w)) \/
    (exists atn' l a rt w',
       body e (atn, best) w = (Ok (atn', if xgt best l then Fin l else best), w') /\
       console w' = console w ++ EpochSummary (e + 1) l a rt
                      :: (if xgt best l then [SavingWeights best l] else [])).

Definition starts_with_summary (new : list Msg) : Prop :=
  match new with
  | SavingWeights _ _ :: _ => False
  | _ => True
  end.

(** Worlds that hold the same checkpoints. *)
Definition same_ckpts (w w' : World) : Prop :=
  clf_ckpts w = clf_ckpts w' /\ atn_ckpts w = atn_ckpts w'.

(** Worlds that agree on everything training reads: the classifier
    checkpoints and the shuffle seed. *)
Definition same_inputs (w w' : World) : Prop :=
  clf_ckpts w = clf_ckpts w' /\ rng w = rng w'.

(** The result of [m] is determined by the [R]-class of the world it starts
    in, and so is the [R]-class of the world it ends in. *)
Definition respects {A : Type} (R : World -> World -> Prop) (m : M A) : Prop :=
  forall w w', R w w' -> fst (m w) = fst (m w') /\ R (snd (m w)) (snd (m w')).

(** [m] ends in the [R]-class it started in. *)
Definition preserves {A : Type} (R : World -> World -> Prop) (m : M A) : Prop :=
  forall w, R w (snd (m w)).

(** Worlds with the same rows in the CSV log. *)
Definition same_log (w w' : World) : Prop := logfile w = logfile w'.

(** The checkpoint paths of the entry points. *)
Definition clf_checkpoint_path (dataset_name : string) (clf_name : option string) : string :=
  let clf_model_name := name_or clf_name clf_model_name_of in
  clf_basepath dataset_name clf_model_name +:+ clf_model_name.

Definition atn_checkpoint_path (dataset_name : string) (atn_name : option string)
    (target_class_id : Z) : string :=
  let atn_model_name := name_or atn_name atn_model_name_of in
  gatn_basepath dataset_name atn_model_name target_class_id
    +:+ atn_model_name +:+ "_" +:+ pretty target_class_id.

(** [m] cannot return when the classifier (ATN) checkpoint is missing. *)
Definition needs_clf {A : Type} (path : string) (m : M A) : Prop :=
  forall w, clf_ckpts w !! path = None -> exists e, fst (m w) = Raise e.

Definition needs_atn {A : Type} (path : string) (m : M A) : Prop :=
  forall w, atn_ckpts w !! path = None -> exists e, fst (m w) = Raise e.

(** The world after the text of an exception was printed. *)
Definition with_exception (w : World) (e : Exception) : World :=
  {| dirs := dirs w; clf_ckpts := clf_ckpts w; atn_ckpts := atn_ckpts w;
     rng := rng w; console := console w ++ [ExceptionText e]; logfile := logfile w |}.

(** Rows that are the failure record of one of the trials. *)
Definition sentinel_rows (datasets : list Z) (betas : list Q) (rows : list LogRow) : Prop :=
  Forall (fun r => exists did beta,
              In did datasets /\ In beta betas /\ r = GridSearch.failure_tag did beta) rows.

End EpochSpec.

End SpecSide.

(** * Further specification-side notions *)

Module MoreSpec.

Import Kernels Gatn SpecSide.

Section WorldRelations.

Context {backend : Backend}.

(** A relation between the world before and the world after that does not
    look at directories, shuffle seed or console. *)
Definition ignores_scratch (R : World -> World -> Prop) : Prop :=
  forall w d r c,
    R w {| dirs := d; clf_ckpts := clf_ckpts w; atn_ckpts := atn_ckpts w;
           rng := r; console := c; logfile := logfile w |}.

(** Both checkpoint families and the CSV log are as they were. *)
Definition untouched (w w' : World) : Prop :=
  clf_ckpts w = clf_ckpts w' /\ atn_ckpts w = atn_ckpts w' /\ logfile w = logfile w'.

(** The classifier checkpoints and the CSV log are as they were, and so is
    every ATN checkpoint but the one at [p]. *)
Definition frozen_except (p : string) (w w' : World) : Prop :=
  clf_ckpts w = clf_ckpts w' /\
  logfile w = logfile w' /\
  forall q, q <> p -> atn_ckpts w !! q = atn_ckpts w' !! q.

(** An ATN checkpoint at [p] is still there afterwards. *)
Definition atn_kept (p : string) (w w' : World) : Prop :=
  is_Some (atn_ckpts w !! p) -> is_Some (atn_ckpts w' !! p).

End WorldRelations.

End MoreSpec.

(** A dataset whose training split holds the target class only. *)
Module SingleClass.

Import Kernels Gatn.

Definition single_X : Batch := [Toy.flips; Toy.holds].
Definition single_y : Matrix := [Toy.class0; Toy.class0].

#[export] Instance single_class_utils : GenericUtils := {|
  load_dataset := fun _ => Ok (([], []), (single_X, single_y));
  split_dataset := fun X y _ => ((X, y), (X, y));
  shuffle_order := fun _ l => rev l;
  shuffle_default := false;
  shuffle_order_perm := fun _ l => Permutation_sym (Permutation_rev l)
|}.

End SingleClass.

(** * Properties *)

Import Kernels Gatn SpecSide MoreSpec.

Section RerankingFacts.

Local Open Scope Q_scope.

Lemma reduce_sum_scale (s : Q) (l : list Q) :
  reduce_sum (map (fun v => v / s) l) == reduce_sum l / s.
Proof.
  induction l as [|a l IH]; simpl.
  - unfold Qdiv. ring.
  - rewrite IH. unfold Qdiv. ring.
Qed.

Lemma normalize_row_sum (row : list Q) :
  ~ reduce_sum row == 0 -> reduce_sum (normalize_row row) == 1.
Proof.
  intros Hs. unfold normalize_row. rewrite reduce_sum_scale.
  field. exact Hs.
Qed.

Lemma Qmax_cases (a b : Q) : Qmax a b = a \/ Qmax a b = b.
Proof.
  unfold Qmax, GenericMinMax.gmax. destruct (a ?= b); auto.
Qed.

Lemma reduce_max_is_max (r : list Q) (m : Q) :
  reduce_max r = Some m -> is_row_max m r.
Proof.
  revert m. induction r as [|a r IH]; intros m; simpl; [discriminate|].
  destruct (reduce_max r) as [m'|] eqn:Hr.
  - intros [= <-]. destruct (IH m' eq_refl) as [Hin Hle]. split.
    + destruct (Qmax_cases a m') as [-> | ->]; [left; reflexivity | right; exact Hin].
    + constructor; [apply Q.le_max_l|].
      eapply Forall_impl; [exact Hle|]. intros v Hv. simpl in Hv.
      eapply Qle_trans; [exact Hv | apply Q.le_max_r].
  - intros [= <-]. destruct r; [|simpl in Hr; destruct (reduce_max r); discriminate].
    split; [left; reflexivity | constructor; [apply Qle_refl | constructor]].
Qed.

Lemma reduce_max_nonempty (r : list Q) :
  r <> [] -> exists m, reduce_max r = Some m.
Proof.
  destruct r as [|a r]; [congruence|]. intros _. simpl.
  destruct (reduce_max r); eauto.
Qed.

Lemma reduce_sum_nonneg (r : list Q) :
  Forall (fun v => 0 <= v) r -> 0 <= reduce_sum r.
Proof.
  induction 1 as [|a r Ha _ IH]; simpl; [apply Qle_refl|].
  replace 0 with (0 + 0) by reflexivity. apply Qplus_le_compat; assumption.
Qed.

Lemma reduce_sum_le_zero (r : list Q) (m : Q) :
  Forall (fun v => v <= m) r -> m <= 0 -> reduce_sum r <= 0.
Proof.
  intros Hr Hm. induction Hr as [|a r Ha _ IH]; simpl; [apply Qle_refl|].
  replace 0 with (0 + 0) by reflexivity. apply Qplus_le_compat; [|exact IH].
  eapply Qle_trans; eassumption.
Qed.

Lemma prob_row_max_pos (r : list Q) (m : Q) :
  prob_row r -> is_row_max m r -> 0 < m.
Proof.
  intros [_ Hsum] [_ Hle]. destruct (Qlt_le_dec 0 m) as [Hpos|Hneg]; [exact Hpos|].
  pose proof (reduce_sum_le_zero r m Hle Hneg) as H0.
  rewrite Hsum in H0. exfalso. revert H0. apply Qlt_not_le. reflexivity.
Qed.

Lemma reduce_sum_insert_ge (r : list Q) (i : nat) (v : Q) :
  Forall (fun a => 0 <= a) r -> (i < length r)%nat ->
  v <= reduce_sum (<[i := v]> r).
Proof.
  intros Hr. revert i. induction Hr as [|a r Ha Hr IH]; intros i Hi; simpl in *; [lia|].
  destruct i as [|i]; simpl.
  - rewrite <- (Qplus_0_r v) at 1. apply Qplus_le_compat; [apply Qle_refl|].
    apply reduce_sum_nonneg, Hr.
  - rewrite <- (Qplus_0_l v) at 1. apply Qplus_le_compat; [exact Ha|].
    apply IH. lia.
Qed.

Lemma norm_index_valid (n t : nat) :
  (t < n)%nat -> norm_index n (Z.of_nat t) = Ok t.
Proof.
  intros Ht. unfold norm_index.
  replace (0 <=? Z.of_nat t)%Z with true by (symmetry; apply Z.leb_le; lia).
  replace (Z.of_nat t <? Z.of_nat n)%Z with true by (symmetry; apply Z.ltb_lt; lia).
  simpl. rewrite Nat2Z.id. reflexivity.
Qed.

Lemma rmapM_assign_target (y : Matrix) (t C : nat) (alpha : Q) :
  Forall (fun r => length r = C) y -> (t < C)%nat ->
  exists w,
    rmapM (fun rm => assign_target (Z.of_nat t) alpha (fst rm) (snd rm))
      (combine y (map reduce_max y)) = Ok w /\
    Forall2 (fun row wr => exists m, reduce_max row = Some m /\
                                     wr = <[t := alpha * m]> row) y w.
Proof.
  intros Hy Ht. induction Hy as [|row y Hrow _ IH].
  - exists []. split; [reflexivity | constructor].
  - destruct IH as (w & Hw & HF).
    destruct (reduce_max_nonempty row) as [m Hm].
    { intros ->. simpl in Hrow. lia. }
    exists (<[t := alpha * m]> row :: w). split.
    + simpl. unfold assign_target at 1. simpl.
      rewrite norm_index_valid by lia. simpl. rewrite Hm.
      simpl. rewrite Hw. reflexivity.
    + constructor; [exists m; auto | exact HF].
Qed.

(** C2: for a matrix of probability rows with [C] columns, a target class
    [t < C] and [alpha > 1], [reranking] returns, row by row, the row with
    entry [t] set to [alpha] times the row maximum and then divided by its
    new sum; every row of the result sums to 1. *)
Theorem reranking_rows_sum_to_one (y : Matrix) (t C : nat) (alpha : Q) :
  Forall (fun r => length r = C /\ prob_row r) y ->
  (t < C)%nat ->
  1 < alpha ->
  exists y',
    reranking y (Z.of_nat t) alpha = Ok y' /\
    Forall2 (fun row row' =>
               exists m, is_row_max m row /\ row' = rerank_row_spec row t alpha m)
      y y' /\
    Forall (fun row' => reduce_sum row' == 1) y'.
Proof.
  intros Hy Ht Halpha.
  assert (Hlen : Forall (fun r => length r = C) y).
  { eapply Forall_impl; [exact Hy|]. intros r [H _]. exact H. }
  destruct (rmapM_assign_target y t C alpha Hlen Ht) as (w & Hw & HF).
  exists (map normalize_row w). split; [|split].
  - unfold reranking. simpl. rewrite Hw. reflexivity.
  - clear Hw Hlen. induction HF as [|row wr y w (m & Hm & ->) _ IH]; simpl.
    + constructor.
    + constructor.
      * exists m. split; [apply reduce_max_is_max, Hm | reflexivity].
      * apply IH. inversion Hy; assumption.
  - clear Hw Hlen. induction HF as [|row wr y w (m & Hm & ->) _ IH]; simpl.
    + constructor.
    + inversion Hy as [|? ? [Hl Hp] Hy']; subst. constructor; [|apply IH, Hy'].
      apply normalize_row_sum. intros Hz.
      pose proof (prob_row_max_pos row m Hp (reduce_max_is_max _ _ Hm)) as Hpos.
      assert (Hge : alpha * m <= reduce_sum (<[t := alpha * m]> row)).
      { apply reduce_sum_insert_ge; [apply Hp | lia]. }
      rewrite Hz in Hge.
      assert (Hprod : 0 < alpha * m).
      { apply Qmult_lt_0_compat; [|exact Hpos].
        eapply Qlt_trans; [|exact Halpha]. reflexivity. }
      exact (Qlt_not_le _ _ Hprod Hge).
Qed.

End RerankingFacts.

Section LossFacts.

Local Open Scope Q_scope.

Lemma reduce_sum_app (l1 l2 : list Q) :
  reduce_sum (l1 ++ l2) == reduce_sum l1 + reduce_sum l2.
Proof.
  induction l1 as [|a l1 IH]; simpl; [ring|]. rewrite IH. ring.
Qed.

Lemma reduce_sum_row_means (rows : list (list Q)) (C : nat) :
  Forall (fun r => length r = C) rows ->
  reduce_sum (map reduce_mean rows)
  == reduce_sum (concat rows) / inject_Z (Z.of_nat C).
Proof.
  induction 1 as [|r rows Hr _ IH]; simpl.
  - unfold Qdiv. ring.
  - rewrite IH, reduce_sum_app. unfold reduce_mean. rewrite Hr.
    unfold Qdiv. ring.
Qed.

Lemma length_concat_rect {A : Type} (rows : list (list A)) (C : nat) :
  Forall (fun r => length r = C) rows ->
  length (concat rows) = (length rows * C)%nat.
Proof.
  induction 1 as [|r rows Hr _ IH]; simpl; [reflexivity|].
  rewrite length_app, IH, Hr. reflexivity.
Qed.

(** On a rectangular matrix the mean of the row means is the mean of all
    entries. *)
Lemma mean_of_row_means (rows : list (list Q)) (C : nat) :
  (0 < C)%nat ->
  Forall (fun r => length r = C) rows ->
  reduce_mean (map reduce_mean rows) == reduce_mean (concat rows).
Proof.
  intros HC Hrows. unfold reduce_mean at 1 3.
  rewrite reduce_sum_row_means with (C := C) by exact Hrows.
  rewrite List.length_map, (length_concat_rect rows C Hrows).
  destruct rows as [|r rows]; [reflexivity|].
  rewrite Nat2Z.inj_mul, inject_Z_mult.
  field. split.
  - change 0 with (inject_Z 0). rewrite inject_Z_injective. lia.
  - change 0 with (inject_Z 0). rewrite inject_Z_injective. simpl length. lia.
Qed.

Lemma mean_squared_error_rows (a b : Matrix) :
  mean_squared_error a b = map reduce_mean (zip_with (zip_with sq_diff) a b).
Proof.
  unfold mean_squared_error. revert b.
  induction a as [|r a IH]; intros [|r' b]; simpl; try reflexivity.
  rewrite IH. reflexivity.
Qed.

Lemma zip_with_rows_length {A B D : Type} (f : A -> B -> D)
    (a : list (list A)) (b : list (list B)) (C : nat) :
  Forall (fun r => length r = C) a ->
  Forall (fun r => length r = C) b ->
  Forall (fun r => length r = C) (zip_with (zip_with f) a b).
Proof.
  intros Ha. revert b. induction Ha as [|r a Hr _ IH]; intros b Hb; simpl.
  - constructor.
  - destruct Hb as [|r' b Hr' Hb]; constructor.
    + rewrite length_zip_with. lia.
    + apply IH, Hb.
Qed.

(** The mean over rows of [tf.losses.mean_squared_error] is the mean squared
    error over all entries. *)
Lemma mean_squared_error_mse_all (a b : Matrix) (C : nat) :
  (0 < C)%nat ->
  Forall (fun r => length r = C) a ->
  Forall (fun r => length r = C) b ->
  reduce_mean (mean_squared_error a b) == mse_all a b.
Proof.
  intros HC Ha Hb. rewrite mean_squared_error_rows. unfold mse_all.
  apply mean_of_row_means with (C := C); [exact HC|].
  apply zip_with_rows_length; assumption.
Qed.

Lemma rmapM_norm_index (out : Matrix) (t C : nat) :
  (t < C)%nat ->
  Forall (fun r => length r = C) out ->
  rmapM (fun row => norm_index (length row) (Z.of_nat t)) out
  = Ok (map (fun _ => t) out).
Proof.
  intros Ht. induction 1 as [|r out Hr _ IH]; simpl; [reflexivity|].
  rewrite norm_index_valid by lia. rewrite IH. reflexivity.
Qed.

Lemma reranking_ok (y : Matrix) (t C : nat) (alpha : Q) :
  (t < C)%nat ->
  Forall (fun r => length r = C) y ->
  exists y', reranking y (Z.of_nat t) alpha = Ok y' /\
             Forall (fun r => length r = C) y'.
Proof.
  intros Ht Hy.
  destruct (rmapM_assign_target y t C alpha Hy Ht) as (w & Hw & HF).
  exists (map normalize_row w). split.
  - unfold reranking. simpl. rewrite Hw. reflexivity.
  - clear Hw. induction HF as [|row wr y w (m & _ & ->) _ IH]; simpl; constructor.
    + unfold normalize_row. rewrite List.length_map, length_insert.
      inversion Hy; assumption.
    + apply IH. inversion Hy; assumption.
Qed.

Context {backend : Backend}.

Lemma compute_target_gradient_ok (x : Batch) (clf : ClfParams) (t C : nat) :
  (t < C)%nat ->
  Forall (fun r => length r = C) (clf_model clf x) ->
  compute_target_gradient x clf (Z.of_nat t)
  = Ok (clf_model clf x, input_gradient clf (Z.of_nat t) x).
Proof.
  intros Ht Hout. unfold compute_target_gradient.
  rewrite (rmapM_norm_index _ t C Ht Hout). reflexivity.
Qed.

(** C1: the loss of a training batch is
    [beta * mean((x - x_adv)^2) + mean_squared_error(rerank(y_pred_clean), y_pred_adv)],
    with [x_adv] the ATN output and the two predictions those of the frozen
    classifier on [x] and on [x_adv]; this value is what the batch adds to
    the running training loss. *)
Theorem train_batch_loss_formula (clf : ClfParams) (atn : AtnParams)
    (x : Batch) (y : Matrix) (t C : nat) (alpha beta : Q) (train_loss : Mean) :
  let y_pred_clean := clf_model clf x in
  let x_adv := atn_model atn x (input_gradient clf (Z.of_nat t) x) true in
  let y_pred_adv := clf_model clf x_adv in
  (t < C)%nat ->
  Forall (fun r => length r = C) y_pred_clean ->
  Forall (fun r => length r = C) y_pred_adv ->
  exists reranked loss atn' train_loss',
    reranking y_pred_clean (Z.of_nat t) alpha = Ok reranked /\
    batch_loss clf (Z.of_nat t) alpha beta x atn = Ok loss /\
    loss == beta * mean_sq x x_adv + mse_all reranked y_pred_adv /\
    train_step clf (Z.of_nat t) alpha beta (atn, train_loss) (x, y)
    = Ok (atn', train_loss') /\
    total train_loss' == total train_loss + loss /\
    count train_loss' == count train_loss + 1.
Proof.
  intros y_pred_clean x_adv y_pred_adv Ht Hclean Hadv.
  destruct (reranking_ok y_pred_clean t C alpha Ht Hclean) as (reranked & Hr & Hlen).
  assert (Hloss : batch_loss clf (Z.of_nat t) alpha beta x atn
                  = Ok (beta * reduce_sum
                                 (concat [[reduce_mean (flatten3 (squared_difference x x_adv))]])
                        + reduce_mean (mean_squared_error reranked y_pred_adv))).
  { unfold batch_loss. rewrite (compute_target_gradient_ok x clf t C Ht Hclean).
    simpl. unfold targetted_mse. fold y_pred_clean. rewrite Hr. reflexivity. }
  set (loss := beta * reduce_sum
                          (concat [[reduce_mean (flatten3 (squared_difference x x_adv))]])
                 + reduce_mean (mean_squared_error reranked y_pred_adv)) in *.
  exists reranked, loss,
    (optimizer_step atn (batch_loss clf (Z.of_nat t) alpha beta x)),
    (Mean_update train_loss (reduce_mean [loss])).
  split; [exact Hr|]. split; [exact Hloss|]. split; [|split; [|split]].
  - unfold loss. rewrite (mean_squared_error_mse_all reranked y_pred_adv C) by (try assumption; lia).
    unfold mean_sq, flatten3, squared_difference. simpl. ring.
  - unfold train_step. rewrite Hloss. reflexivity.
  - simpl. unfold reduce_mean. simpl. field.
  - simpl. reflexivity.
Qed.

End LossFacts.

Section CleaningFacts.

Lemma argmax_row_label (r : list Q) : r <> [] -> argmax r = Ok (row_label r).
Proof. destruct r; [congruence | reflexivity]. Qed.

Lemma argmax_rows_labels (y : Matrix) :
  Forall (fun r => r <> []) y -> argmax_rows y = Ok (map row_label y).
Proof.
  unfold argmax_rows. induction 1 as [|r y Hr _ IH]; simpl; [reflexivity|].
  rewrite (argmax_row_label r Hr), IH. reflexivity.
Qed.

Lemma filter_zip_mask {A B : Type} (f : B -> bool) (a : list A) (b : list B) :
  List.filter snd (zip a (map f b))
  = map (fun s => (fst s, f (snd s))) (List.filter (fun s => f (snd s)) (zip a b)).
Proof.
  revert b. induction a as [|x a IH]; intros [|z b]; simpl; try reflexivity.
  destruct (f z) eqn:Hf; simpl; rewrite IH; [rewrite Hf|]; reflexivity.
Qed.

Lemma filter_zip_self {B : Type} (f : B -> bool) (b : list B) :
  map fst (List.filter snd (zip b (map f b))) = List.filter f b.
Proof.
  induction b as [|z b IH]; simpl; [reflexivity|].
  destruct (f z); simpl; rewrite IH; reflexivity.
Qed.

Lemma filter_zip_snd {A B : Type} (f : B -> bool) (a : list A) (b : list B) :
  length a = length b ->
  map snd (List.filter (fun s => f (snd s)) (zip a b)) = List.filter f b.
Proof.
  revert b. induction a as [|x a IH]; intros [|z b] Hl; simpl in *; try lia; [reflexivity|].
  destruct (f z); simpl; rewrite IH by lia; reflexivity.
Qed.

Lemma zip_map_fst_snd {A B : Type} (l : list (A * B)) :
  zip (map fst l) (map snd l) = l.
Proof.
  induction l as [|[a b] l IH]; simpl; [reflexivity | rewrite IH; reflexivity].
Qed.

(** C8: the cleaning step of [train_gatn] keeps exactly the samples whose
    label differs from [target_class_id], so the training split it leaves
    holds no sample of the target class. *)
Theorem cleaning_removes_target_class (X_train : Batch) (y_train : Matrix)
    (target_class_id : Z) :
  length X_train = length y_train ->
  Forall (fun r => r <> []) y_train ->
  exists X' y',
    cleaning X_train y_train target_class_id = Ok (X', y') /\
    zip X' y' = List.filter (fun s => negb (is_target_row target_class_id (snd s)))
                  (zip X_train y_train) /\
    length X' = length y' /\
    Forall (fun r => is_target_row target_class_id r = false) y'.
Proof.
  intros Hlen Hrows.
  set (keep := fun r => negb (is_target_row target_class_id r)).
  assert (Hmask : cleaning_mask y_train target_class_id = Ok (map keep y_train)).
  { unfold cleaning_mask. rewrite (argmax_rows_labels y_train Hrows). simpl.
    rewrite List.map_map. reflexivity. }
  set (kept := List.filter (fun s => keep (snd s)) (zip X_train y_train)).
  exists (map fst kept), (map snd kept). split; [|split; [|split]].
  - unfold cleaning. rewrite Hmask. simpl. unfold mask_select.
    rewrite !List.length_map, Hlen, Nat.eqb_refl. simpl.
    rewrite filter_zip_mask, List.map_map. simpl.
    rewrite filter_zip_self. unfold kept.
    rewrite (filter_zip_snd keep X_train y_train Hlen). reflexivity.
  - rewrite zip_map_fst_snd. reflexivity.
  - rewrite !List.length_map. reflexivity.
  - apply List.Forall_forall. intros r Hin. apply List.in_map_iff in Hin.
    destruct Hin as (s & <- & Hs). apply List.filter_In in Hs. destruct Hs as [_ Hk].
    unfold keep in Hk. apply negb_true_iff in Hk. exact Hk.
Qed.

End CleaningFacts.

Section BestLossFacts.

Local Open Scope Q_scope.

Lemma Qltb_lt (a b : Q) : Qltb a b = true <-> a < b.
Proof.
  unfold Qltb. rewrite negb_true_iff. split.
  - intros H. apply Qnot_le_lt. intros Hle. apply Qle_bool_iff in Hle. congruence.
  - intros H. destruct (Qle_bool b a) eqn:E; [|reflexivity].
    apply Qle_bool_iff in E. exfalso. exact (Qlt_not_le _ _ H E).
Qed.

Lemma xgt_improve (b : xloss) (p l : Q) :
  xgt (if xgt b p then Fin p else b) l = true <-> xgt b l = true /\ l < p.
Proof.
  destruct (xgt b p) eqn:Hbp; simpl.
  - rewrite Qltb_lt. destruct b as [|b]; simpl in *; [tauto|].
    rewrite Qltb_lt in *. split; [|tauto]. intros H. split; [|exact H].
    eapply Qlt_trans; eassumption.
  - destruct b as [|b]; simpl in *; [discriminate|].
    rewrite Qltb_lt. split; [|tauto]. intros H. split; [exact H|].
    eapply Qlt_le_trans; [exact H|]. apply Qnot_lt_le. intros Hlt.
    apply Qltb_lt in Hlt. congruence.
Qed.

Lemma xgt_best_after (b : xloss) (pre : list Q) (l : Q) :
  xgt (best_after b pre) l = true <-> xgt b l = true /\ Forall (fun p => l < p) pre.
Proof.
  revert b. induction pre as [|p pre IH]; intros b; simpl.
  - split; [intros H; split; [exact H | constructor] | tauto].
  - unfold best_after in *. simpl. rewrite IH, xgt_improve. split.
    + intros [[H1 H2] H3]. split; [exact H1 | constructor; assumption].
    + intros [H1 H2]. inversion H2; subst. tauto.
Qed.

Lemma save_flags_fst (b : xloss) (ls : list Q) : map fst (save_flags b ls) = ls.
Proof.
  revert b. induction ls as [|l ls IH]; intros b; simpl; [reflexivity|].
  rewrite IH. reflexivity.
Qed.

Lemma save_flags_lookup (b : xloss) (ls : list Q) (i : nat) (l : Q) (s : bool) :
  save_flags b ls !! i = Some (l, s) ->
  ls !! i = Some l /\ s = xgt (best_after b (take i ls)) l.
Proof.
  revert b i. induction ls as [|l0 ls IH]; intros b i; simpl; [discriminate|].
  destruct i as [|i]; simpl.
  - intros [= <- <-]. split; reflexivity.
  - intros H. apply IH in H. exact H.
Qed.

(** A checkpoint is due at epoch [i] exactly when its loss is strictly
    lower than the loss of every earlier epoch. *)
Lemma save_flags_rule (ls : list Q) (i : nat) (l : Q) (s : bool) :
  save_flags PosInf ls !! i = Some (l, s) ->
  (s = true <-> forall j l', (j < i)%nat -> ls !! j = Some l' -> l < l').
Proof.
  intros H. apply save_flags_lookup in H. destruct H as [Hl ->].
  rewrite xgt_best_after. simpl. split.
  - intros [_ HF] j l' Hj Hl'. rewrite List.Forall_forall in HF. apply HF.
    apply list_elem_of_In. apply list_elem_of_lookup. exists j.
    rewrite lookup_take_lt by exact Hj. exact Hl'.
  - intros Hall. split; [reflexivity|]. apply List.Forall_forall. intros p Hp.
    apply list_elem_of_In, list_elem_of_lookup in Hp. destruct Hp as [j Hj].
    assert (Hji : (j < i)%nat).
    { apply lookup_lt_Some in Hj. rewrite length_take in Hj. lia. }
    rewrite lookup_take_lt in Hj by exact Hji. eapply Hall; eassumption.
Qed.

Context {backend : Backend} {utils : GenericUtils}.

Lemma epoch_log_block (e : nat) (l a rt : Q) (best : xloss) (saved : bool)
    (new : list Msg) :
  starts_with_summary new ->
  epoch_log ((EpochSummary e l a rt :: (if saved then [SavingWeights best l] else []))
             ++ new)
  = (l, saved) :: epoch_log new.
Proof.
  intros Hnew. destruct saved; simpl; [reflexivity|].
  destruct new as [|[] new]; simpl in *; try reflexivity. contradiction.
Qed.

Lemma run_epoch_effect (clf : ClfParams) (target : Z) (alpha beta : Q)
    (train_dataset test_dataset : list DataBatch) (num_train_batches : Z)
    (path : string) :
  epoch_effect (run_epoch clf target alpha beta train_dataset test_dataset
                  num_train_batches path).
Proof.
  intros e atn best w. unfold run_epoch.
  unfold mbind, StateErr_bind, lift.
  destruct (rfoldl _ (atn, Mean_new) _) as [[atn' train_loss]|err]; [|left; eauto].
  destruct (rfoldl _ (Mean_new, Mean_new) _) as [[test_acc test_rate]|err]; [|left; eauto].
  right. exists atn', (Mean_result train_loss), (Mean_result test_acc),
    (Mean_result test_rate).
  unfold print at 1. cbv beta iota.
  unfold checkpoint_decision.
  destruct (xgt best (Mean_result train_loss)); simpl.
  - eexists. split; [reflexivity|]. simpl. rewrite <- app_assoc. reflexivity.
  - eexists. split; [reflexivity|]. reflexivity.
Qed.

Lemma epochs_loop_console
    (body : nat -> AtnParams * xloss -> M (AtnParams * xloss)) :
  epoch_effect body ->
  forall n e atn best w,
  exists ls new,
    console (snd (epochs_loop body n e (atn, best) w)) = console w ++ new /\
    starts_with_summary new /\
    epoch_log new = save_flags best ls /\
    forall st, fst (epochs_loop body n e (atn, best) w) = Ok st ->
               snd st = best_after best ls /\ length ls = n.
Proof.
  intros Hbody. induction n as [|n IH]; intros e atn best w.
  - exists [], []. simpl. rewrite app_nil_r.
    split; [reflexivity|]. split; [exact I|]. split; [reflexivity|].
    intros st [= <-]. split; reflexivity.
  - simpl. unfold mbind, StateErr_bind.
    destruct (Hbody e atn best w) as [[err Herr] | (atn' & l & a & rt & w' & Hok & Hcon)].
    + rewrite Herr. exists [], []. simpl. rewrite app_nil_r.
      split; [reflexivity|]. split; [exact I|]. split; [reflexivity|].
      intros st; discriminate.
    + rewrite Hok.
      destruct (IH (S e) atn' (if xgt best l then Fin l else best) w')
        as (ls & new & Hc & Hs & Hlog & Hfin).
      exists (l :: ls),
        ((EpochSummary (e + 1) l a rt
            :: (if xgt best l then [SavingWeights best l] else [])) ++ new).
      split; [|split; [|split]].
      * rewrite Hc, Hcon. rewrite <- !app_assoc. reflexivity.
      * exact I.
      * rewrite epoch_log_block by exact Hs. simpl. rewrite Hlog. reflexivity.
      * intros st Hst. destruct (Hfin st Hst) as [H1 H2]. split; [|simpl; lia].
        rewrite H1. reflexivity.
Qed.

Lemma xle_refl (a : xloss) : xle a a.
Proof. destruct a; simpl; [exact I | apply Qle_refl]. Qed.

Lemma xle_trans (a b c : xloss) : xle a b -> xle b c -> xle a c.
Proof.
  destruct a, b, c; simpl; try tauto. apply Qle_trans.
Qed.

Lemma xle_improve (b : xloss) (l : Q) :
  xle (if xgt b l then Fin l else b) b /\ xle (if xgt b l then Fin l else b) (Fin l).
Proof.
  destruct (xgt b l) eqn:E.
  - split; [|apply Qle_refl]. destruct b as [|b]; simpl in *; [exact I|].
    apply Qlt_le_weak, Qltb_lt, E.
  - split; [apply xle_refl|]. destruct b as [|b]; simpl in *; [discriminate|].
    apply Qnot_lt_le. intros H. apply Qltb_lt in H. congruence.
Qed.

Lemma best_after_le (b : xloss) (ls : list Q) : xle (best_after b ls) b.
Proof.
  revert b. induction ls as [|l ls IH]; intros b; [apply xle_refl|].
  unfold best_after in *. simpl. eapply xle_trans; [apply IH | apply xle_improve].
Qed.

Lemma best_after_lower_bound (b : xloss) (ls : list Q) :
  Forall (fun l => xle (best_after b ls) (Fin l)) ls.
Proof.
  revert b. induction ls as [|l ls IH]; intros b; constructor.
  - unfold best_after. simpl. eapply xle_trans; [apply best_after_le | apply xle_improve].
  - apply IH.
Qed.

(** C3: the checkpoint decision of [train_gatn].  At the end of an epoch
    the ATN checkpoint is written, and [best_loss] replaced by the epoch's
    mean training loss, exactly when that loss is strictly below
    [best_loss]; started from [+inf], the epochs of a run are saved exactly
    when their loss is strictly lower than the loss of every earlier epoch,
    and the final [best_loss] bounds every epoch loss from below and never
    increases; a loss of 0.5 after [+inf] is saved, a following 0.6 is not
    and leaves [best_loss] at 0.5. *)
Theorem checkpoint_on_strict_improvement :
  (forall (path : string) (atn : AtnParams) (best : xloss) (l : Q) (w : World),
      checkpoint_decision path atn best l w
      = if xgt best l
        then (Ok (Fin l),
              {| dirs := dirs w; clf_ckpts := clf_ckpts w;
                 atn_ckpts := <[path := atn]> (atn_ckpts w); rng := rng w;
                 console := console w ++ [SavingWeights best l];
                 logfile := logfile w |})
        else (Ok best, w)) /\
  (forall (best : xloss) (l : Q),
      xgt best l = true <-> match best with PosInf => True | Fin b => l < b end) /\
  (forall clf target alpha beta train_dataset test_dataset num_train_batches path
          (epochs : nat) (atn : AtnParams) (w : World),
      let run := epochs_loop
                   (run_epoch clf target alpha beta train_dataset test_dataset
                      num_train_batches path)
                   epochs 0 (atn, PosInf) w in
      exists new,
        console (snd run) = console w ++ new /\
        (forall i l s,
            epoch_log new !! i = Some (l, s) ->
            (s = true <->
             forall j l' s', (j < i)%nat -> epoch_log new !! j = Some (l', s') -> l < l')) /\
        (forall st,
            fst run = Ok st ->
            length (epoch_log new) = epochs /\
            snd st = best_after PosInf (map fst (epoch_log new)) /\
            Forall (fun ls => xle (snd st) (Fin (fst ls))) (epoch_log new))) /\
  (forall (best : xloss) (ls : list Q), xle (best_after best ls) best) /\
  (forall (path : string) (atn0 atn1 : AtnParams) (w : World),
      let r1 := checkpoint_decision path atn0 PosInf (1 # 2) w in
      let r2 := checkpoint_decision path atn1 (Fin (1 # 2)) (6 # 10) (snd r1) in
      fst r1 = Ok (Fin (1 # 2)) /\
      atn_ckpts (snd r1) !! path = Some atn0 /\
      fst r2 = Ok (Fin (1 # 2)) /\
      snd r2 = snd r1).
Proof.
  split; [|split; [|split; [|split]]].
  - intros path atn best l w. unfold checkpoint_decision.
    destruct (xgt best l); reflexivity.
  - intros [|b] l; simpl; [tauto | apply Qltb_lt].
  - intros clf target alpha beta train_dataset test_dataset nb path epochs atn w run.
    destruct (epochs_loop_console _
                (run_epoch_effect clf target alpha beta train_dataset test_dataset nb path)
                epochs 0%nat atn PosInf w) as (ls & new & Hc & _ & Hlog & Hfin).
    exists new. split; [exact Hc|]. split.
    + intros i l s Hi. rewrite Hlog in Hi.
      rewrite (save_flags_rule ls i l s Hi). split.
      * intros H j l' s' Hj Hl'. rewrite Hlog in Hl'.
        apply save_flags_lookup in Hl'. eapply H; [exact Hj | apply Hl'].
      * intros H j l' Hj Hl'.
        assert (Hs : exists s', save_flags PosInf ls !! j = Some (l', s')).
        { assert (Hm : map fst (save_flags PosInf ls) !! j = Some l')
            by (rewrite save_flags_fst; exact Hl').
          change (map fst (save_flags PosInf ls)) with (fst <$> save_flags PosInf ls) in Hm.
          rewrite list_lookup_fmap in Hm.
          destruct (save_flags PosInf ls !! j) as [[l'' s']|]; [|discriminate].
          simpl in Hm. injection Hm as ->. eauto. }
        destruct Hs as [s' Hs]. rewrite <- Hlog in Hs. eapply H; eassumption.
    + intros st Hst. destruct (Hfin st Hst) as [Hb Hn].
      rewrite Hlog, save_flags_fst. split; [|split; [exact Hb|]].
      * rewrite <- (save_flags_fst PosInf ls) in Hn.
        rewrite List.length_map in Hn. exact Hn.
      * rewrite Hb.
        apply (proj1 (List.Forall_map fst (fun l => xle (best_after PosInf ls) (Fin l))
                        (save_flags PosInf ls))).
        rewrite save_flags_fst. apply best_after_lower_bound.
  - intros best ls. apply best_after_le.
  - intros path atn0 atn1 w. simpl. split; [reflexivity|]. split.
    + apply lookup_insert_eq.
    + split; reflexivity.
Qed.

End BestLossFacts.

Section EvaluationFacts.

Local Open Scope Q_scope.

Context {backend : Backend}.

Lemma rfoldl_eval_step (clf : ClfParams) (atn : AtnParams) (t bs : Z)
    (ds : list DataBatch) (st : EvalState) :
  rfoldl (eval_step clf atn t bs) st ds
  = (ss ← rmapM (eval_batch clf atn t) ds;
     Ok (fold_left (eval_accumulate bs) ss st)).
Proof.
  revert st. induction ds as [|b ds IH]; intros st; simpl; [reflexivity|].
  unfold eval_step at 1. destruct (eval_batch clf atn t b) as [s|e]; simpl; [|reflexivity].
  rewrite IH. destruct (rmapM (eval_batch clf atn t) ds); reflexivity.
Qed.

Lemma Mean_fold (proj : BatchScores -> Q) (sel : EvalState -> Mean) (bs : Z) :
  (forall st s, sel (eval_accumulate bs st s) = Mean_update (sel st) (proj s)) ->
  forall ss st,
    total (sel (fold_left (eval_accumulate bs) ss st))
    == total (sel st) + reduce_sum (map proj ss) /\
    count (sel (fold_left (eval_accumulate bs) ss st))
    == count (sel st) + inject_Z (Z.of_nat (length ss)).
Proof.
  intros Hsel. induction ss as [|s ss IH]; intros st.
  - cbn [fold_left map reduce_sum fold_right length].
    change (inject_Z (Z.of_nat 0)) with 0. split; symmetry; apply Qplus_0_r.
  - cbn [fold_left]. destruct (IH (eval_accumulate bs st s)) as [Ht Hc].
    rewrite Ht, Hc, Hsel. cbn [Mean_update total count map length].
    change (reduce_sum (proj s :: map proj ss)) with (proj s + reduce_sum (map proj ss)).
    rewrite Nat2Z.inj_succ. unfold Z.succ. rewrite inject_Z_plus.
    change (inject_Z 1) with 1. split; ring.
Qed.

Lemma Mean_result_mean (m : Mean) (vs : list Q) :
  total m == reduce_sum vs ->
  count m == inject_Z (Z.of_nat (length vs)) ->
  Mean_result m == reduce_mean vs.
Proof.
  intros Ht Hc. unfold Mean_result, reduce_mean.
  destruct (Qeq_bool (count m) 0) eqn:E.
  - apply Qeq_bool_eq in E. rewrite <- Hc, E. unfold Qdiv.
    change (/ 0) with 0. ring.
  - rewrite Ht, Hc. reflexivity.
Qed.

Lemma Mean_fold_result (proj : BatchScores -> Q) (sel : EvalState -> Mean) (bs : Z) :
  (forall st s, sel (eval_accumulate bs st s) = Mean_update (sel st) (proj s)) ->
  sel EvalState_new = Mean_new ->
  forall ss,
    Mean_result (sel (fold_left (eval_accumulate bs) ss EvalState_new))
    == reduce_mean (map proj ss).
Proof.
  intros Hsel Hnew ss. destruct (Mean_fold proj sel bs Hsel ss EvalState_new) as [Ht Hc].
  apply Mean_result_mean.
  - rewrite Ht, Hnew. simpl. ring.
  - rewrite Hc, Hnew, List.length_map. simpl. ring.
Qed.

(** C7: every metric an evaluation pass returns is the unweighted
    arithmetic mean of the per-batch values over the batches the pass
    visits, whatever the sizes of the batches.  It is not the mean over the
    samples: three samples of which two are turned into the target give a
    target rate of 3/4 in batches of two and one, and 2/3 in one batch. *)
Theorem metrics_are_means_of_batch_means (clf : ClfParams) (atn : AtnParams)
    (t bs num : Z) (dataset : list DataBatch) :
  scores_pass clf atn t bs num dataset
  = (ss ← rmapM (eval_batch clf atn t) (take (Z.to_nat num) dataset);
     Ok (fold_left (eval_accumulate bs) ss EvalState_new)) /\
  eval_pass clf atn t bs dataset
  = (ss ← rmapM (eval_batch clf atn t) dataset;
     Ok (fold_left (eval_accumulate bs) ss EvalState_new)) /\
  (forall ss : list BatchScores,
    match scores_of (fold_left (eval_accumulate bs) ss EvalState_new) with
    | (mse, acc_realistic, acc_optimistic, rate, _) =>
        mse == reduce_mean (map b_mse ss) /\
        acc_realistic == reduce_mean (map b_acc_white ss) /\
        acc_optimistic == reduce_mean (map b_acc_black ss) /\
        rate == reduce_mean (map b_target_rate ss)
    end) /\
  (let X := drop 4 Toy.toy_X in
   let y := drop 4 Toy.toy_y in
   exists two_batches one_batch st2 st1,
     batch_split (fun l => l) X y 2 = Ok two_batches /\
     batch_split (fun l => l) X y 3 = Ok one_batch /\
     map (fun b : DataBatch => length (fst b)) two_batches = [2; 1]%nat /\
     map (fun b : DataBatch => length (fst b)) one_batch = [3]%nat /\
     @eval_pass Toy.toy_backend tt 0%nat 1 2 two_batches = Ok st2 /\
     @eval_pass Toy.toy_backend tt 0%nat 1 3 one_batch = Ok st1 /\
     Mean_result (target_rate_mean st2) == 3 # 4 /\
     Mean_result (target_rate_mean st1) == 2 # 3).
Proof.
  split; [|split; [|split]].
  - unfold scores_pass, eval_pass. apply rfoldl_eval_step.
  - unfold eval_pass. apply rfoldl_eval_step.
  - intros ss. unfold scores_of. repeat split.
    + apply (Mean_fold_result b_mse mse_mean); reflexivity.
    + apply (Mean_fold_result b_acc_white acc_realistic); reflexivity.
    + apply (Mean_fold_result b_acc_black acc_optimistic); reflexivity.
    + apply (Mean_fold_result b_target_rate target_rate_mean); reflexivity.
  - cbv zeta. eexists _, _, _, _.
    split; [vm_compute; reflexivity|]. split; [vm_compute; reflexivity|].
    split; [reflexivity|]. split; [reflexivity|].
    split; [vm_compute; reflexivity|]. split; [vm_compute; reflexivity|].
    split; reflexivity.
Qed.

Lemma argwhere_from_In (found : list bool) (k i : nat) :
  In i (argwhere_from k found)
  <-> exists j, i = (k + j)%nat /\ found !! j = Some true.
Proof.
  revert k. induction found as [|b found IH]; intros k; simpl.
  - split; [tauto | intros (j & _ & H); discriminate].
  - assert (Hrest : In i (argwhere_from (S k) found)
                    <-> exists j, i = (k + S j)%nat /\ found !! j = Some true).
    { rewrite IH. split; intros (j & -> & H); exists j; split; auto; lia. }
    destruct b; simpl; rewrite Hrest; split.
    + intros [<- | (j & -> & H)]; [exists 0%nat; split; [lia | reflexivity]|].
      exists (S j). split; [reflexivity | exact H].
    + intros ([|j] & -> & H); [left; lia | right; exists j; auto].
    + intros (j & -> & H). exists (S j). split; [reflexivity | exact H].
    + intros ([|j] & -> & H); [discriminate | exists j; auto].
Qed.

Lemma found_adversary_lookup (y_labels y_pred_labels y_adv_labels : list nat) (j : nat) :
  found_adversary y_labels y_pred_labels y_adv_labels !! j = Some true
  <-> exists g p a,
        y_labels !! j = Some g /\ y_pred_labels !! j = Some p /\
        y_adv_labels !! j = Some a /\ p = g /\ a <> p.
Proof.
  unfold found_adversary. rewrite !lookup_zip_with.
  destruct (y_labels !! j) as [g|]; simpl;
    [|split; [discriminate | intros (? & ? & ? & H & _); discriminate]].
  destruct (y_pred_labels !! j) as [p|]; simpl;
    [|split; [discriminate | intros (? & ? & ? & _ & H & _); discriminate]].
  destruct (y_adv_labels !! j) as [a|]; simpl;
    [|split; [discriminate | intros (? & ? & ? & _ & _ & H & _); discriminate]].
  split.
  - intros [= H]. apply andb_true_iff in H. destruct H as [H1 H2].
    apply Nat.eqb_eq in H1. apply negb_true_iff, Nat.eqb_neq in H2.
    exists g, p, a. repeat split; auto.
  - intros (g' & p' & a' & [= <-] & [= <-] & [= <-] & -> & Hne).
    f_equal. apply andb_true_iff. split; [apply Nat.eqb_refl|].
    apply negb_true_iff, Nat.eqb_neq. auto.
Qed.

Lemma fold_accumulate_ids (bs : Z) (ss : list BatchScores) (st : EvalState) :
  adversary_ids (fold_left (eval_accumulate bs) ss st)
  = adversary_ids st ++ global_ids bs (batch_id st) (map b_not_same ss) /\
  batch_id (fold_left (eval_accumulate bs) ss st)
  = (batch_id st + Z.of_nat (length ss))%Z.
Proof.
  revert st. induction ss as [|s ss IH]; intros st; simpl.
  - rewrite app_nil_r. split; [reflexivity | lia].
  - destruct (IH (eval_accumulate bs st s)) as [-> ->]. simpl.
    rewrite <- app_assoc. split; [reflexivity | lia].
Qed.

Lemma eval_batch_inv (clf : ClfParams) (atn : AtnParams) (t : Z)
    (x : Batch) (y : Matrix) (s : BatchScores) :
  eval_batch clf atn t (x, y) = Ok s ->
  exists labels preds advs,
    argmax_rows y = Ok labels /\
    checked_argmax (clf_model clf x) = Ok preds /\
    checked_argmax (clf_model clf (atn_model atn x (input_gradient clf t x) false))
    = Ok advs /\
    b_not_same s = argwhere (found_adversary labels preds advs).
Proof.
  unfold eval_batch, compute_target_gradient. unfold mbind, result_bind.
  destruct (rmapM _ (clf_model clf x)); [|discriminate].
  destruct (target_accuracy y _ t) as [[? ?]|]; [|discriminate].
  destruct (target_accuracy (clf_model clf x) _ t) as [[? ?]|]; [|discriminate].
  destruct (argmax_rows y) as [labels|]; [|discriminate].
  destruct (checked_argmax (clf_model clf x)) as [preds|]; [|discriminate].
  destruct (checked_argmax (clf_model clf _)) as [advs|]; [|discriminate].
  intros [= <-]. exists labels, preds, advs. auto.
Qed.

(** C4: the adversary index list of an evaluation pass.  A position of a
    batch is reported exactly when the clean prediction there equals the
    ground-truth label and the adversarial prediction differs from the clean
    one; the labels are the row-wise argmax of [y], of the classifier output
    on [x] and of its output on the ATN-perturbed input; the recorded index
    is [batch_index * batchsize + offset], batch after batch.  On the batch
    of four samples of the scenario the list is [0; 2] and the target rate
    is 3/4. *)
Theorem adversary_ids_rule :
  (forall (y_labels y_pred_labels y_adv_labels : list nat) (i : nat),
      In i (argwhere (found_adversary y_labels y_pred_labels y_adv_labels))
      <-> exists g p a,
            y_labels !! i = Some g /\ y_pred_labels !! i = Some p /\
            y_adv_labels !! i = Some a /\ p = g /\ a <> p) /\
  (forall (clf : ClfParams) (atn : AtnParams) (t : Z) (x : Batch) (y : Matrix)
          (s : BatchScores),
      eval_batch clf atn t (x, y) = Ok s ->
      exists labels preds advs,
        argmax_rows y = Ok labels /\
        checked_argmax (clf_model clf x) = Ok preds /\
        checked_argmax (clf_model clf (atn_model atn x (input_gradient clf t x) false))
        = Ok advs /\
        b_not_same s = argwhere (found_adversary labels preds advs)) /\
  (forall (clf : ClfParams) (atn : AtnParams) (t bs : Z) (dataset : list DataBatch),
      eval_pass clf atn t bs dataset
      = (ss ← rmapM (eval_batch clf atn t) dataset;
         Ok (fold_left (eval_accumulate bs) ss EvalState_new))) /\
  (forall (bs : Z) (ss : list BatchScores),
      adversary_ids (fold_left (eval_accumulate bs) ss EvalState_new)
      = global_ids bs 0 (map b_not_same ss)) /\
  (let x := fst Toy.scenario_batch in
   let y := snd Toy.scenario_batch in
   argmax_rows y = Ok [0; 1; 0; 1]%nat /\
   checked_argmax (@clf_model Toy.toy_backend tt x) = Ok [0; 0; 0; 0]%nat /\
   checked_argmax
     (@clf_model Toy.toy_backend tt
        (@atn_model Toy.toy_backend 0%nat x (@input_gradient Toy.toy_backend tt 1 x) false))
   = Ok [1; 1; 1; 0]%nat /\
   exists st,
     @eval_pass Toy.toy_backend tt 0%nat 1 4 [Toy.scenario_batch] = Ok st /\
     adversary_ids st = [0; 2]%Z /\
     Mean_result (target_rate_mean st) == 3 # 4).
Proof.
  split; [|split; [|split; [|split]]].
  - intros y_labels y_pred_labels y_adv_labels i. unfold argwhere.
    rewrite argwhere_from_In. split.
    + intros (j & -> & H). apply found_adversary_lookup in H. exact H.
    + intros H. exists i. split; [reflexivity|]. apply found_adversary_lookup, H.
  - apply eval_batch_inv.
  - intros clf atn t bs dataset. unfold eval_pass. apply rfoldl_eval_step.
  - intros bs ss. destruct (fold_accumulate_ids bs ss EvalState_new) as [-> _].
    reflexivity.
  - cbv zeta. split; [reflexivity|]. split; [reflexivity|]. split; [reflexivity|].
    eexists. split; [vm_compute; reflexivity|]. split; reflexivity.
Qed.

End EvaluationFacts.

Section BatchingFacts.

Lemma chunks_concat {A : Type} (fuel n : nat) (l : list A) :
  (1 <= n)%nat -> (length l <= fuel)%nat -> concat (chunks fuel n l) = l.
Proof.
  intros Hn. revert l. induction fuel as [|fuel IH]; intros l Hl.
  - destruct l; [reflexivity | simpl in Hl; lia].
  - destruct l as [|a l]; [reflexivity|].
    cbn [chunks concat]. rewrite IH.
    + apply take_drop.
    + rewrite length_drop. simpl in *. lia.
Qed.

Lemma chunks_lookup {A : Type} (fuel n : nat) (l : list A) (k : nat) (c : list A) :
  (1 <= n)%nat -> (length l <= fuel)%nat ->
  chunks fuel n l !! k = Some c ->
  c = take n (drop (k * n) l) /\ (k * n < length l)%nat.
Proof.
  intros Hn. revert l k. induction fuel as [|fuel IH]; intros l k Hl.
  - simpl. discriminate.
  - destruct l as [|a l]; [simpl; discriminate|].
    cbn [chunks]. destruct k as [|k].
    + simpl. intros [= <-]. split; [reflexivity | lia].
    + cbn [lookup list_lookup]. intros H. apply IH in H.
      * destruct H as [-> Hk]. rewrite length_drop in Hk. rewrite drop_drop.
        split; [f_equal; f_equal; lia | lia].
      * rewrite length_drop. simpl in *. lia.
Qed.

Lemma chunks_count {A : Type} (fuel n : nat) (l : list A) :
  (1 <= n)%nat -> (length l <= fuel)%nat ->
  (length (chunks fuel n l) * n < length l + n)%nat /\
  (length l <= length (chunks fuel n l) * n)%nat.
Proof.
  intros Hn. revert l. induction fuel as [|fuel IH]; intros l Hl.
  - destruct l; simpl in *; lia.
  - destruct l as [|a l]; [simpl; lia|].
    cbn [chunks length].
    assert (Hd : (length (drop n (a :: l)) <= fuel)%nat).
    { rewrite length_drop. simpl in *. lia. }
    destruct (IH _ Hd) as [H1 H2]. rewrite length_drop in H1, H2.
    simpl length in *.
    set (c := length (chunks fuel n (drop n (a :: l)))) in *.
    destruct (le_lt_dec n (S (length l))) as [Hle|Hgt].
    + replace (S (length l) - n + n)%nat with (S (length l)) in H1 by lia.
      simpl. split; lia.
    + replace (S (length l) - n)%nat with 0%nat in * by lia.
      assert (c = 0)%nat by (destruct c; [reflexivity | simpl in H1; lia]).
      subst c. rewrite H. simpl. lia.
Qed.

Lemma ceil_div_unique (N bs c : Z) :
  (1 <= bs)%Z -> (0 <= N)%Z ->
  (c * bs < N + bs)%Z -> (N <= c * bs)%Z ->
  c = (N / bs + (if (N mod bs =? 0)%Z then 0 else 1))%Z.
Proof.
  intros Hbs HN H1 H2.
  pose proof (Z.div_mod N bs ltac:(lia)) as Hdm.
  pose proof (Z.mod_pos_bound N bs ltac:(lia)) as Hr.
  destruct (N mod bs =? 0)%Z eqn:E.
  - apply Z.eqb_eq in E. nia.
  - apply Z.eqb_neq in E. nia.
Qed.

Lemma rmapM_lookup {A B : Type} (f : A -> result B) (l : list A) (l' : list B) :
  rmapM f l = Ok l' ->
  length l' = length l /\
  forall k b, l' !! k = Some b -> exists a, l !! k = Some a /\ f a = Ok b.
Proof.
  revert l'. induction l as [|a l IH]; intros l'; simpl.
  - intros [= <-]. split; [reflexivity | intros k b; discriminate].
  - destruct (f a) as [b0|] eqn:Hf; [|discriminate].
    destruct (rmapM f l) as [bs|]; [|discriminate].
    intros [= <-]. destruct (IH bs eq_refl) as [Hlen Hk]. split; [simpl; lia|].
    intros [|k] b; simpl.
    + intros [= <-]. eauto.
    + apply Hk.
Qed.

Lemma global_ids_In (bs k0 : Z) (offsets : list (list nat)) (id : Z) :
  In id (global_ids bs k0 offsets) ->
  exists k o i, offsets !! k = Some o /\ In i o /\
                id = ((k0 + Z.of_nat k) * bs + Z.of_nat i)%Z.
Proof.
  revert k0. induction offsets as [|o offsets IH]; intros k0; simpl; [tauto|].
  rewrite List.in_app_iff, List.in_map_iff. intros [(i & <- & Hi) | H].
  - exists 0%nat, o, i. repeat split; auto. f_equal. lia.
  - destruct (IH _ H) as (k & o' & i & Hk & Hi & ->).
    exists (S k), o', i. repeat split; auto. lia.
Qed.

Lemma concat_to_batch (cs : list (list Sample)) :
  concat (map (fun b : DataBatch => zip (fst b) (snd b)) (map to_batch cs)) = concat cs.
Proof.
  induction cs as [|c cs IH]; simpl; [reflexivity|].
  rewrite zip_map_fst_snd, IH. reflexivity.
Qed.

Context {backend : Backend}.

(** Every offset an evaluated batch reports lies inside the batch. *)
Lemma eval_batch_offsets (clf : ClfParams) (atn : AtnParams) (t : Z)
    (x : Batch) (y : Matrix) (s : BatchScores) (i : nat) :
  eval_batch clf atn t (x, y) = Ok s -> In i (b_not_same s) -> (i < length y)%nat.
Proof.
  intros Hs Hi. apply eval_batch_inv in Hs.
  destruct Hs as (labels & preds & advs & Hl & _ & _ & Hns).
  rewrite Hns in Hi. unfold argwhere in Hi. apply argwhere_from_In in Hi.
  destruct Hi as (j & -> & Hj). apply found_adversary_lookup in Hj.
  destruct Hj as (g & _ & _ & Hg & _).
  apply lookup_lt_Some in Hg. unfold argmax_rows in Hl.
  apply rmapM_lookup in Hl. destruct Hl as [Hlen _]. simpl. lia.
Qed.

(** The shape of the batches [batch_split] produces. *)
Lemma batch_split_shape (order : list Sample -> list Sample)
    (X : Batch) (y : Matrix) (batchsize : Z) :
  (forall l, order l ≡ₚ l) ->
  length X = length y ->
  (1 <= batchsize)%Z ->
  exists batches,
    batch_split order X y batchsize = Ok batches /\
    Z.of_nat (length batches)
    = (Z.of_nat (length X) / batchsize
       + (if (Z.of_nat (length X) mod batchsize =? 0)%Z then 0 else 1))%Z /\
    concat (map (fun b : DataBatch => zip (fst b) (snd b)) batches) = order (zip X y) /\
    forall k b,
      batches !! k = Some b ->
      length (fst b) = length (snd b) /\
      (Z.of_nat k * batchsize < Z.of_nat (length X))%Z /\
      Z.of_nat (length (fst b))
      = Z.min batchsize (Z.of_nat (length X) - Z.of_nat k * batchsize).
Proof.
  intros Hperm Hlen Hbs.
  set (samples := order (zip X y)).
  set (n := Z.to_nat batchsize).
  assert (Hn : (1 <= n)%nat) by (unfold n; lia).
  assert (Hn' : Z.of_nat n = batchsize) by (unfold n; lia).
  clearbody n.
  assert (Hsl : length samples = length X).
  { unfold samples. rewrite (Permutation_length (Hperm _)).
    rewrite length_zip_with. lia. }
  exists (map to_batch (chunks (length samples) n samples)).
  split; [|split; [|split]].
  - unfold batch_split. rewrite Hlen, Nat.eqb_refl. simpl.
    replace (batchsize <? 1)%Z with false by (symmetry; apply Z.ltb_ge; lia).
    rewrite <- Hn', Nat2Z.id. reflexivity.
  - rewrite List.length_map.
    destruct (chunks_count (length samples) n samples Hn (le_n _)) as [H1 H2].
    rewrite Hsl in H1, H2 |- *.
    apply ceil_div_unique; [lia | lia | rewrite <- Hn'; lia | rewrite <- Hn'; lia].
  - rewrite concat_to_batch. apply chunks_concat; [exact Hn | apply le_n].
  - intros k b Hk.
    change (map to_batch (chunks (length samples) n samples))
      with (to_batch <$> chunks (length samples) n samples) in Hk.
    rewrite list_lookup_fmap in Hk.
    destruct (chunks (length samples) n samples !! k) as [c|] eqn:Hc; [|discriminate].
    simpl in Hk. injection Hk as <-.
    apply chunks_lookup in Hc; [|exact Hn | apply le_n]. destruct Hc as [-> Hkn].
    unfold to_batch. simpl. rewrite !List.length_map.
    rewrite length_take, length_drop, Hsl in *.
    split; [reflexivity|].
    unfold Sample in *. rewrite <- Hn', Hsl. split; lia.
Qed.

(** The indices a pass over the batches of [batch_split] reports are
    positions of the split. *)
Lemma pass_ids_in_range (order : list Sample -> list Sample)
    (X : Batch) (y : Matrix) (batchsize : Z) (batches : list DataBatch)
    (clf : ClfParams) (atn : AtnParams) (t : Z) (st : EvalState) :
  (forall l, order l ≡ₚ l) ->
  length X = length y ->
  (1 <= batchsize)%Z ->
  batch_split order X y batchsize = Ok batches ->
  eval_pass clf atn t batchsize batches = Ok st ->
  batch_id st = Z.of_nat (length batches) /\
  Forall (fun id => (0 <= id <= Z.of_nat (length X) - 1)%Z) (adversary_ids st).
Proof.
  intros Hperm Hlen Hbs Hsplit Hpass.
  destruct (batch_split_shape order X y batchsize Hperm Hlen Hbs)
    as (batches' & Hsplit' & _ & _ & Hshape).
  rewrite Hsplit in Hsplit'. injection Hsplit' as <-.
  unfold eval_pass in Hpass. rewrite rfoldl_eval_step in Hpass.
  destruct (rmapM (eval_batch clf atn t) batches) as [ss|] eqn:Hss; [|discriminate].
  simpl in Hpass. injection Hpass as <-.
  destruct (fold_accumulate_ids batchsize ss EvalState_new) as [Hids Hbid].
  destruct (rmapM_lookup _ _ _ Hss) as [Hlen' Hlook].
  split; [rewrite Hbid, Hlen'; reflexivity|].
  rewrite Hids. simpl. apply List.Forall_forall. intros id Hid.
  apply global_ids_In in Hid. destruct Hid as (k & o & i & Hk & Hi & ->).
  change (map b_not_same ss) with (b_not_same <$> ss) in Hk.
  rewrite list_lookup_fmap in Hk.
  destruct (ss !! k) as [s|] eqn:Hs; [|discriminate]. simpl in Hk. injection Hk as <-.
  destruct (Hlook k s Hs) as ([x y'] & Hb & Hev).
  pose proof (eval_batch_offsets clf atn t x y' s i Hev Hi) as Hoff.
  destruct (Hshape k (x, y') Hb) as (Hxy & Hkn & Hsize). simpl in Hxy, Hsize.
  rewrite Hxy in Hsize. nia.
Qed.

(** C5: a split whose sample count [N] is not a multiple of the batch size
    is cut into [N // batchsize + 1] batches, all of [batchsize] samples but
    a smaller last one; together they hold every sample once; the pass
    visits every one of them, and every adversary index it reports lies in
    [0, N - 1]. *)
Theorem uneven_split_every_sample_once (order : list Sample -> list Sample)
    (X : Batch) (y : Matrix) (batchsize : Z) :
  let N := Z.of_nat (length X) in
  (forall l, order l ≡ₚ l) ->
  length X = length y ->
  (1 <= batchsize)%Z ->
  (N mod batchsize <> 0)%Z ->
  exists batches,
    batch_split order X y batchsize = Ok batches /\
    num_batches N batchsize = Ok (N / batchsize + 1)%Z /\
    Z.of_nat (length batches) = (N / batchsize + 1)%Z /\
    take (Z.to_nat (N / batchsize + 1)) batches = batches /\
    concat (map (fun b : DataBatch => zip (fst b) (snd b)) batches) ≡ₚ zip X y /\
    (forall k b,
        batches !! k = Some b ->
        length (fst b) = length (snd b) /\
        Z.of_nat (length (fst b))
        = if (Z.of_nat k <? N / batchsize)%Z then batchsize else (N mod batchsize)%Z) /\
    (N mod batchsize < batchsize)%Z /\
    (forall clf atn t st,
        scores_pass clf atn t batchsize (N / batchsize + 1) batches = Ok st ->
        batch_id st = Z.of_nat (length batches) /\
        Forall (fun id => (0 <= id <= N - 1)%Z) (adversary_ids st)).
Proof.
  intros N Hperm Hlen Hbs Hmod.
  destruct (batch_split_shape order X y batchsize Hperm Hlen Hbs)
    as (batches & Hsplit & Hcount & Hcat & Hshape).
  fold N in Hcount, Hshape.
  assert (Hne : (N mod batchsize =? 0)%Z = false) by (apply Z.eqb_neq; exact Hmod).
  rewrite Hne in Hcount.
  assert (Htake : take (Z.to_nat (N / batchsize + 1)) batches = batches).
  { apply take_ge. rewrite <- Hcount, Nat2Z.id. apply le_n. }
  exists batches. split; [exact Hsplit|]. split; [|split; [exact Hcount|]].
  { unfold num_batches, floordiv, pymod.
    replace (batchsize =? 0)%Z with false by (symmetry; apply Z.eqb_neq; lia).
    simpl. rewrite Hne. reflexivity. }
  split; [exact Htake|]. split; [rewrite Hcat; apply Hperm|].
  pose proof (Z.div_mod N batchsize ltac:(lia)) as Hdm.
  pose proof (Z.mod_pos_bound N batchsize ltac:(lia)) as Hr.
  split; [|split; [lia|]].
  - intros k b Hb. destruct (Hshape k b Hb) as (Hxy & Hkn & Hsize).
    split; [exact Hxy|]. rewrite Hsize.
    assert (Hk : (Z.of_nat k < N / batchsize + 1)%Z).
    { apply lookup_lt_Some in Hb. rewrite <- Hcount. apply inj_lt. exact Hb. }
    clearbody N. set (q := (N / batchsize)%Z) in *. clearbody q.
    destruct (Z.of_nat k <? q)%Z eqn:E.
    + apply Z.ltb_lt in E. nia.
    + apply Z.ltb_ge in E. assert (Z.of_nat k = q)%Z by lia. nia.
  - intros clf atn t st Hpass. unfold scores_pass in Hpass. rewrite Htake in Hpass.
    exact (pass_ids_in_range order X y batchsize batches clf atn t st
             Hperm Hlen Hbs Hsplit Hpass).
Qed.

End BatchingFacts.

Section WorldFacts.

Context {backend : Backend} {utils : GenericUtils}.

Lemma respects_bind {A B : Type} (R : World -> World -> Prop)
    (m : M A) (k : A -> M B) :
  respects R m -> (forall a, respects R (k a)) -> respects R (m ≫= k).
Proof.
  intros Hm Hk w w' Hw. unfold mbind, StateErr_bind.
  destruct (Hm w w' Hw) as [Hr Hs].
  destruct (m w) as [[a|e] w1], (m w') as [[a'|e'] w1']; simpl in *;
    try discriminate.
  - injection Hr as <-. apply Hk, Hs.
  - injection Hr as <-. split; [reflexivity | exact Hs].
Qed.

Lemma preserves_bind {A B : Type} (R : World -> World -> Prop)
    (m : M A) (k : A -> M B) :
  (forall x y z, R x y -> R y z -> R x z) ->
  preserves R m -> (forall a, preserves R (k a)) -> preserves R (m ≫= k).
Proof.
  intros Htrans Hm Hk w. unfold mbind, StateErr_bind.
  pose proof (Hm w) as H1. destruct (m w) as [[a|e] w1]; simpl in *; [|exact H1].
  eapply Htrans; [exact H1 | apply Hk].
Qed.

Lemma respects_lift {A : Type} (R : World -> World -> Prop) (r : result A) :
  respects R (lift r).
Proof. intros w w' Hw. split; [reflexivity | exact Hw]. Qed.

Lemma respects_mret {A : Type} (R : World -> World -> Prop) (a : A) :
  respects R (mret a : M A).
Proof. intros w w' Hw. split; [reflexivity | exact Hw]. Qed.

Lemma same_ckpts_trans (x y z : World) :
  same_ckpts x y -> same_ckpts y z -> same_ckpts x z.
Proof. intros [H1 H2] [H3 H4]. split; congruence. Qed.

Lemma same_ckpts_sym (x y : World) : same_ckpts x y -> same_ckpts y x.
Proof. intros [H1 H2]. split; congruence. Qed.

Lemma respects_print (m : Msg) : respects same_ckpts (print m).
Proof. intros w w' Hw. split; [reflexivity | exact Hw]. Qed.

Lemma respects_makedirs (p : string) : respects same_ckpts (makedirs p).
Proof. intros w w' Hw. split; [reflexivity | exact Hw]. Qed.

Lemma respects_restore_clf (p : string) : respects same_ckpts (restore_clf p).
Proof.
  intros w w' [Hc Ha]. unfold restore_clf. rewrite Hc.
  destruct (clf_ckpts w' !! p); (split; [reflexivity | split; assumption]).
Qed.

Lemma respects_restore_atn (p : string) : respects same_ckpts (restore_atn p).
Proof.
  intros w w' [Hc Ha]. unfold restore_atn. rewrite Ha.
  destruct (atn_ckpts w' !! p); (split; [reflexivity | split; assumption]).
Qed.

Lemma respects_prepare_unshuffled (X_train : Batch) (y_train : Matrix)
    (X_test : Batch) (y_test : Matrix) (bs : Z) :
  respects same_ckpts (prepare_dataset X_train y_train X_test y_test bs false).
Proof.
  intros w w' Hw. unfold prepare_dataset.
  destruct (batch_split _ X_train y_train bs); [|split; [reflexivity | exact Hw]].
  destruct (batch_split _ X_test y_test bs); (split; [reflexivity | exact Hw]).
Qed.

Lemma respects_restore_models (dataset_name : string) (t : Z)
    (atn_name clf_name : option string) :
  respects same_ckpts (restore_models dataset_name t atn_name clf_name).
Proof.
  unfold restore_models.
  apply respects_bind; [apply respects_makedirs | intros _].
  apply respects_bind; [apply respects_restore_clf | intros clf].
  apply respects_bind; [apply respects_makedirs | intros _].
  apply respects_bind; [apply respects_restore_atn | intros atn].
  apply respects_mret.
Qed.

Lemma preserves_lift {A : Type} (r : result A) : preserves same_ckpts (lift r).
Proof. intros w. split; reflexivity. Qed.

Lemma preserves_mret {A : Type} (a : A) : preserves same_ckpts (mret a : M A).
Proof. intros w. split; reflexivity. Qed.

Lemma preserves_print (m : Msg) : preserves same_ckpts (print m).
Proof. intros w. split; reflexivity. Qed.

Lemma preserves_makedirs (p : string) : preserves same_ckpts (makedirs p).
Proof. intros w. split; reflexivity. Qed.

Lemma preserves_restore_clf (p : string) : preserves same_ckpts (restore_clf p).
Proof.
  intros w. unfold restore_clf. destruct (clf_ckpts w !! p); split; reflexivity.
Qed.

Lemma preserves_restore_atn (p : string) : preserves same_ckpts (restore_atn p).
Proof.
  intros w. unfold restore_atn. destruct (atn_ckpts w !! p); split; reflexivity.
Qed.

Lemma preserves_prepare (X_train : Batch) (y_train : Matrix)
    (X_test : Batch) (y_test : Matrix) (bs : Z) (shuffle : bool) :
  preserves same_ckpts (prepare_dataset X_train y_train X_test y_test bs shuffle).
Proof.
  intros w. unfold prepare_dataset.
  destruct (batch_split _ X_train y_train bs); [|split; reflexivity].
  destruct (batch_split _ X_test y_test bs); split; reflexivity.
Qed.

Lemma preserves_restore_models (dataset_name : string) (t : Z)
    (atn_name clf_name : option string) :
  preserves same_ckpts (restore_models dataset_name t atn_name clf_name).
Proof.
  unfold restore_models.
  apply preserves_bind; [exact same_ckpts_trans | apply preserves_makedirs | intros _].
  apply preserves_bind; [exact same_ckpts_trans | apply preserves_restore_clf | intros clf].
  apply preserves_bind; [exact same_ckpts_trans | apply preserves_makedirs | intros _].
  apply preserves_bind; [exact same_ckpts_trans | apply preserves_restore_atn | intros atn].
  apply preserves_mret.
Qed.

Create HintDb world discriminated.

#[local] Hint Resolve respects_lift respects_mret respects_print respects_makedirs
  respects_restore_clf respects_restore_atn respects_prepare_unshuffled
  respects_restore_models preserves_lift preserves_mret preserves_print
  preserves_makedirs preserves_restore_clf preserves_restore_atn preserves_prepare
  preserves_restore_models : world.

Ltac world_step :=
  cbv beta;
  lazymatch goal with
  | |- respects _ (mbind _ _) => apply respects_bind; [|intros ?]
  | |- preserves _ (mbind _ _) =>
      apply preserves_bind; [exact same_ckpts_trans | |intros ?]
  | |- _ _ (match ?a with _ => _ end) => destruct a
  | |- _ => solve [auto with world]
  end.

Lemma respects_test_scores (dataset_name : string) (t bs : Z)
    (atn_name clf_name : option string) :
  respects same_ckpts (test_scores_gatn dataset_name t bs atn_name clf_name false).
Proof. unfold test_scores_gatn. repeat world_step. Qed.

Lemma preserves_test_scores (dataset_name : string) (t bs : Z)
    (atn_name clf_name : option string) (shuffle : bool) :
  preserves same_ckpts (test_scores_gatn dataset_name t bs atn_name clf_name shuffle).
Proof. unfold test_scores_gatn. repeat world_step. Qed.

Lemma respects_train_scores (dataset_name : string) (t bs : Z)
    (atn_name clf_name : option string) :
  respects same_ckpts (train_scores_gatn dataset_name t bs atn_name clf_name false).
Proof. unfold train_scores_gatn. repeat world_step. Qed.

Lemma preserves_train_scores (dataset_name : string) (t bs : Z)
    (atn_name clf_name : option string) (shuffle : bool) :
  preserves same_ckpts (train_scores_gatn dataset_name t bs atn_name clf_name shuffle).
Proof. unfold train_scores_gatn. repeat world_step. Qed.

(** C6: evaluating twice in a row on an unshuffled split, with the
    checkpoint files left as they are, returns the same five results (the
    four metric scalars and the adversary index list) both times; the
    evaluation itself leaves both checkpoint families untouched. *)
Theorem evaluation_twice_same_results (dataset_name : string) (t bs : Z)
    (atn_name clf_name : option string) (w : World) :
  let test1 := test_scores_gatn dataset_name t bs atn_name clf_name false w in
  let test2 := test_scores_gatn dataset_name t bs atn_name clf_name false (snd test1) in
  let train1 := train_scores_gatn dataset_name t bs atn_name clf_name false w in
  let train2 := train_scores_gatn dataset_name t bs atn_name clf_name false (snd train1) in
  fst test2 = fst test1 /\ same_ckpts w (snd test1) /\
  fst train2 = fst train1 /\ same_ckpts w (snd train1).
Proof.
  intros test1 test2 train1 train2.
  assert (H1 : same_ckpts w (snd test1)) by apply preserves_test_scores.
  assert (H2 : same_ckpts w (snd train1)) by apply preserves_train_scores.
  split; [|split; [exact H1|split; [|exact H2]]].
  - symmetry. apply (respects_test_scores dataset_name t bs atn_name clf_name w _ H1).
  - symmetry. apply (respects_train_scores dataset_name t bs atn_name clf_name w _ H2).
Qed.

Lemma needs_clf_now {A B : Type} (p : string) (m : M A) (k : A -> M B) :
  needs_clf p m -> needs_clf p (m ≫= k).
Proof.
  intros Hm w Hw. unfold mbind, StateErr_bind. destruct (Hm w Hw) as [e He].
  destruct (m w) as [[a|e'] w1]; simpl in *; [discriminate | eauto].
Qed.

Lemma needs_clf_later {A B : Type} (p : string) (m : M A) (k : A -> M B) :
  preserves same_ckpts m -> (forall a, needs_clf p (k a)) -> needs_clf p (m ≫= k).
Proof.
  intros Hm Hk w Hw. unfold mbind, StateErr_bind. destruct (Hm w) as [Hc _].
  destruct (m w) as [[a|e'] w1]; simpl in *; [|eauto].
  apply Hk. rewrite <- Hc. exact Hw.
Qed.

Lemma needs_atn_now {A B : Type} (p : string) (m : M A) (k : A -> M B) :
  needs_atn p m -> needs_atn p (m ≫= k).
Proof.
  intros Hm w Hw. unfold mbind, StateErr_bind. destruct (Hm w Hw) as [e He].
  destruct (m w) as [[a|e'] w1]; simpl in *; [discriminate | eauto].
Qed.

Lemma needs_atn_later {A B : Type} (p : string) (m : M A) (k : A -> M B) :
  preserves same_ckpts m -> (forall a, needs_atn p (k a)) -> needs_atn p (m ≫= k).
Proof.
  intros Hm Hk w Hw. unfold mbind, StateErr_bind. destruct (Hm w) as [_ Ha].
  destruct (m w) as [[a|e'] w1]; simpl in *; [|eauto].
  apply Hk. rewrite <- Ha. exact Hw.
Qed.

Lemma needs_restore_clf (p : string) : needs_clf p (restore_clf p).
Proof. intros w Hw. unfold restore_clf. rewrite Hw. eauto. Qed.

Lemma needs_restore_atn (p : string) : needs_atn p (restore_atn p).
Proof. intros w Hw. unfold restore_atn. rewrite Hw. eauto. Qed.

Lemma restore_models_result (dataset_name : string) (t : Z)
    (atn_name clf_name : option string) (w : World) :
  fst (restore_models dataset_name t atn_name clf_name w)
  = match clf_ckpts w !! clf_checkpoint_path dataset_name clf_name,
          atn_ckpts w !! atn_checkpoint_path dataset_name atn_name t with
    | None, _ => Raise (NotFoundError (clf_checkpoint_path dataset_name clf_name))
    | Some _, None => Raise (NotFoundError (atn_checkpoint_path dataset_name atn_name t))
    | Some clf, Some atn => Ok (clf, atn)
    end.
Proof.
  unfold restore_models, clf_checkpoint_path, atn_checkpoint_path.
  unfold mbind, StateErr_bind, makedirs, restore_clf, restore_atn. cbn.
  destruct (clf_ckpts w !! _); [|reflexivity]. cbn.
  destruct (atn_ckpts w !! _); reflexivity.
Qed.

Lemma needs_clf_restore_models (dataset_name : string) (t : Z)
    (atn_name clf_name : option string) :
  needs_clf (clf_checkpoint_path dataset_name clf_name)
    (restore_models dataset_name t atn_name clf_name).
Proof.
  intros w Hw. rewrite restore_models_result, Hw. eauto.
Qed.

Lemma needs_atn_restore_models (dataset_name : string) (t : Z)
    (atn_name clf_name : option string) :
  needs_atn (atn_checkpoint_path dataset_name atn_name t)
    (restore_models dataset_name t atn_name clf_name).
Proof.
  intros w Hw. rewrite restore_models_result, Hw.
  destruct (clf_ckpts w !! _); eauto.
Qed.

Ltac needs_step :=
  cbv beta;
  lazymatch goal with
  | |- needs_clf _ (mbind _ (restore_clf _)) =>
      apply needs_clf_now, needs_restore_clf
  | |- needs_clf _ (mbind _ (restore_models _ _ _ _)) =>
      apply needs_clf_now, needs_clf_restore_models
  | |- needs_atn _ (mbind _ (restore_models _ _ _ _)) =>
      apply needs_atn_now, needs_atn_restore_models
  | |- needs_clf _ (restore_models _ _ _ _) => apply needs_clf_restore_models
  | |- needs_atn _ (restore_models _ _ _ _) => apply needs_atn_restore_models
  | |- needs_clf _ (mbind _ _) =>
      apply needs_clf_later; [solve [auto with world] | intros ?]
  | |- needs_atn _ (mbind _ _) =>
      apply needs_atn_later; [solve [auto with world] | intros ?]
  | |- _ _ (match ?a with _ => _ end) => destruct a
  end.

Lemma needs_clf_train (dataset_name : string) (t : Z) (alpha beta : Q)
    (epochs : nat) (bs : Z) (atn_name clf_name : option string) :
  needs_clf (clf_checkpoint_path dataset_name clf_name)
    (train_gatn dataset_name t alpha beta epochs bs atn_name clf_name).
Proof. unfold train_gatn, clf_checkpoint_path. repeat needs_step. Qed.

Lemma inputs_print (m : Msg) : respects same_inputs (print m).
Proof. intros w w' Hw. split; [reflexivity | exact Hw]. Qed.

Lemma inputs_makedirs (p : string) : respects same_inputs (makedirs p).
Proof. intros w w' Hw. split; [reflexivity | exact Hw]. Qed.

Lemma inputs_write_atn (p : string) (a : AtnParams) : respects same_inputs (write_atn p a).
Proof. intros w w' Hw. split; [reflexivity | exact Hw]. Qed.

Lemma inputs_restore_clf (p : string) : respects same_inputs (restore_clf p).
Proof.
  intros w w' [Hc Hr]. unfold restore_clf. rewrite Hc.
  destruct (clf_ckpts w' !! p); (split; [reflexivity | split; assumption]).
Qed.

Lemma inputs_prepare (X_train : Batch) (y_train : Matrix)
    (X_test : Batch) (y_test : Matrix) (bs : Z) (shuffle : bool) :
  respects same_inputs (prepare_dataset X_train y_train X_test y_test bs shuffle).
Proof.
  intros w w' [Hc Hr]. unfold prepare_dataset. rewrite Hr.
  destruct (batch_split _ X_train y_train bs); [|split; [reflexivity | split; assumption]].
  destruct (batch_split _ X_test y_test bs); simpl;
    (split; [reflexivity | split; simpl; congruence]).
Qed.

Lemma inputs_checkpoint_decision (path : string) (atn : AtnParams) (best : xloss) (l : Q) :
  respects same_inputs (checkpoint_decision path atn best l).
Proof.
  unfold checkpoint_decision. destruct (xgt best l); [|apply respects_mret].
  apply respects_bind; [apply inputs_print | intros _].
  apply respects_bind; [apply inputs_write_atn | intros _].
  apply respects_mret.
Qed.

Lemma inputs_run_epoch (clf : ClfParams) (t : Z) (alpha beta : Q)
    (train_dataset test_dataset : list DataBatch) (n : Z) (path : string)
    (e : nat) (st : AtnParams * xloss) :
  respects same_inputs
    (run_epoch clf t alpha beta train_dataset test_dataset n path e st).
Proof.
  unfold run_epoch. destruct st as [atn best].
  apply respects_bind; [apply respects_lift | intros [atn' train_loss]].
  apply respects_bind; [apply respects_lift | intros [test_acc test_rate]].
  apply respects_bind; [apply inputs_print | intros _].
  apply respects_bind; [apply inputs_checkpoint_decision | intros best'].
  apply respects_mret.
Qed.

Lemma inputs_epochs_loop (body : nat -> AtnParams * xloss -> M (AtnParams * xloss))
    (n e : nat) (st : AtnParams * xloss) :
  (forall e st, respects same_inputs (body e st)) ->
  respects same_inputs (epochs_loop body n e st).
Proof.
  intros Hbody. revert e st. induction n as [|n IH]; intros e st; simpl.
  - apply respects_mret.
  - apply respects_bind; [apply Hbody | intros st'; apply IH].
Qed.

Lemma inputs_train_gatn (dataset_name : string) (t : Z) (alpha beta : Q)
    (epochs : nat) (bs : Z) (atn_name clf_name : option string) :
  respects same_inputs
    (train_gatn dataset_name t alpha beta epochs bs atn_name clf_name).
Proof.
  unfold train_gatn.
  apply respects_bind; [apply respects_lift | intros [? [X_test y_test]]].
  destruct (split_dataset X_test y_test (1 # 2)) as [[X_train y_train] [X_test' y_test']].
  apply respects_bind; [apply respects_lift | intros [X_train' y_train']].
  apply respects_bind; [apply respects_lift | intros num_train].
  apply respects_bind; [apply respects_lift | intros num_test].
  apply respects_bind; [apply inputs_prepare | intros [train_dataset test_dataset]].
  apply respects_bind; [apply inputs_makedirs | intros _].
  apply respects_bind; [apply inputs_restore_clf | intros clf].
  apply respects_bind; [apply inputs_makedirs | intros _].
  apply respects_bind; [|intros _; apply inputs_print].
  apply inputs_epochs_loop. intros e st. apply inputs_run_epoch.
Qed.

(** C9: checkpoint restoration of the entry points.  Training and every
    evaluation entry point cannot return when the classifier checkpoint is
    missing; every evaluation entry point cannot return when the ATN
    checkpoint is missing; the failure of the restoration is the
    [NotFoundError] of the missing path; training never reads the ATN
    checkpoints, so it runs the same with or without one, and starts from the
    fresh ATN: on the small instance, training in a world without an ATN
    checkpoint returns and leaves the checkpoint of the fresh ATN after one
    optimizer step, evaluation in that world raises, and training without
    the classifier checkpoint raises. *)
Theorem checkpoints_restored_at_start :
  (forall d t alpha beta epochs bs an cn,
      needs_clf (clf_checkpoint_path d cn) (train_gatn d t alpha beta epochs bs an cn)) /\
  (forall d t bs an cn,
      needs_clf (clf_checkpoint_path d cn) (evaluate_gatn d t bs an cn) /\
      needs_atn (atn_checkpoint_path d an t) (evaluate_gatn d t bs an cn)) /\
  (forall d t bs an cn shuffle,
      needs_clf (clf_checkpoint_path d cn) (train_scores_gatn d t bs an cn shuffle) /\
      needs_atn (atn_checkpoint_path d an t) (train_scores_gatn d t bs an cn shuffle)) /\
  (forall d t bs an cn shuffle,
      needs_clf (clf_checkpoint_path d cn) (test_scores_gatn d t bs an cn shuffle) /\
      needs_atn (atn_checkpoint_path d an t) (test_scores_gatn d t bs an cn shuffle)) /\
  (forall d t class_id an cn dataset_type,
      needs_clf (clf_checkpoint_path d cn)
        (visualise_gatn_preamble d t class_id an cn dataset_type) /\
      needs_atn (atn_checkpoint_path d an t)
        (visualise_gatn_preamble d t class_id an cn dataset_type)) /\
  (forall d t an cn (w : World),
      fst (restore_models d t an cn w)
      = match clf_ckpts w !! clf_checkpoint_path d cn,
              atn_ckpts w !! atn_checkpoint_path d an t with
        | None, _ => Raise (NotFoundError (clf_checkpoint_path d cn))
        | Some _, None => Raise (NotFoundError (atn_checkpoint_path d an t))
        | Some clf, Some atn => Ok (clf, atn)
        end) /\
  (forall d t alpha beta epochs bs an cn (w w' : World),
      same_inputs w w' ->
      fst (train_gatn d t alpha beta epochs bs an cn w)
      = fst (train_gatn d t alpha beta epochs bs an cn w')) /\
  (let train := @train_gatn Toy.toy_backend Toy.toy_utils
                  "d" 1 (3 # 2) (1 # 100) 2 128 None None in
   let test := @test_scores_gatn Toy.toy_backend Toy.toy_utils
                 "d" 1 2 None None false in
   atn_ckpts Toy.trained_clf_world = ∅ /\
   fst (train Toy.trained_clf_world) = Ok tt /\
   atn_ckpts (snd (train Toy.trained_clf_world)) !! "gatn_weights/d/atn_1/atn_1"
   = Some (S (@atn_fresh Toy.toy_backend)) /\
   fst (test Toy.trained_clf_world)
   = Raise (NotFoundError "gatn_weights/d/atn_1/atn_1") /\
   fst (train Toy.empty_world) = Raise (NotFoundError "weights/d/clf/clf")).
Proof.
  split; [|split; [|split; [|split; [|split; [|split; [|split]]]]]].
  - intros. apply needs_clf_train.
  - intros. unfold evaluate_gatn. split; repeat needs_step.
  - intros. unfold train_scores_gatn. split; repeat needs_step.
  - intros. unfold test_scores_gatn. split; repeat needs_step.
  - intros. unfold visualise_gatn_preamble. split; repeat needs_step.
  - intros. apply restore_models_result.
  - intros d t alpha beta epochs bs an cn w w' Hw.
    apply (inputs_train_gatn d t alpha beta epochs bs an cn w w' Hw).
  - cbv zeta. split; [reflexivity|]. repeat split; vm_compute; reflexivity.
Qed.

End WorldFacts.

Section SweepFacts.

Context {backend : Backend} {utils : GenericUtils}.

Variable train_base : string -> string -> M unit.

Lemma same_log_trans (x y z : World) : same_log x y -> same_log y z -> same_log x z.
Proof. unfold same_log. congruence. Qed.

Lemma log_lift {A : Type} (r : result A) : preserves same_log (lift r).
Proof. intros w. reflexivity. Qed.

Lemma log_mret {A : Type} (a : A) : preserves same_log (mret a : M A).
Proof. intros w. reflexivity. Qed.

Lemma log_print (m : Msg) : preserves same_log (print m).
Proof. intros w. reflexivity. Qed.

Lemma log_makedirs (p : string) : preserves same_log (makedirs p).
Proof. intros w. reflexivity. Qed.

Lemma log_write_atn (p : string) (a : AtnParams) : preserves same_log (write_atn p a).
Proof. intros w. reflexivity. Qed.

Lemma log_restore_clf (p : string) : preserves same_log (restore_clf p).
Proof. intros w. unfold restore_clf. destruct (clf_ckpts w !! p); reflexivity. Qed.

Lemma log_restore_atn (p : string) : preserves same_log (restore_atn p).
Proof. intros w. unfold restore_atn. destruct (atn_ckpts w !! p); reflexivity. Qed.

Lemma log_prepare (X_train : Batch) (y_train : Matrix)
    (X_test : Batch) (y_test : Matrix) (bs : Z) (shuffle : bool) :
  preserves same_log (prepare_dataset X_train y_train X_test y_test bs shuffle).
Proof.
  intros w. unfold prepare_dataset.
  destruct (batch_split _ X_train y_train bs); [|reflexivity].
  destruct (batch_split _ X_test y_test bs); reflexivity.
Qed.

Create HintDb sweep discriminated.

#[local] Hint Resolve log_lift log_mret log_print log_makedirs log_write_atn
  log_restore_clf log_restore_atn log_prepare : sweep.

Ltac log_step :=
  cbv beta;
  lazymatch goal with
  | |- preserves same_log (mbind _ _) =>
      apply preserves_bind; [exact same_log_trans | |intros ?]
  | |- preserves same_log (match ?a with _ => _ end) => destruct a
  | |- preserves same_log (if ?b then _ else _) => destruct b
  | |- _ => solve [auto with sweep]
  end.

Lemma log_restore_models (d : string) (t : Z) (an cn : option string) :
  preserves same_log (restore_models d t an cn).
Proof. unfold restore_models. repeat log_step. Qed.

Lemma log_epochs_loop (body : nat -> AtnParams * xloss -> M (AtnParams * xloss))
    (n e : nat) (st : AtnParams * xloss) :
  (forall e st, preserves same_log (body e st)) ->
  preserves same_log (epochs_loop body n e st).
Proof.
  intros Hbody. revert e st. induction n as [|n IH]; intros e st; simpl.
  - apply log_mret.
  - apply preserves_bind; [exact same_log_trans | apply Hbody | intros st'; apply IH].
Qed.

Lemma log_run_epoch (clf : ClfParams) (t : Z) (alpha beta : Q)
    (train_dataset test_dataset : list DataBatch) (n : Z) (path : string)
    (e : nat) (st : AtnParams * xloss) :
  preserves same_log (run_epoch clf t alpha beta train_dataset test_dataset n path e st).
Proof.
  unfold run_epoch, checkpoint_decision. destruct st as [atn best]. repeat log_step.
Qed.

Lemma log_train_gatn (d : string) (t : Z) (alpha beta : Q) (epochs : nat) (bs : Z)
    (an cn : option string) :
  preserves same_log (train_gatn d t alpha beta epochs bs an cn).
Proof.
  unfold train_gatn.
  repeat first [apply log_epochs_loop; intros; apply log_run_epoch | log_step].
Qed.

Lemma log_train_scores (d : string) (t bs : Z) (an cn : option string) (shuffle : bool) :
  preserves same_log (train_scores_gatn d t bs an cn shuffle).
Proof.
  unfold train_scores_gatn.
  repeat first [apply log_restore_models | log_step].
Qed.

Lemma bind_ok_inv {A B : Type} (m : M A) (k : A -> M B) (w w' : World) (b : B) :
  (m ≫= k) w = (Ok b, w') ->
  exists a w1, m w = (Ok a, w1) /\ k a w1 = (Ok b, w').
Proof.
  unfold mbind, StateErr_bind. destruct (m w) as [[a|e] w1]; [eauto | discriminate].
Qed.

Lemma bind_raise_inv {A B : Type} (m : M A) (k : A -> M B) (w w' : World)
    (e : Exception) :
  (m ≫= k) w = (Raise e, w') ->
  m w = (Raise e, w') \/ exists a w1, m w = (Ok a, w1) /\ k a w1 = (Raise e, w').
Proof.
  unfold mbind, StateErr_bind. destruct (m w) as [[a|e'] w1]; intros H.
  - right. exists a, w1. split; [reflexivity | exact H].
  - left. injection H as -> ->. reflexivity.
Qed.

(** A trial that returns has appended one row to [SUCCESS] and left
    [ERRORS] as it was. *)
Lemma trial_ok_inv (lists lists' : GridSearch.Lists) (did : Z) (dataset : string)
    (beta : Q) (w w' : World) :
  GridSearch.trial lists did dataset beta w = (Ok lists', w') ->
  exists update,
    lists' = {| GridSearch.SUCCESS := GridSearch.SUCCESS lists ++ [update];
                GridSearch.ERRORS := GridSearch.ERRORS lists |} /\
    dataset_id update = did /\ row_beta update = beta.
Proof.
  unfold GridSearch.trial. intros H.
  apply bind_ok_inv in H. destruct H as (_ & w1 & _ & H).
  apply bind_ok_inv in H. destruct H as ([[[[mse ar] ao] rate] ids] & w2 & _ & H).
  apply bind_ok_inv in H. destruct H as (_ & w3 & _ & H).
  apply bind_ok_inv in H. destruct H as (_ & w4 & _ & H).
  injection H as <- _. eexists. split; [reflexivity|]. split; reflexivity.
Qed.

(** A trial that raises has not written to the CSV log. *)
Lemma trial_raise_log (lists : GridSearch.Lists) (did : Z) (dataset : string)
    (beta : Q) (w w' : World) (e : Exception) :
  GridSearch.trial lists did dataset beta w = (Raise e, w') ->
  logfile w' = logfile w.
Proof.
  unfold GridSearch.trial. intros H.
  apply bind_raise_inv in H. destruct H as [H | (u1 & w1 & H1 & H)].
  { pose proof (log_train_gatn dataset GridSearch.TARGET_CLASS GridSearch.ALPHA beta 10 128
                  (Some GridSearch.atn_model_name) (Some GridSearch.clf_model_name) w) as Hl.
    rewrite H in Hl. symmetry. exact Hl. }
  pose proof (log_train_gatn dataset GridSearch.TARGET_CLASS GridSearch.ALPHA beta 10 128
                (Some GridSearch.atn_model_name) (Some GridSearch.clf_model_name) w) as Hl1.
  rewrite H1 in Hl1. simpl in Hl1.
  apply bind_raise_inv in H. destruct H as [H | ([[[[mse ar] ao] rate] ids] & w2 & H2 & H)].
  { pose proof (log_train_scores dataset GridSearch.TARGET_CLASS 128
                  (Some GridSearch.atn_model_name) (Some GridSearch.clf_model_name) true w1) as Hl.
    rewrite H in Hl. unfold same_log in *. simpl in Hl. congruence. }
  apply bind_raise_inv in H. destruct H as [H | (u3 & w3 & H3 & H)]; [discriminate|].
  apply bind_raise_inv in H. destruct H as [H | (u4 & w4 & H4 & H)]; discriminate.
Qed.

Lemma sweep_body_caught (did : Z) (lists : GridSearch.Lists) (beta : Q)
    (w w1 w2 : World) (e : Exception) :
  GridSearch.ensure_base train_base ("ucr/" +:+ pretty did) w = (Ok tt, w1) ->
  GridSearch.trial lists did ("ucr/" +:+ pretty did) beta w1 = (Raise e, w2) ->
  GridSearch.sweep_body train_base did lists beta w
  = (Ok {| GridSearch.SUCCESS := GridSearch.SUCCESS lists;
           GridSearch.ERRORS := GridSearch.ERRORS lists ++ [GridSearch.failure_tag did beta] |},
     with_exception w2 e).
Proof.
  intros Hbase Htrial. unfold GridSearch.sweep_body.
  unfold mbind at 1. unfold StateErr_bind. rewrite Hbase.
  unfold GridSearch.try_except. rewrite Htrial. reflexivity.
Qed.

Lemma ensure_base_total (dataset : string) (w : World) :
  (forall d n w0, exists w', train_base d n w0 = (Ok tt, w')) ->
  exists w1, GridSearch.ensure_base train_base dataset w = (Ok tt, w1).
Proof.
  intros Htb. unfold GridSearch.ensure_base, GridSearch.path_exists.
  unfold mbind, StateErr_bind.
  destruct (bool_decide _); [eexists; reflexivity|].
  unfold print. apply Htb.
Qed.

Lemma sweep_body_total (did : Z) (lists : GridSearch.Lists) (beta : Q) (w : World) :
  (forall d n w0, exists w', train_base d n w0 = (Ok tt, w')) ->
  exists lists' w',
    GridSearch.sweep_body train_base did lists beta w = (Ok lists', w') /\
    (length (GridSearch.SUCCESS lists') + length (GridSearch.ERRORS lists')
     = S (length (GridSearch.SUCCESS lists) + length (GridSearch.ERRORS lists)))%nat /\
    (GridSearch.ERRORS lists' = GridSearch.ERRORS lists \/
     GridSearch.ERRORS lists' = GridSearch.ERRORS lists ++ [GridSearch.failure_tag did beta]).
Proof.
  intros Htb.
  destruct (ensure_base_total ("ucr/" +:+ pretty did) w Htb) as [w1 Hbase].
  destruct (GridSearch.trial lists did ("ucr/" +:+ pretty did) beta w1)
    as [[lists'|e] w2] eqn:Htrial.
  - exists lists', w2. split.
    + unfold GridSearch.sweep_body. unfold mbind at 1. unfold StateErr_bind.
      rewrite Hbase. unfold GridSearch.try_except. rewrite Htrial. reflexivity.
    + apply trial_ok_inv in Htrial. destruct Htrial as (update & -> & _). simpl.
      rewrite length_app. simpl. split; [lia | left; reflexivity].
  - eexists _, _. split; [apply (sweep_body_caught did lists beta w w1 w2 e Hbase Htrial)|].
    simpl. rewrite length_app. simpl. split; [lia | right; reflexivity].
Qed.

Lemma inner_loop_total (datasets : list Z) (all_betas : list Q) (did : Z)
    (betas : list Q) (lists : GridSearch.Lists) (w : World) :
  (forall d n w0, exists w', train_base d n w0 = (Ok tt, w')) ->
  In did datasets -> (forall b, In b betas -> In b all_betas) ->
  sentinel_rows datasets all_betas (GridSearch.ERRORS lists) ->
  exists lists' w',
    GridSearch.mfoldl (GridSearch.sweep_body train_base did) lists betas w = (Ok lists', w') /\
    (length (GridSearch.SUCCESS lists') + length (GridSearch.ERRORS lists')
     = length (GridSearch.SUCCESS lists) + length (GridSearch.ERRORS lists) + length betas)%nat /\
    sentinel_rows datasets all_betas (GridSearch.ERRORS lists').
Proof.
  intros Htb Hdid. revert lists w.
  induction betas as [|beta betas IH]; intros lists w Hincl Hrows.
  - exists lists, w. split; [reflexivity|]. split; [simpl; lia | exact Hrows].
  - destruct (sweep_body_total did lists beta w Htb) as (l1 & w1 & Hstep & Hcount & Herr).
    destruct (IH l1 w1) as (l2 & w2 & Hrest & Hcount2 & Hrows2).
    { intros b Hb. apply Hincl. right. exact Hb. }
    { destruct Herr as [-> | ->]; [exact Hrows|].
      apply List.Forall_app. split; [exact Hrows|]. constructor; [|constructor].
      exists did, beta. split; [exact Hdid|]. split; [apply Hincl; left|]; reflexivity. }
    exists l2, w2. split.
    + cbn [GridSearch.mfoldl]. unfold mbind, StateErr_bind. rewrite Hstep. exact Hrest.
    + split; [simpl; lia | exact Hrows2].
Qed.

Lemma outer_loop_total (all_datasets : list Z) (betas : list Q)
    (datasets : list Z) (lists : GridSearch.Lists) (w : World) :
  (forall d n w0, exists w', train_base d n w0 = (Ok tt, w')) ->
  (forall d, In d datasets -> In d all_datasets) ->
  sentinel_rows all_datasets betas (GridSearch.ERRORS lists) ->
  exists lists' w',
    GridSearch.mfoldl
      (fun lists dataset_id =>
         GridSearch.mfoldl (GridSearch.sweep_body train_base dataset_id) lists betas)
      lists datasets w = (Ok lists', w') /\
    (length (GridSearch.SUCCESS lists') + length (GridSearch.ERRORS lists')
     = length (GridSearch.SUCCESS lists) + length (GridSearch.ERRORS lists)
       + length datasets * length betas)%nat /\
    sentinel_rows all_datasets betas (GridSearch.ERRORS lists').
Proof.
  intros Htb. revert lists w.
  induction datasets as [|did datasets IH]; intros lists w Hincl Hrows.
  - exists lists, w. split; [reflexivity|]. split; [simpl; lia | exact Hrows].
  - destruct (inner_loop_total all_datasets betas did betas lists w Htb)
      as (l1 & w1 & Hstep & Hcount & Hrows1);
      [apply Hincl; left; reflexivity | auto | exact Hrows |].
    destruct (IH l1 w1) as (l2 & w2 & Hrest & Hcount2 & Hrows2);
      [intros d Hd; apply Hincl; right; exact Hd | exact Hrows1 |].
    exists l2, w2. split.
    + cbn [GridSearch.mfoldl]. unfold mbind, StateErr_bind. rewrite Hstep. exact Hrest.
    + split; [simpl; lia | exact Hrows2].
Qed.

(** C10: a trial of the sweep that raises is caught: its exception is
    printed, the record with [-1] in every field but [dataset_id] and [beta]
    is appended to [ERRORS] (nothing is appended to the CSV log), and the
    sweep goes on; when [train_base] does not raise, the sweep visits every
    (dataset, beta) pair, so that successes and failure records together
    number as many as the trials, and ends with the report of both lists.
    On a world without the classifier checkpoint both trials of a two-beta
    sweep fail and are reported, and the sweep returns. *)
Theorem failed_trials_are_caught :
  (forall (did : Z) (lists : GridSearch.Lists) (beta : Q) (w w1 w2 : World) (e : Exception),
      GridSearch.ensure_base train_base ("ucr/" +:+ pretty did) w = (Ok tt, w1) ->
      GridSearch.trial lists did ("ucr/" +:+ pretty did) beta w1 = (Raise e, w2) ->
      GridSearch.sweep_body train_base did lists beta w
      = (Ok {| GridSearch.SUCCESS := GridSearch.SUCCESS lists;
               GridSearch.ERRORS := GridSearch.ERRORS lists ++ [GridSearch.failure_tag did beta] |},
         with_exception w2 e) /\
      logfile (with_exception w2 e) = logfile w1) /\
  (forall (did : Z) (beta : Q),
      let tag := GridSearch.failure_tag did beta in
      dataset_id tag = did /\ row_beta tag = beta /\
      row_mse tag = (-1)%Q /\ row_acc_realistic tag = (-1)%Q /\
      row_acc_optimistic tag = (-1)%Q /\ row_target_rate tag = (-1)%Q /\
      num_adversaries tag = (-1)%Z) /\
  ((forall d n w0, exists w', train_base d n w0 = (Ok tt, w')) ->
   forall (datasets : list Z) (betas : list Q) (w : World),
   exists lists w' pre,
     GridSearch.sweep train_base datasets betas w = (Ok lists, w') /\
     (length (GridSearch.SUCCESS lists) + length (GridSearch.ERRORS lists)
      = length datasets * length betas)%nat /\
     sentinel_rows datasets betas (GridSearch.ERRORS lists) /\
     console w' = pre ++ [Summary (GridSearch.SUCCESS lists) (GridSearch.ERRORS lists)]) /\
  (let run := @GridSearch.sweep Toy.toy_backend Toy.toy_utils
                (fun _ _ w => (Ok tt, w)) [21%Z] [1 # 10; 1 # 100]%Q Toy.empty_world in
   let missing :=
     NotFoundError
       "weights/ucr/21/gridsearch-TSFullyConvolutionalNetwork/gridsearch-TSFullyConvolutionalNetwork" in
   let errors := [GridSearch.failure_tag 21 (1 # 10); GridSearch.failure_tag 21 (1 # 100)] in
   fst run = Ok {| GridSearch.SUCCESS := []; GridSearch.ERRORS := errors |} /\
   console (snd run)
   = [TrainingBase "gridsearch-TSFullyConvolutionalNetwork";
      ExceptionText missing; ExceptionText missing; Summary [] errors] /\
   logfile (snd run) = []).
Proof.
  split; [|split; [|split]].
  - intros did lists beta w w1 w2 e Hbase Htrial. split.
    + exact (sweep_body_caught did lists beta w w1 w2 e Hbase Htrial).
    + simpl. exact (trial_raise_log lists did _ beta w1 w2 e Htrial).
  - intros did beta. cbv zeta. repeat split.
  - intros Htb datasets betas w.
    destruct (outer_loop_total datasets betas datasets
                {| GridSearch.SUCCESS := []; GridSearch.ERRORS := [] |} w Htb)
      as (lists & w1 & Hloop & Hcount & Hrows); [auto | constructor |].
    exists lists, (snd (print (Summary (GridSearch.SUCCESS lists) (GridSearch.ERRORS lists)) w1)),
      (console w1).
    split; [|split; [simpl in Hcount; exact Hcount | split; [exact Hrows | reflexivity]]].
    unfold GridSearch.sweep. unfold mbind at 1. unfold StateErr_bind. rewrite Hloop.
    reflexivity.
  - cbv zeta. repeat split; vm_compute; reflexivity.
Qed.

End SweepFacts.

(** * Concrete instances of the conditional statements *)

Section Witnesses.

Import Toy.

Lemma train_batch_loss_formula_witness :
  let x := fst scenario_batch in
  let y := snd scenario_batch in
  (1 < 2)%nat /\
  Forall (fun r => length r = 2%nat) (@clf_model toy_backend tt x) /\
  Forall (fun r => length r = 2%nat)
    (@clf_model toy_backend tt
       (@atn_model toy_backend 0%nat x (@input_gradient toy_backend tt 1 x) true)) /\
  exists reranked loss atn' train_loss',
    reranking (@clf_model toy_backend tt x) 1 (3 # 2) = Ok reranked /\
    @batch_loss toy_backend tt 1 (3 # 2) (1 # 100) x 0%nat = Ok loss /\
    (loss == (1 # 100)
             * mean_sq x (@atn_model toy_backend 0%nat x
                            (@input_gradient toy_backend tt 1 x) true)
             + mse_all reranked
                 (@clf_model toy_backend tt
                    (@atn_model toy_backend 0%nat x
                       (@input_gradient toy_backend tt 1 x) true)))%Q /\
    @train_step toy_backend tt 1 (3 # 2) (1 # 100) (0%nat, Mean_new) (x, y)
    = Ok (atn', train_loss') /\
    (total train_loss' == total Mean_new + loss)%Q /\
    (count train_loss' == count Mean_new + 1)%Q.
Proof.
  cbv zeta.
  assert (H1 : (1 < 2)%nat) by lia.
  assert (H2 : Forall (fun r => length r = 2%nat)
                 (@clf_model toy_backend tt (fst scenario_batch)))
    by (repeat constructor).
  assert (H3 : Forall (fun r => length r = 2%nat)
                 (@clf_model toy_backend tt
                    (@atn_model toy_backend 0%nat (fst scenario_batch)
                       (@input_gradient toy_backend tt 1 (fst scenario_batch)) true)))
    by (repeat constructor).
  split; [exact H1|]. split; [exact H2|]. split; [exact H3|].
  exact (@train_batch_loss_formula toy_backend tt 0%nat (fst scenario_batch)
           (snd scenario_batch) 1 2 (3 # 2) (1 # 100) Mean_new H1 H2 H3).
Defined.

Lemma reranking_rows_sum_to_one_witness :
  let y := [[1 # 4; 3 # 4]; [1 # 2; 1 # 2]]%Q in
  Forall (fun r => length r = 2%nat /\ prob_row r) y /\
  (0 < 2)%nat /\
  (1 < 3 # 2)%Q /\
  exists y',
    reranking y 0 (3 # 2) = Ok y' /\
    Forall2 (fun row row' =>
               exists m, is_row_max m row /\ row' = rerank_row_spec row 0 (3 # 2) m)
      y y' /\
    Forall (fun row' => (reduce_sum row' == 1)%Q) y'.
Proof.
  cbv zeta.
  assert (H1 : Forall (fun r => length r = 2%nat /\ prob_row r)
                 [[1 # 4; 3 # 4]; [1 # 2; 1 # 2]]%Q).
  { repeat constructor; unfold Qle; simpl; lia. }
  assert (H2 : (0 < 2)%nat) by lia.
  assert (H3 : (1 < 3 # 2)%Q) by reflexivity.
  split; [exact H1|]. split; [exact H2|]. split; [exact H3|].
  exact (reranking_rows_sum_to_one [[1 # 4; 3 # 4]; [1 # 2; 1 # 2]]%Q 0 2 (3 # 2) H1 H2 H3).
Defined.

Lemma cleaning_removes_target_class_witness :
  let X := take 4 toy_X in
  let y := take 4 toy_y in
  length X = length y /\
  Forall (fun r => r <> []) y /\
  exists X' y',
    cleaning X y 1 = Ok (X', y') /\
    zip X' y' = List.filter (fun s => negb (is_target_row 1 (snd s))) (zip X y) /\
    length X' = length y' /\
    Forall (fun r => is_target_row 1 r = false) y'.
Proof.
  cbv zeta.
  assert (H1 : length (take 4 toy_X) = length (take 4 toy_y)) by reflexivity.
  assert (H2 : Forall (fun r : list Q => r <> []) (take 4 toy_y))
    by (repeat constructor; discriminate).
  split; [exact H1|]. split; [exact H2|].
  exact (cleaning_removes_target_class (take 4 toy_X) (take 4 toy_y) 1 H1 H2).
Defined.

Lemma uneven_split_every_sample_once_witness :
  let X := drop 4 toy_X in
  let y := drop 4 toy_y in
  let order := fun l : list Sample => l in
  (forall l, order l ≡ₚ l) /\
  length X = length y /\
  (1 <= 2)%Z /\
  (Z.of_nat (length X) mod 2 <> 0)%Z /\
  exists batches,
    batch_split order X y 2 = Ok batches /\
    num_batches (Z.of_nat (length X)) 2 = Ok (Z.of_nat (length X) / 2 + 1)%Z /\
    Z.of_nat (length batches) = (Z.of_nat (length X) / 2 + 1)%Z /\
    take (Z.to_nat (Z.of_nat (length X) / 2 + 1)) batches = batches /\
    concat (map (fun b : DataBatch => zip (fst b) (snd b)) batches) ≡ₚ zip X y /\
    (forall k b,
        batches !! k = Some b ->
        length (fst b) = length (snd b) /\
        Z.of_nat (length (fst b))
        = if (Z.of_nat k <? Z.of_nat (length X) / 2)%Z
          then 2%Z else (Z.of_nat (length X) mod 2)%Z) /\
    (Z.of_nat (length X) mod 2 < 2)%Z /\
    (forall clf atn t st,
        @scores_pass toy_backend clf atn t 2 (Z.of_nat (length X) / 2 + 1) batches
        = Ok st ->
        batch_id st = Z.of_nat (length batches) /\
        Forall (fun id => (0 <= id <= Z.of_nat (length X) - 1)%Z) (adversary_ids st)).
Proof.
  cbv zeta.
  assert (H1 : forall l : list Sample, l ≡ₚ l) by reflexivity.
  assert (H2 : length (drop 4 toy_X) = length (drop 4 toy_y)) by reflexivity.
  assert (H3 : (1 <= 2)%Z) by lia.
  assert (H4 : (Z.of_nat (length (drop 4 toy_X)) mod 2 <> 0)%Z)
    by (vm_compute; discriminate).
  split; [exact H1|]. split; [exact H2|]. split; [exact H3|]. split; [exact H4|].
  exact (@uneven_split_every_sample_once toy_backend (fun l => l)
           (drop 4 toy_X) (drop 4 toy_y) 2 H1 H2 H3 H4).
Defined.

End Witnesses.

(** * Further properties of the code *)

Section RerankingMore.

Local Open Scope Q_scope.

Lemma Qdiv_lt_pos (u v s : Q) : 0 < s -> u < v -> u / s < v / s.
Proof.
  intros Hs Huv. unfold Qdiv. apply Qmult_lt_compat_r; [|exact Huv].
  apply Qinv_lt_0_compat, Hs.
Qed.

Lemma Qdiv_nonneg (u s : Q) : 0 < s -> 0 <= u -> 0 <= u / s.
Proof.
  intros Hs Hu. unfold Qdiv. apply Qmult_le_0_compat; [exact Hu|].
  apply Qlt_le_weak, Qinv_lt_0_compat, Hs.
Qed.

Lemma boosted_row_facts (row : list Q) (t : nat) (alpha m : Q) :
  prob_row row -> is_row_max m row -> (t < length row)%nat -> 1 < alpha ->
  0 < reduce_sum (<[t := alpha * m]> row) /\
  m < alpha * m /\
  Forall (fun v => 0 <= v) (<[t := alpha * m]> row).
Proof.
  intros Hp Hmax Ht Halpha.
  pose proof (prob_row_max_pos row m Hp Hmax) as Hm.
  assert (Hlt : m < alpha * m).
  { rewrite <- (Qmult_1_l m) at 1. apply Qmult_lt_compat_r; assumption. }
  assert (Hpos : 0 < alpha * m) by (eapply Qlt_trans; eassumption).
  split; [|split; [exact Hlt|]].
  - eapply Qlt_le_trans; [exact Hpos|]. apply reduce_sum_insert_ge; [apply Hp | exact Ht].
  - apply Forall_insert; [apply Hp | apply Qlt_le_weak, Hpos].
Qed.

(** X1: on probability rows and with [alpha > 1], [reranking] returns rows
    of non-negative entries in which the target entry is strictly larger
    than every other entry. *)
Theorem reranking_target_dominates (y : Matrix) (t C : nat) (alpha : Q) :
  Forall (fun r => length r = C /\ prob_row r) y ->
  (t < C)%nat ->
  1 < alpha ->
  exists y',
    reranking y (Z.of_nat t) alpha = Ok y' /\
    Forall (fun row' =>
              Forall (fun v => 0 <= v) row' /\
              exists v, row' !! t = Some v /\
                        forall j u, j <> t -> row' !! j = Some u -> u < v) y'.
Proof.
  intros Hy Ht Halpha.
  assert (Hlen : Forall (fun r => length r = C) y).
  { eapply Forall_impl; [exact Hy|]. intros r [H _]. exact H. }
  destruct (rmapM_assign_target y t C alpha Hlen Ht) as (w & Hw & HF).
  exists (map normalize_row w). split.
  { unfold reranking. simpl. rewrite Hw. reflexivity. }
  clear Hw Hlen. induction HF as [|row wr y w (m & Hm & ->) _ IH]; simpl; [constructor|].
  inversion Hy as [|? ? [Hl Hp] Hy']; subst. constructor; [|apply IH, Hy'].
  pose proof (reduce_max_is_max _ _ Hm) as Hmax.
  destruct (boosted_row_facts row t alpha m Hp Hmax Ht Halpha) as (HS & Hlt & Hnn).
  set (boosted := <[t := alpha * m]> row) in *.
  unfold normalize_row. split.
  - apply List.Forall_map. eapply Forall_impl; [exact Hnn|].
    intros v Hv. simpl. apply Qdiv_nonneg; assumption.
  - exists (alpha * m / reduce_sum boosted). split.
    + change (map (fun v => v / reduce_sum boosted) boosted)
        with ((fun v => v / reduce_sum boosted) <$> boosted).
      rewrite list_lookup_fmap. unfold boosted.
      rewrite list_lookup_insert_eq by exact Ht. reflexivity.
    + intros j u Hj Hu.
      change (map (fun v => v / reduce_sum boosted) boosted)
        with ((fun v => v / reduce_sum boosted) <$> boosted) in Hu.
      rewrite list_lookup_fmap in Hu. unfold boosted in Hu.
      rewrite list_lookup_insert_ne in Hu by auto. fold boosted in Hu.
      destruct (row !! j) as [a|] eqn:Ha; [|discriminate]. simpl in Hu.
      injection Hu as <-. apply Qdiv_lt_pos; [exact HS|].
      eapply Qle_lt_trans; [|exact Hlt].
      destruct Hmax as [_ Hle]. rewrite List.Forall_forall in Hle. apply Hle.
      apply list_elem_of_In, list_elem_of_lookup. eauto.
Qed.

Lemma rmapM_ext_Forall {A B : Type} (f g : A -> result B) (l : list A) :
  Forall (fun a => f a = g a) l -> rmapM f l = rmapM g l.
Proof.
  induction 1 as [|a l Ha _ IH]; simpl; [reflexivity|]. rewrite Ha, IH. reflexivity.
Qed.

Lemma combine_max_Forall (P : list Q * option Q -> Prop) (y : Matrix) :
  Forall (fun r => P (r, reduce_max r)) y ->
  Forall P (combine y (map reduce_max y)).
Proof. induction 1; simpl; constructor; assumption. Qed.

(** X2: the target index of [reranking] follows numpy: on a non-empty
    matrix with [C] columns a target outside [-C, C) raises [IndexError],
    and a negative target in [-C, 0) selects column [target + C]. *)
Theorem reranking_target_index (y : Matrix) (C : nat) (target : Z) (alpha : Q) :
  Forall (fun r => length r = C) y ->
  ((target < - Z.of_nat C \/ Z.of_nat C <= target)%Z ->
   y <> [] -> reranking y target alpha = Raise IndexError) /\
  ((- Z.of_nat C <= target < 0)%Z ->
   reranking y target alpha = reranking y (target + Z.of_nat C) alpha).
Proof.
  intros Hy. split.
  - intros Hout Hne. destruct Hy as [|r y Hr _]; [congruence|].
    unfold reranking. simpl. unfold assign_target at 1. simpl.
    unfold norm_index. rewrite Hr.
    replace ((0 <=? target) && (target <? Z.of_nat C))%Z with false
      by (symmetry; apply andb_false_iff; rewrite Z.leb_gt, Z.ltb_ge; lia).
    replace ((- Z.of_nat C <=? target) && (target <? 0))%Z with false
      by (symmetry; apply andb_false_iff; rewrite Z.leb_gt, Z.ltb_ge; lia).
    reflexivity.
  - intros Hneg. unfold reranking. simpl.
    rewrite (rmapM_ext_Forall
               (fun rm => assign_target target alpha (fst rm) (snd rm))
               (fun rm => assign_target (target + Z.of_nat C) alpha (fst rm) (snd rm)));
      [reflexivity|].
    apply combine_max_Forall. eapply Forall_impl; [exact Hy|].
    intros r Hr. simpl. unfold assign_target, norm_index. rewrite Hr.
    replace ((0 <=? target) && (target <? Z.of_nat C))%Z with false
      by (symmetry; apply andb_false_iff; rewrite Z.leb_gt; lia).
    replace ((- Z.of_nat C <=? target) && (target <? 0))%Z with true
      by (symmetry; apply andb_true_iff; rewrite Z.leb_le, Z.ltb_lt; lia).
    replace ((0 <=? target + Z.of_nat C) && (target + Z.of_nat C <? Z.of_nat C))%Z
      with true
      by (symmetry; apply andb_true_iff; rewrite Z.leb_le, Z.ltb_lt; lia).
    reflexivity.
Qed.

End RerankingMore.

Section LossMore.

Local Open Scope Q_scope.

Lemma reduce_mean_nonneg (l : list Q) :
  Forall (fun v => 0 <= v) l -> 0 <= reduce_mean l.
Proof.
  intros Hl. unfold reduce_mean, Qdiv. apply Qmult_le_0_compat.
  - apply reduce_sum_nonneg, Hl.
  - apply Qinv_le_0_compat. change 0 with (inject_Z 0).
    rewrite <- Zle_Qle. lia.
Qed.

Lemma Forall_zip_with_all {A B D : Type} (P : D -> Prop) (f : A -> B -> D)
    (l : list A) (k : list B) :
  (forall a b, P (f a b)) -> Forall P (zip_with f l k).
Proof.
  intros Hf. revert k. induction l as [|a l IH]; intros [|b k]; simpl; constructor; auto.
Qed.

Lemma Forall_concat_all {A : Type} (P : A -> Prop) (ls : list (list A)) :
  Forall (Forall P) ls -> Forall P (concat ls).
Proof.
  induction 1 as [|l ls Hl _ IH]; simpl; [constructor|].
  apply List.Forall_app. split; assumption.
Qed.

Lemma square_nonneg (a : Q) : 0 <= a * a.
Proof.
  destruct a as [n d]. unfold Qle, Qmult. simpl. nia.
Qed.

Lemma reshaped_loss_x_nonneg (v : Q) : 0 <= v -> 0 <= reduce_sum (concat [[v]]).
Proof.
  intros Hv. apply reduce_sum_nonneg. simpl. constructor; [exact Hv | constructor].
Qed.

Lemma mean_squared_error_nonneg (a b : Matrix) :
  Forall (fun v => 0 <= v) (mean_squared_error a b).
Proof.
  unfold mean_squared_error. apply Forall_zip_with_all. intros r r'.
  unfold mse_row. apply reduce_mean_nonneg. apply Forall_zip_with_all.
  intros u v. unfold sq_diff. apply square_nonneg.
Qed.

Lemma squared_difference_nonneg (x xa : Batch) :
  Forall (fun v => 0 <= v) (flatten3 (squared_difference x xa)).
Proof.
  unfold flatten3, squared_difference.
  apply Forall_concat_all, Forall_concat_all.
  apply Forall_zip_with_all. intros s s'.
  apply Forall_zip_with_all. intros r r'.
  apply Forall_zip_with_all. intros u v. apply square_nonneg.
Qed.

Context {backend : Backend}.

(** X3: with a non-negative [beta] the loss of a training batch is never
    negative. *)
Theorem batch_loss_nonneg (clf : ClfParams) (atn : AtnParams) (x : Batch)
    (target : Z) (alpha beta loss : Q) :
  0 <= beta ->
  batch_loss clf target alpha beta x atn = Ok loss ->
  0 <= loss.
Proof.
  intros Hbeta. unfold batch_loss. unfold mbind, result_bind.
  destruct (compute_target_gradient x clf target) as [[y_pred x_grad]|]; [|discriminate].
  unfold targetted_mse. unfold mbind, result_bind.
  destruct (reranking y_pred target alpha) as [reranked|]; [|discriminate].
  intros [= <-].
  rewrite <- (Qplus_0_l 0). apply Qplus_le_compat.
  - apply Qmult_le_0_compat; [exact Hbeta|].
    apply (reshaped_loss_x_nonneg
             (reduce_mean (flatten3 (squared_difference x (atn_model atn x x_grad true))))).
    apply reduce_mean_nonneg, squared_difference_nonneg.
  - apply reduce_mean_nonneg, mean_squared_error_nonneg.
Qed.



(** X5: [n // batchsize + int(n % batchsize != 0)] is the ceiling of
    [n / batchsize]: for a positive batch size it is the one [k] with
    [(k - 1) * batchsize < n <= k * batchsize]; a batch size of 0 raises
    [ZeroDivisionError]. *)
Theorem num_batches_is_ceiling (n batchsize : Z) :
  num_batches n 0 = Raise ZeroDivisionError /\
  ((1 <= batchsize)%Z ->
   exists k, num_batches n batchsize = Ok k /\
             ((k - 1) * batchsize < n <= k * batchsize)%Z).
Proof.
  split; [reflexivity|]. intros Hbs.
  unfold num_batches, floordiv, pymod.
  replace (batchsize =? 0)%Z with false by (symmetry; apply Z.eqb_neq; lia).
  simpl. eexists. split; [reflexivity|].
  pose proof (Z.div_mod n batchsize ltac:(lia)) as Hdm.
  pose proof (Z.mod_pos_bound n batchsize ltac:(lia)) as Hr.
  set (q := (n / batchsize)%Z) in *. set (r := (n mod batchsize)%Z) in *.
  clearbody q r. destruct (r =? 0)%Z eqn:E.
  - apply Z.eqb_eq in E. nia.
  - apply Z.eqb_neq in E. nia.
Qed.

End LossMore.

Section WorldMore.

Context {backend : Backend} {utils : GenericUtils}.

Variable R : World -> World -> Prop.
Hypothesis R_trans : forall x y z, R x y -> R y z -> R x z.
Hypothesis R_scratch : ignores_scratch R.

Lemma scratch_refl (w : World) : R w w.
Proof.
  destruct w as [d c a r co l].
  exact (R_scratch {| dirs := d; clf_ckpts := c; atn_ckpts := a; rng := r;
                      console := co; logfile := l |} d r co).
Qed.

Lemma scratch_lift {A : Type} (r : result A) : preserves R (lift r).
Proof. intros w. apply scratch_refl. Qed.

Lemma scratch_mret {A : Type} (a : A) : preserves R (mret a : M A).
Proof. intros w. apply scratch_refl. Qed.

Lemma scratch_print (m : Msg) : preserves R (print m).
Proof. intros w. apply R_scratch. Qed.

Lemma scratch_makedirs (p : string) : preserves R (makedirs p).
Proof. intros w. apply R_scratch. Qed.

Lemma scratch_restore_clf (p : string) : preserves R (restore_clf p).
Proof.
  intros w. unfold restore_clf. destruct (clf_ckpts w !! p); apply scratch_refl.
Qed.

Lemma scratch_restore_atn (p : string) : preserves R (restore_atn p).
Proof.
  intros w. unfold restore_atn. destruct (atn_ckpts w !! p); apply scratch_refl.
Qed.

Lemma scratch_prepare (X_train : Batch) (y_train : Matrix)
    (X_test : Batch) (y_test : Matrix) (bs : Z) (shuffle : bool) :
  preserves R (prepare_dataset X_train y_train X_test y_test bs shuffle).
Proof.
  intros w. unfold prepare_dataset.
  destruct (batch_split _ X_train y_train bs); [|apply scratch_refl].
  destruct (batch_split _ X_test y_test bs); [apply R_scratch | apply scratch_refl].
Qed.

Ltac scratch_step :=
  cbv beta;
  lazymatch goal with
  | |- preserves R (mbind _ _) => apply preserves_bind; [exact R_trans | |intros ?]
  | |- preserves R (match ?a with _ => _ end) => destruct a
  | |- preserves R (lift _) => apply scratch_lift
  | |- preserves R (mret _) => apply scratch_mret
  | |- preserves R (print _) => apply scratch_print
  | |- preserves R (makedirs _) => apply scratch_makedirs
  | |- preserves R (restore_clf _) => apply scratch_restore_clf
  | |- preserves R (restore_atn _) => apply scratch_restore_atn
  | |- preserves R (prepare_dataset _ _ _ _ _ _) => apply scratch_prepare
  end.

Lemma scratch_restore_models (d : string) (t : Z) (an cn : option string) :
  preserves R (restore_models d t an cn).
Proof. unfold restore_models. repeat scratch_step. Qed.

Lemma scratch_evaluate (d : string) (t bs : Z) (an cn : option string) :
  preserves R (evaluate_gatn d t bs an cn).
Proof.
  unfold evaluate_gatn. repeat first [apply scratch_restore_models | scratch_step].
Qed.

Lemma scratch_train_scores (d : string) (t bs : Z) (an cn : option string)
    (shuffle : bool) :
  preserves R (train_scores_gatn d t bs an cn shuffle).
Proof.
  unfold train_scores_gatn. repeat first [apply scratch_restore_models | scratch_step].
Qed.

Lemma scratch_test_scores (d : string) (t bs : Z) (an cn : option string)
    (shuffle : bool) :
  preserves R (test_scores_gatn d t bs an cn shuffle).
Proof.
  unfold test_scores_gatn. repeat first [apply scratch_restore_models | scratch_step].
Qed.

Lemma scratch_visualise (d : string) (t : Z) (class_id : option Z) (sample_id : Z)
    (an cn : option string) (dataset_type : string) :
  preserves R (Visualise.visualise_gatn d t class_id sample_id an cn dataset_type).
Proof.
  unfold Visualise.visualise_gatn.
  repeat first [apply scratch_restore_models | scratch_step].
Qed.

(** Training, for a relation that also survives the write of the ATN
    checkpoint at [path]. *)
Lemma scratch_epochs_loop (body : nat -> AtnParams * xloss -> M (AtnParams * xloss))
    (n e : nat) (st : AtnParams * xloss) :
  (forall e st, preserves R (body e st)) ->
  preserves R (epochs_loop body n e st).
Proof.
  intros Hbody. revert e st. induction n as [|n IH]; intros e st; simpl.
  - apply scratch_mret.
  - apply preserves_bind; [exact R_trans | apply Hbody | intros st'; apply IH].
Qed.

Lemma scratch_run_epoch (clf : ClfParams) (t : Z) (alpha beta : Q)
    (train_dataset test_dataset : list DataBatch) (n : Z) (path : string)
    (e : nat) (st : AtnParams * xloss) :
  (forall a, preserves R (write_atn path a)) ->
  preserves R (run_epoch clf t alpha beta train_dataset test_dataset n path e st).
Proof.
  intros Hwrite. unfold run_epoch, checkpoint_decision. destruct st as [atn best].
  repeat first [apply Hwrite | scratch_step
               | match goal with |- preserves R (if ?b then _ else _) => destruct b end].
Qed.

Lemma scratch_train_gatn (d : string) (t : Z) (alpha beta : Q) (epochs : nat) (bs : Z)
    (an cn : option string) :
  (forall a, preserves R (write_atn (atn_checkpoint_path d an t) a)) ->
  preserves R (train_gatn d t alpha beta epochs bs an cn).
Proof.
  intros Hwrite. unfold train_gatn.
  repeat first
    [ apply scratch_epochs_loop; intros; apply scratch_run_epoch; exact Hwrite
    | scratch_step ].
Qed.

Lemma scratch_train_gatn_no_epochs (d : string) (t : Z) (alpha beta : Q) (bs : Z)
    (an cn : option string) :
  preserves R (train_gatn d t alpha beta 0 bs an cn).
Proof.
  unfold train_gatn. cbn [epochs_loop]. repeat scratch_step.
Qed.

End WorldMore.

Section CheckpointsMore.

Context {backend : Backend} {utils : GenericUtils}.

Lemma untouched_trans (x y z : World) : untouched x y -> untouched y z -> untouched x z.
Proof. intros (H1 & H2 & H3) (H4 & H5 & H6). repeat split; congruence. Qed.

Lemma untouched_scratch : ignores_scratch untouched.
Proof. intros w d r c. repeat split. Qed.

(** X6: no evaluation entry point writes: [evaluate_gatn],
    [train_scores_gatn], [test_scores_gatn] and [visualise_gatn] leave the
    classifier checkpoints, the ATN checkpoints and the CSV log as they
    found them, whether they return or raise and whether the split is
    shuffled or not. *)
Theorem evaluation_never_writes (d : string) (t bs : Z) (an cn : option string)
    (shuffle : bool) (class_id : option Z) (sample_id : Z) (dataset_type : string)
    (w : World) :
  untouched w (snd (evaluate_gatn d t bs an cn w)) /\
  untouched w (snd (train_scores_gatn d t bs an cn shuffle w)) /\
  untouched w (snd (test_scores_gatn d t bs an cn shuffle w)) /\
  untouched w
    (snd (Visualise.visualise_gatn d t class_id sample_id an cn dataset_type w)).
Proof.
  split; [|split; [|split]].
  - apply (scratch_evaluate untouched untouched_trans untouched_scratch).
  - apply (scratch_train_scores untouched untouched_trans untouched_scratch).
  - apply (scratch_test_scores untouched untouched_trans untouched_scratch).
  - apply (scratch_visualise untouched untouched_trans untouched_scratch).
Qed.

Lemma frozen_except_trans (p : string) (x y z : World) :
  frozen_except p x y -> frozen_except p y z -> frozen_except p x z.
Proof.
  intros (H1 & H2 & H3) (H4 & H5 & H6). split; [congruence|]. split; [congruence|].
  intros q Hq. rewrite H3, H6 by exact Hq. reflexivity.
Qed.

Lemma frozen_except_scratch (p : string) : ignores_scratch (frozen_except p).
Proof. intros w d r c. repeat split. Qed.

Lemma frozen_except_write (p : string) (a : AtnParams) :
  preserves (frozen_except p) (write_atn p a).
Proof.
  intros w. split; [reflexivity|]. split; [reflexivity|].
  intros q Hq. simpl. rewrite lookup_insert_ne by auto. reflexivity.
Qed.

(** X7: training keeps the classifier frozen on disk: whatever
    [train_gatn] does, the classifier checkpoints and the CSV log are
    unchanged afterwards, and the only ATN checkpoint that can differ is the
    one of this dataset, ATN name and target class. *)
Theorem training_writes_one_checkpoint (d : string) (t : Z) (alpha beta : Q)
    (epochs : nat) (bs : Z) (an cn : option string) (w : World) :
  frozen_except (atn_checkpoint_path d an t) w
    (snd (train_gatn d t alpha beta epochs bs an cn w)).
Proof.
  apply (scratch_train_gatn (frozen_except (atn_checkpoint_path d an t))
           (frozen_except_trans _) (frozen_except_scratch _)).
  intros a. apply frozen_except_write.
Qed.

Lemma atn_kept_trans (p : string) (x y z : World) :
  atn_kept p x y -> atn_kept p y z -> atn_kept p x z.
Proof. unfold atn_kept. auto. Qed.

Lemma atn_kept_scratch (p : string) : ignores_scratch (atn_kept p).
Proof. intros w d r c H. exact H. Qed.

Lemma atn_kept_write (p q : string) (a : AtnParams) :
  preserves (atn_kept p) (write_atn q a).
Proof.
  intros w H. simpl. destruct (decide (q = p)) as [->|Hne].
  - rewrite lookup_insert_eq. eauto.
  - rewrite lookup_insert_ne by exact Hne. exact H.
Qed.

(** The first epoch of a run always saves. *)
Lemma first_epoch_saves (clf : ClfParams) (t : Z) (alpha beta : Q)
    (train_dataset test_dataset : list DataBatch) (n : Z) (path : string)
    (e : nat) (atn : AtnParams) (w w1 : World) (st1 : AtnParams * xloss) :
  run_epoch clf t alpha beta train_dataset test_dataset n path e (atn, PosInf) w
  = (Ok st1, w1) ->
  is_Some (atn_ckpts w1 !! path).
Proof.
  unfold run_epoch. unfold mbind, StateErr_bind, lift.
  destruct (rfoldl _ (atn, Mean_new) _) as [[atn' train_loss]|]; [|discriminate].
  destruct (rfoldl _ (Mean_new, Mean_new) _) as [[test_acc test_rate]|]; [|discriminate].
  unfold checkpoint_decision. simpl. intros [= _ <-]. simpl.
  rewrite lookup_insert_eq. eauto.
Qed.

Lemma train_gatn_saves (d : string) (t : Z) (alpha beta : Q) (epochs : nat) (bs : Z)
    (an cn : option string) (w : World) :
  fst (train_gatn d t alpha beta (S epochs) bs an cn w) = Ok tt ->
  is_Some (atn_ckpts (snd (train_gatn d t alpha beta (S epochs) bs an cn w))
             !! atn_checkpoint_path d an t).
Proof.
  destruct (train_gatn d t alpha beta (S epochs) bs an cn w) as [r w'] eqn:Hrun.
  simpl. intros ->. unfold train_gatn in Hrun.
  apply bind_ok_inv in Hrun. destruct Hrun as ([pre [X_test y_test]] & w1 & _ & Hrun).
  destruct (split_dataset X_test y_test (1 # 2)) as [[X_train y_train] [X_test' y_test']].
  apply bind_ok_inv in Hrun. destruct Hrun as ([X_train' y_train'] & w2 & _ & Hrun).
  apply bind_ok_inv in Hrun. destruct Hrun as (ntrain & w3 & _ & Hrun).
  apply bind_ok_inv in Hrun. destruct Hrun as (ntest & w4 & _ & Hrun).
  apply bind_ok_inv in Hrun. destruct Hrun as ([train_dataset test_dataset] & w5 & _ & Hrun).
  apply bind_ok_inv in Hrun. destruct Hrun as (u6 & w6 & _ & Hrun).
  apply bind_ok_inv in Hrun. destruct Hrun as (clf & w7 & _ & Hrun).
  apply bind_ok_inv in Hrun. destruct Hrun as (u8 & w8 & _ & Hrun).
  apply bind_ok_inv in Hrun. destruct Hrun as (st & w9 & Hloop & Hprint).
  cbn [epochs_loop] in Hloop.
  apply bind_ok_inv in Hloop. destruct Hloop as (st1 & w10 & Hfirst & Hrest).
  apply first_epoch_saves in Hfirst.
  assert (Hkeep : atn_kept (atn_checkpoint_path d an t) w10 w9).
  { change w9 with (snd (Ok st : result (AtnParams * xloss), w9)). rewrite <- Hrest.
    exact (scratch_epochs_loop (atn_kept (atn_checkpoint_path d an t))
             (atn_kept_trans _) (atn_kept_scratch _) _ epochs 1%nat st1
             (fun e st => scratch_run_epoch _ (atn_kept_trans _) (atn_kept_scratch _)
                            clf t alpha beta train_dataset test_dataset ntrain
                            (atn_checkpoint_path d an t) e st
                            (fun a => atn_kept_write _ _ a)) w10). }
  injection Hprint as <-. simpl. apply Hkeep, Hfirst.
Qed.

(** X8: a run of [train_gatn] with at least one epoch that returns has
    left an ATN checkpoint, so that the restoration the evaluation entry
    points start with succeeds in the world it leaves; a run with no epoch
    leaves the checkpoints as they were. *)
Theorem training_then_restoring (d : string) (t : Z) (alpha beta : Q)
    (epochs : nat) (bs : Z) (an cn : option string) (w : World) :
  (fst (train_gatn d t alpha beta (S epochs) bs an cn w) = Ok tt ->
   exists clf atn,
     fst (restore_models d t an cn
            (snd (train_gatn d t alpha beta (S epochs) bs an cn w)))
     = Ok (clf, atn)) /\
  untouched w (snd (train_gatn d t alpha beta 0 bs an cn w)).
Proof.
  split.
  - intros Hok. pose proof (train_gatn_saves d t alpha beta epochs bs an cn w Hok) as Hatn.
    destruct (scratch_train_gatn (frozen_except (atn_checkpoint_path d an t))
                (frozen_except_trans _) (frozen_except_scratch _)
                d t alpha beta (S epochs) bs an cn
                (fun a => frozen_except_write _ a) w) as (Hclf & _ & _).
    rewrite restore_models_result. rewrite <- Hclf.
    destruct (clf_ckpts w !! clf_checkpoint_path d cn) as [clf|] eqn:Hc.
    + destruct Hatn as [atn ->]. eauto.
    + destruct (needs_clf_train d t alpha beta (S epochs) bs an cn w Hc) as [e He].
      congruence.
  - apply (scratch_train_gatn_no_epochs untouched untouched_trans untouched_scratch).
Qed.

End CheckpointsMore.

Section CleaningMore.

Lemma mask_all_false {A : Type} (a : list A) (n : list Q -> bool) (y : Matrix) :
  Forall (fun r => n r = false) y ->
  map fst (List.filter snd (zip a (map n y))) = [].
Proof.
  intros Hy. revert a. induction Hy as [|r y Hr _ IH]; intros [|x a]; simpl;
    try reflexivity.
  rewrite Hr. apply IH.
Qed.

Lemma mask_all_true {A : Type} (a : list A) (n : list Q -> bool) (y : Matrix) :
  Forall (fun r => n r = true) y -> length a = length y ->
  map fst (List.filter snd (zip a (map n y))) = a.
Proof.
  intros Hy. revert a. induction Hy as [|r y Hr _ IH]; intros [|x a] Hl; simpl in *;
    try reflexivity; try lia.
  rewrite Hr. simpl. rewrite IH by lia. reflexivity.
Qed.

Lemma cleaning_mask_labels (y : Matrix) (t : Z) :
  Forall (fun r => r <> []) y ->
  cleaning_mask y t = Ok (map (fun r => negb (is_target_row t r)) y).
Proof.
  intros Hy. unfold cleaning_mask. rewrite (argmax_rows_labels y Hy). simpl.
  rewrite List.map_map. reflexivity.
Qed.

(** X9: the edges of the cleaning step.  When no label is the target
    class (a target that is no class of the dataset, say) the training data
    are returned unchanged; arrays of different lengths raise [IndexError];
    an empty label row raises [ValueError]. *)
Theorem cleaning_edge_cases (X : Batch) (y : Matrix) (t : Z) :
  (Forall (fun r => r <> []) y ->
   Forall (fun r => is_target_row t r = false) y ->
   length X = length y ->
   cleaning X y t = Ok (X, y)) /\
  (Forall (fun r => r <> []) y ->
   length X <> length y ->
   cleaning X y t = Raise IndexError) /\
  (In [] y -> cleaning X y t = Raise ValueError).
Proof.
  split; [|split].
  - intros Hne Hno Hlen. unfold cleaning. rewrite (cleaning_mask_labels y t Hne). simpl.
    unfold mask_select. rewrite !List.length_map, Hlen, Nat.eqb_refl.
    assert (Hall : Forall (fun r => negb (is_target_row t r) = true) y).
    { eapply Forall_impl; [exact Hno|]. intros r Hr. simpl in Hr. rewrite Hr. reflexivity. }
    simpl. rewrite (mask_all_true X _ y Hall Hlen).
    rewrite (mask_all_true y _ y Hall eq_refl). reflexivity.
  - intros Hne Hlen. unfold cleaning. rewrite (cleaning_mask_labels y t Hne). simpl.
    unfold mask_select. rewrite List.length_map.
    destruct (Nat.eqb_spec (length X) (length y)) as [E|E]; [contradiction | reflexivity].
  - intros Hin. unfold cleaning, cleaning_mask, argmax_rows.
    assert (Hr : rmapM argmax y = Raise ValueError).
    { induction y as [|r y IH]; [destruct Hin|]. simpl.
      destruct r as [|a r]; [reflexivity|].
      destruct Hin as [Hin|Hin]; [discriminate|]. simpl. rewrite (IH Hin). reflexivity. }
    rewrite Hr. reflexivity.
Qed.

Context {backend : Backend} {utils : GenericUtils}.

(** X10: when every sample of the training split has the target class,
    the cleaning step leaves no training sample, [batchsize] becomes 0 and
    [train_gatn] raises [ZeroDivisionError] before it touches a directory or
    a checkpoint. *)
Theorem training_on_target_only_split (d : string) (t : Z) (alpha beta : Q)
    (epochs : nat) (bs : Z) (an cn : option string) (w : World)
    (pre : Batch * Matrix) (X0 X_train X_test : Batch) (y0 y_train y_test : Matrix) :
  load_dataset d = Ok (pre, (X0, y0)) ->
  split_dataset X0 y0 (1 # 2) = ((X_train, y_train), (X_test, y_test)) ->
  length X_train = length y_train ->
  Forall (fun r => r <> [] /\ is_target_row t r = true) y_train ->
  (0 <= bs)%Z ->
  train_gatn d t alpha beta epochs bs an cn w = (Raise ZeroDivisionError, w).
Proof.
  intros Hload Hsplit Hlen Hy Hbs.
  assert (Hne : Forall (fun r => r <> []) y_train).
  { eapply Forall_impl; [exact Hy|]. intros r [H _]. exact H. }
  assert (Hnone : Forall (fun r => negb (is_target_row t r) = false) y_train).
  { eapply Forall_impl; [exact Hy|]. intros r [_ H]. simpl. rewrite H. reflexivity. }
  assert (Hclean : cleaning X_train y_train t = Ok ([], [])).
  { unfold cleaning. rewrite (cleaning_mask_labels y_train t Hne). simpl.
    unfold mask_select. rewrite !List.length_map, Hlen, Nat.eqb_refl. simpl.
    rewrite (mask_all_false X_train _ y_train Hnone).
    rewrite (mask_all_false y_train _ y_train Hnone). reflexivity. }
  unfold train_gatn. unfold mbind at 1. unfold StateErr_bind, lift.
  rewrite Hload. cbv beta iota. rewrite Hsplit. cbv beta iota.
  unfold mbind at 1. rewrite Hclean. cbv beta iota.
  cbn [length]. change (Z.of_nat 0) with 0%Z. rewrite (Z.min_r bs 0) by lia.
  reflexivity.
Qed.

End CleaningMore.

Section OrderMore.

Lemma sorted_app (l1 l2 : list Z) :
  StronglySorted Z.lt l1 -> StronglySorted Z.lt l2 ->
  (forall a b, In a l1 -> In b l2 -> (a < b)%Z) ->
  StronglySorted Z.lt (l1 ++ l2).
Proof.
  intros H1 H2 H12. induction H1 as [|a l1 Hs IH Ha]; simpl; [exact H2|].
  constructor.
  - apply IH. intros x y Hx Hy. apply H12; [right; exact Hx | exact Hy].
  - apply List.Forall_app. split; [exact Ha|].
    apply List.Forall_forall. intros b Hb. apply H12; [left; reflexivity | exact Hb].
Qed.

Lemma sorted_NoDup (l : list Z) : StronglySorted Z.lt l -> List.NoDup l.
Proof.
  induction 1 as [|a l Hs IH Ha]; constructor; [|exact IH].
  intros Hin. rewrite List.Forall_forall in Ha. specialize (Ha a Hin). lia.
Qed.

Lemma argwhere_from_sorted (found : list bool) (k : nat) :
  StronglySorted lt (argwhere_from k found) /\
  Forall (fun i => (k <= i)%nat) (argwhere_from k found).
Proof.
  revert k. induction found as [|b found IH]; intros k; simpl.
  - split; constructor.
  - destruct (IH (S k)) as [Hs Hge].
    assert (Hge' : Forall (fun i => (k < i)%nat) (argwhere_from (S k) found)).
    { eapply Forall_impl; [exact Hge|]. intros i Hi. simpl in Hi. lia. }
    destruct b.
    + split; [constructor; assumption|].
      constructor; [lia|]. eapply Forall_impl; [exact Hge'|]. intros i Hi. simpl in Hi. lia.
    + split; [exact Hs|]. eapply Forall_impl; [exact Hge'|]. intros i Hi. simpl in Hi. lia.
Qed.

Lemma map_offset_sorted (base : Z) (o : list nat) :
  StronglySorted lt o ->
  StronglySorted Z.lt (map (fun i => (base + Z.of_nat i)%Z) o).
Proof.
  induction 1 as [|a o Hs IH Ha]; simpl; constructor; [exact IH|].
  apply List.Forall_map. eapply Forall_impl; [exact Ha|]. intros i Hi. simpl in Hi. lia.
Qed.

Lemma global_ids_sorted (bs k : Z) (offsets : list (list nat)) :
  Forall (fun o => (0 <= bs)%Z /\ StronglySorted lt o /\
                   Forall (fun i => (Z.of_nat i < bs)%Z) o) offsets ->
  StronglySorted Z.lt (global_ids bs k offsets) /\
  Forall (fun id => (k * bs <= id)%Z) (global_ids bs k offsets).
Proof.
  intros Hoff. revert k. induction Hoff as [|o offsets (Hbs & Hs & Hlt) _ IH]; intros k.
  - simpl. split; constructor.
  - cbn [global_ids]. destruct (IH (k + 1)%Z) as [Hrest Hge].
    split.
    + apply sorted_app; [apply map_offset_sorted, Hs | exact Hrest|].
      intros a b Ha Hb. apply List.in_map_iff in Ha. destruct Ha as (i & <- & Hi).
      rewrite List.Forall_forall in Hlt, Hge.
      specialize (Hlt i Hi). specialize (Hge b Hb). nia.
    + apply List.Forall_app. split.
      * apply List.Forall_map. apply List.Forall_forall. intros i _. simpl. lia.
      * eapply Forall_impl; [exact Hge|]. intros id Hid. simpl in Hid. nia.
Qed.

Context {backend : Backend}.

(** X11: when no batch holds more than [batchsize] samples, the adversary
    indices of an evaluation pass come out strictly increasing, so that no
    index is reported twice and [len(ids)] counts samples. *)
Theorem adversary_ids_strictly_increasing (clf : ClfParams) (atn : AtnParams)
    (t bs : Z) (dataset : list DataBatch) (st : EvalState) :
  Forall (fun b : DataBatch => (Z.of_nat (length (snd b)) <= bs)%Z) dataset ->
  eval_pass clf atn t bs dataset = Ok st ->
  StronglySorted Z.lt (adversary_ids st) /\ List.NoDup (adversary_ids st).
Proof.
  intros Hsize Hpass.
  assert (Hsorted : StronglySorted Z.lt (adversary_ids st)).
  { unfold eval_pass in Hpass. rewrite rfoldl_eval_step in Hpass.
    destruct (rmapM (eval_batch clf atn t) dataset) as [ss|] eqn:Hss; [|discriminate].
    simpl in Hpass. injection Hpass as <-.
    destruct (fold_accumulate_ids bs ss EvalState_new) as [-> _]. simpl.
    apply global_ids_sorted.
    destruct (rmapM_lookup _ _ _ Hss) as [_ Hlook].
    apply List.Forall_forall. intros o Ho.
    apply list_elem_of_In, list_elem_of_lookup in Ho. destruct Ho as [k Hk].
    change (map b_not_same ss) with (b_not_same <$> ss) in Hk.
    rewrite list_lookup_fmap in Hk.
    destruct (ss !! k) as [s|] eqn:Hs; [|discriminate]. simpl in Hk. injection Hk as <-.
    destruct (Hlook k s Hs) as ([x y] & Hb & Hev).
    assert (Hle : (Z.of_nat (length y) <= bs)%Z).
    { rewrite List.Forall_forall in Hsize.
      apply (Hsize (x, y)). apply list_elem_of_In, list_elem_of_lookup. eauto. }
    split; [lia|]. split.
    - destruct (eval_batch_inv clf atn t x y s Hev) as (l1 & l2 & l3 & _ & _ & _ & ->).
      apply argwhere_from_sorted.
    - apply List.Forall_forall. intros i Hi.
      pose proof (eval_batch_offsets clf atn t x y s i Hev Hi). lia. }
  split; [exact Hsorted | apply sorted_NoDup, Hsorted].
Qed.

End OrderMore.

Section ScriptsMore.

Context {backend : Backend} {utils : GenericUtils}.

Lemma eval_trial_ok_inv (lists lists' : GridSearch.Lists) (did : Z) (dataset : string)
    (w w' : World) :
  EvalScript.trial lists did dataset w = (Ok lists', w') ->
  exists update,
    lists' = {| GridSearch.SUCCESS := GridSearch.SUCCESS lists ++ [update];
                GridSearch.ERRORS := GridSearch.ERRORS lists |} /\
    clf_ckpts w = clf_ckpts w' /\ atn_ckpts w = atn_ckpts w' /\
    logfile w' = logfile w ++ [update].
Proof.
  unfold EvalScript.trial. intros H.
  apply bind_ok_inv in H. destruct H as ([[[[mse ar] ao] rate] ids] & w1 & H1 & H).
  pose proof (scratch_test_scores untouched untouched_trans untouched_scratch
                dataset EvalScript.TARGET_CLASS 128
                (Some GridSearch.atn_model_name) (Some GridSearch.clf_model_name) true w)
    as (Hc & Ha & Hl).
  rewrite H1 in Hc, Ha, Hl. simpl in Hc, Ha, Hl.
  apply bind_ok_inv in H. destruct H as (u2 & w2 & H2 & H).
  apply bind_ok_inv in H. destruct H as (u3 & w3 & H3 & H).
  unfold print in H2. unfold GridSearch.write_log in H3.
  inversion H2; subst; clear H2. inversion H3; subst; clear H3.
  inversion H; subst; clear H.
  eexists. split; [reflexivity|]. simpl. rewrite Hc, Ha, Hl. repeat split; reflexivity.
Qed.

Lemma eval_trial_raise_inv (lists : GridSearch.Lists) (did : Z) (dataset : string)
    (w w' : World) (e : Exception) :
  EvalScript.trial lists did dataset w = (Raise e, w') -> untouched w w'.
Proof.
  unfold EvalScript.trial. intros H.
  pose proof (scratch_test_scores untouched untouched_trans untouched_scratch
                dataset EvalScript.TARGET_CLASS 128
                (Some GridSearch.atn_model_name) (Some GridSearch.clf_model_name) true w)
    as Hu.
  apply bind_raise_inv in H. destruct H as [H | ([[[[mse ar] ao] rate] ids] & w1 & H1 & H)].
  - rewrite H in Hu. exact Hu.
  - apply bind_raise_inv in H. destruct H as [H | (u2 & w2 & H2 & H)]; [discriminate|].
    apply bind_raise_inv in H. destruct H as [H | (u3 & w3 & H3 & H)]; discriminate.
Qed.

Lemma eval_loop_total (all : list Z) (datasets : list Z) (lists : GridSearch.Lists)
    (w : World) :
  (forall d, In d datasets -> In d all) ->
  exists lists' w' new errs,
    GridSearch.mfoldl EvalScript.eval_body lists datasets w = (Ok lists', w') /\
    GridSearch.SUCCESS lists' = GridSearch.SUCCESS lists ++ new /\
    GridSearch.ERRORS lists' = GridSearch.ERRORS lists ++ errs /\
    (length new + length errs = length datasets)%nat /\
    Forall (fun r => exists did,
                In did all /\ r = GridSearch.failure_tag did EvalScript.beta) errs /\
    clf_ckpts w = clf_ckpts w' /\ atn_ckpts w = atn_ckpts w' /\
    logfile w' = logfile w ++ new.
Proof.
  revert lists w. induction datasets as [|did datasets IH]; intros lists w Hincl.
  - exists lists, w, [], []. rewrite !app_nil_r.
    split; [reflexivity|]. repeat split; constructor.
  - assert (Hrest : forall d, In d datasets -> In d all)
      by (intros d0 Hd; apply Hincl; right; exact Hd).
    cbn [GridSearch.mfoldl]. unfold mbind at 1. unfold StateErr_bind.
    unfold EvalScript.eval_body at 1. unfold GridSearch.try_except.
    destruct (EvalScript.trial lists did ("ucr/" +:+ pretty did) w)
      as [[l1|e] w1] eqn:Htrial.
    + apply eval_trial_ok_inv in Htrial. destruct Htrial as (u & -> & Hc & Ha & Hl).
      match goal with |- context [GridSearch.mfoldl _ ?l _ ?w'] =>
        destruct (IH l w' Hrest)
          as (l2 & w2 & new & errs & Hloop & HS & HE & Hn & Herr & Hc2 & Ha2 & Hl2)
      end.
      exists l2, w2, (u :: new), errs. simpl in HS, HE.
      split; [exact Hloop|]. split; [rewrite HS, <- app_assoc; reflexivity|].
      split; [exact HE|]. split; [simpl; lia|]. split; [exact Herr|].
      split; [congruence|]. split; [congruence|].
      rewrite Hl2, Hl, <- app_assoc. reflexivity.
    + apply eval_trial_raise_inv in Htrial. destruct Htrial as (Hc & Ha & Hl).
      unfold GridSearch.on_error, mbind, StateErr_bind, print, mret, StateErr_ret.
      match goal with |- context [GridSearch.mfoldl _ ?l _ ?w'] =>
        destruct (IH l w' Hrest)
          as (l2 & w2 & new & errs & Hloop & HS & HE & Hn & Herr & Hc2 & Ha2 & Hl2)
      end.
      exists l2, w2, new, (GridSearch.failure_tag did EvalScript.beta :: errs).
      simpl in HS, HE, Hc2, Ha2, Hl2.
      split; [exact Hloop|]. split; [exact HS|].
      split; [rewrite HE, <- app_assoc; reflexivity|]. split; [simpl; lia|].
      split; [constructor; [exists did; split; [apply Hincl; left|]; reflexivity | exact Herr]|].
      split; [congruence|]. split; [congruence|].
      rewrite Hl2, Hl. reflexivity.
Qed.

(** X12: the test-split evaluation script never aborts: whatever happens
    to a dataset, the loop goes through all of them and ends with its
    report; every dataset gives either one row, appended to [SUCCESS] and to
    the CSV log, or the failure record of that dataset with [beta = 0] in
    [ERRORS]; no checkpoint is changed. *)
Theorem evaluation_script_never_aborts (datasets : list Z) (w : World) :
  exists lists w',
    EvalScript.evaluate_all datasets w = (Ok lists, w') /\
    (length (GridSearch.SUCCESS lists) + length (GridSearch.ERRORS lists)
     = length datasets)%nat /\
    Forall (fun r => exists did,
                In did datasets /\ r = GridSearch.failure_tag did EvalScript.beta)
      (GridSearch.ERRORS lists) /\
    logfile w' = logfile w ++ GridSearch.SUCCESS lists /\
    clf_ckpts w' = clf_ckpts w /\ atn_ckpts w' = atn_ckpts w.
Proof.
  destruct (eval_loop_total datasets datasets
              {| GridSearch.SUCCESS := []; GridSearch.ERRORS := [] |} w (fun _ H => H))
    as (lists & w1 & new & errs & Hloop & HS & HE & Hn & Herr & Hc & Ha & Hl).
  simpl in HS, HE.
  exists lists,
    (snd (print (Summary (GridSearch.SUCCESS lists) (GridSearch.ERRORS lists)) w1)).
  split.
  { unfold EvalScript.evaluate_all. unfold mbind at 1. unfold StateErr_bind.
    rewrite Hloop. reflexivity. }
  rewrite HS, HE. simpl. repeat split; try assumption; congruence.
Qed.

Lemma select_sample_label (X : Batch) (y : Matrix) (c : Z) (i : Z)
    (x : Batch) (label : nat) :
  Visualise.select_sample X y (Some c) i = Ok (x, label) -> Z.of_nat label = c.
Proof.
  unfold Visualise.select_sample. unfold mbind, result_bind.
  destruct (argmax_rows y) as [labels|] eqn:Hlabels; [|discriminate].
  destruct (mask_select X _) as [X_c|]; [|discriminate].
  destruct (Visualise.np_index X_c i) as [x0|]; [|discriminate].
  destruct (mask_select y _) as [y_c|] eqn:Hmask; [|discriminate].
  destruct (Visualise.np_index y_c i) as [row|] eqn:Hrow; [|discriminate].
  destruct (argmax row) as [l|] eqn:Hl; [|discriminate].
  intros [= _ <-].
  assert (Hin : In row y_c).
  { unfold Visualise.np_index in Hrow. unfold mbind, result_bind in Hrow.
    destruct (norm_index (length y_c) i) as [k|]; [|discriminate].
    destruct (y_c !! k) as [v|] eqn:Hk; [|discriminate]. injection Hrow as <-.
    apply list_elem_of_In, list_elem_of_lookup. eauto. }
  unfold mask_select in Hmask.
  destruct (length y =? length _)%nat; [|discriminate]. injection Hmask as <-.
  apply List.in_map_iff in Hin. destruct Hin as ([r b] & Hr & Hin). simpl in Hr. subst r.
  apply List.filter_In in Hin. destruct Hin as [Hin Hb]. simpl in Hb. subst b.
  unfold argmax_rows in Hlabels. clear - Hlabels Hin Hl.
  revert labels Hlabels Hin. induction y as [|r y IH]; intros labels Hlabels Hin;
    simpl in *.
  - injection Hlabels as <-. destruct Hin.
  - destruct (argmax r) as [lr|] eqn:Hr; [|discriminate].
    destruct (rmapM argmax y) as [ls|]; [|discriminate]. injection Hlabels as <-.
    simpl in Hin. destruct Hin as [Heq | Hin].
    + injection Heq as -> Hc. rewrite Hl in Hr. injection Hr as <-.
      apply Z.eqb_eq. exact Hc.
    + apply (IH ls eq_refl Hin).
Qed.

(** X13: when a class is asked for, the sample [visualise_gatn] reports
    on is of that class: the ground truth it prints is [class_id]. *)
Theorem visualised_sample_has_class (d : string) (t c : Z) (sample_id : Z)
    (an cn : option string) (dataset_type : string) (w w' : World)
    (report : Visualise.Report) :
  Visualise.visualise_gatn d t (Some c) sample_id an cn dataset_type w
  = (Ok report, w') ->
  Z.of_nat (Visualise.ground_truth report) = c.
Proof.
  unfold Visualise.visualise_gatn. intros H.
  apply bind_ok_inv in H. destruct H as (u1 & w1 & _ & H).
  apply bind_ok_inv in H.
  destruct H as ([[X_train y_train] [X_test y_test]] & w2 & _ & H).
  apply bind_ok_inv in H. destruct H as (u3 & w3 & _ & H).
  apply bind_ok_inv in H. destruct H as ([clf atn] & w4 & _ & H).
  apply bind_ok_inv in H. destruct H as ([x y] & w5 & Hsel & H).
  assert (Hy : Z.of_nat y = c).
  { unfold lift in Hsel. injection Hsel as Hsel _.
    destruct (bool_decide (dataset_type = "train"));
      eapply select_sample_label; exact Hsel. }
  apply bind_ok_inv in H. destruct H as ([y_pred_label x_test_grad] & w6 & _ & H).
  apply bind_ok_inv in H. destruct H as (adv_labels & w7 & _ & H).
  apply bind_ok_inv in H. destruct H as (adv_label & w8 & _ & H).
  apply bind_ok_inv in H. destruct H as (pred_labels & w9 & _ & H).
  apply bind_ok_inv in H. destruct H as (pred_class & w10 & _ & H).
  apply bind_ok_inv in H. destruct H as (pred_proba & w11 & _ & H).
  apply bind_ok_inv in H. destruct H as (adv_proba & w12 & _ & H).
  injection H as <- _. simpl. exact Hy.
Qed.

(** X14: the argument checks of [visualise_gatn] come before everything
    else.  A [dataset_type] other than ["train"] and ["test"] raises
    [ValueError] before the dataset is loaded; a [class_id] that is the
    label of no test sample raises [AssertionError], whichever split was
    asked for; in both cases no directory is created and no checkpoint is
    read. *)
Theorem visualise_checks_arguments_first (d : string) (t : Z) (class_id : option Z)
    (sample_id : Z) (an cn : option string) (dataset_type : string) (w : World) :
  (dataset_type <> "train" -> dataset_type <> "test" ->
   Visualise.visualise_gatn d t class_id sample_id an cn dataset_type w
   = (Raise ValueError, w)) /\
  (forall c train X_test y_test labels,
      dataset_type = "train" \/ dataset_type = "test" ->
      class_id = Some c ->
      load_dataset d = Ok (train, (X_test, y_test)) ->
      argmax_rows y_test = Ok labels ->
      Forall (fun l => Z.of_nat l <> c) labels ->
      Visualise.visualise_gatn d t class_id sample_id an cn dataset_type w
      = (Raise AssertionError, w)).
Proof.
  split.
  - intros H1 H2. unfold Visualise.visualise_gatn.
    rewrite (bool_decide_eq_false_2 _ H1), (bool_decide_eq_false_2 _ H2). reflexivity.
  - intros c [X_train y_train] X_test y_test labels Htype -> Hload Hlabels Hnone.
    unfold Visualise.visualise_gatn.
    assert (Hty : bool_decide (dataset_type = "train") || bool_decide (dataset_type = "test")
                  = true).
    { destruct Htype as [-> | ->]; reflexivity. }
    rewrite Hty. unfold mbind at 1. unfold StateErr_bind, lift.
    unfold mbind at 1. rewrite Hload. cbv beta iota.
    unfold mbind at 1. unfold mbind at 1. unfold result_bind. rewrite Hlabels.
    assert (Hex : existsb (fun l => (Z.of_nat l =? c)%Z) labels = false).
    { clear - Hnone. induction Hnone as [|l labels Hl _ IH]; simpl; [reflexivity|].
      rewrite IH. apply Z.eqb_neq in Hl. rewrite Hl. reflexivity. }
    rewrite Hex. reflexivity.
Qed.

End ScriptsMore.

(** * Concrete instances of the further conditional statements *)

Section MoreWitnesses.

Import Toy.

Lemma reranking_target_dominates_witness :
  let y := [[1 # 4; 3 # 4]; [1 # 2; 1 # 2]]%Q in
  Forall (fun r => length r = 2%nat /\ prob_row r) y /\
  (0 < 2)%nat /\
  (1 < 3 # 2)%Q /\
  exists y',
    reranking y 0 (3 # 2) = Ok y' /\
    Forall (fun row' =>
              Forall (fun v => (0 <= v)%Q) row' /\
              exists v, row' !! 0%nat = Some v /\
                        forall j u, j <> 0%nat -> row' !! j = Some u -> (u < v)%Q) y'.
Proof.
  cbv zeta.
  assert (H1 : Forall (fun r => length r = 2%nat /\ prob_row r)
                 [[1 # 4; 3 # 4]; [1 # 2; 1 # 2]]%Q).
  { repeat constructor; unfold Qle; simpl; lia. }
  assert (H2 : (0 < 2)%nat) by lia.
  assert (H3 : (1 < 3 # 2)%Q) by reflexivity.
  split; [exact H1|]. split; [exact H2|]. split; [exact H3|].
  exact (reranking_target_dominates [[1 # 4; 3 # 4]; [1 # 2; 1 # 2]]%Q 0 2 (3 # 2) H1 H2 H3).
Defined.

Lemma reranking_target_index_witness :
  let y := [[1 # 4; 3 # 4]; [1 # 2; 1 # 2]]%Q in
  Forall (fun r => length r = 2%nat) y /\
  reranking y 2 (3 # 2) = Raise IndexError /\
  reranking y (-1) (3 # 2) = reranking y (-1 + 2) (3 # 2).
Proof.
  cbv zeta.
  assert (H1 : Forall (fun r : list Q => length r = 2%nat)
                 [[1 # 4; 3 # 4]; [1 # 2; 1 # 2]]%Q)
    by (repeat constructor).
  split; [exact H1|]. split.
  - apply (proj1 (reranking_target_index _ 2 2 (3 # 2) H1)); [right; simpl; lia | discriminate].
  - apply (proj2 (reranking_target_index _ 2 (-1) (3 # 2) H1)). simpl. lia.
Defined.

Lemma batch_loss_nonneg_witness :
  (0 <= 1 # 100)%Q /\
  match @batch_loss toy_backend tt 1 (3 # 2) (1 # 100) (fst scenario_batch) 0%nat with
  | Ok loss => (0 <= loss)%Q
  | Raise _ => False
  end.
Proof.
  assert (H1 : (0 <= 1 # 100)%Q) by (unfold Qle; simpl; lia).
  split; [exact H1|].
  destruct (@batch_loss toy_backend tt 1 (3 # 2) (1 # 100) (fst scenario_batch) 0%nat)
    as [loss|e] eqn:Hloss.
  - exact (@batch_loss_nonneg toy_backend tt 0%nat (fst scenario_batch) 1 (3 # 2)
             (1 # 100) loss H1 Hloss).
  - vm_compute in Hloss. discriminate.
Defined.


Lemma training_on_target_only_split_witness :
  @load_dataset SingleClass.single_class_utils "d"
  = Ok (([], []), (SingleClass.single_X, SingleClass.single_y)) /\
  @split_dataset SingleClass.single_class_utils
    SingleClass.single_X SingleClass.single_y (1 # 2)
  = ((SingleClass.single_X, SingleClass.single_y),
     (SingleClass.single_X, SingleClass.single_y)) /\
  length SingleClass.single_X = length SingleClass.single_y /\
  Forall (fun r => r <> [] /\ is_target_row 0 r = true) SingleClass.single_y /\
  (0 <= 128)%Z /\
  @train_gatn toy_backend SingleClass.single_class_utils
    "d" 0 (3 # 2) (1 # 100) 10 128 None None trained_clf_world
  = (Raise ZeroDivisionError, trained_clf_world).
Proof.
  assert (H1 : @load_dataset SingleClass.single_class_utils "d"
               = Ok (([], []), (SingleClass.single_X, SingleClass.single_y)))
    by reflexivity.
  assert (H2 : @split_dataset SingleClass.single_class_utils
                 SingleClass.single_X SingleClass.single_y (1 # 2)
               = ((SingleClass.single_X, SingleClass.single_y),
                  (SingleClass.single_X, SingleClass.single_y)))
    by reflexivity.
  assert (H3 : length SingleClass.single_X = length SingleClass.single_y) by reflexivity.
  assert (H4 : Forall (fun r => r <> [] /\ is_target_row 0 r = true) SingleClass.single_y).
  { repeat constructor; discriminate. }
  assert (H5 : (0 <= 128)%Z) by lia.
  split; [exact H1|]. split; [exact H2|]. split; [exact H3|]. split; [exact H4|].
  split; [exact H5|].
  exact (@training_on_target_only_split toy_backend SingleClass.single_class_utils
           "d" 0 (3 # 2) (1 # 100) 10 128 None None trained_clf_world
           ([], []) SingleClass.single_X SingleClass.single_X SingleClass.single_X
           SingleClass.single_y SingleClass.single_y SingleClass.single_y
           H1 H2 H3 H4 H5).
Defined.

Lemma adversary_ids_strictly_increasing_witness :
  Forall (fun b : DataBatch => (Z.of_nat (length (snd b)) <= 4)%Z) [scenario_batch] /\
  match @eval_pass toy_backend tt 0%nat 1 4 [scenario_batch] with
  | Ok st => StronglySorted Z.lt (adversary_ids st) /\ List.NoDup (adversary_ids st)
  | Raise _ => False
  end.
Proof.
  assert (H1 : Forall (fun b : DataBatch => (Z.of_nat (length (snd b)) <= 4)%Z)
                 [scenario_batch]).
  { repeat constructor. simpl. lia. }
  split; [exact H1|].
  destruct (@eval_pass toy_backend tt 0%nat 1 4 [scenario_batch]) as [st|e] eqn:Hpass.
  - exact (@adversary_ids_strictly_increasing toy_backend tt 0%nat 1 4 [scenario_batch]
             st H1 Hpass).
  - vm_compute in Hpass. discriminate.
Defined.

Lemma visualised_sample_has_class_witness :
  let trained :=
    snd (@train_gatn toy_backend toy_utils "d" 1 (3 # 2) (1 # 100) 2 128 None None
           trained_clf_world) in
  match @Visualise.visualise_gatn toy_backend toy_utils
          "d" 1 (Some 1%Z) 0 None None "test" trained with
  | (Ok report, _) => Z.of_nat (Visualise.ground_truth report) = 1%Z
  | (Raise _, _) => False
  end.
Proof.
  cbv zeta.
  destruct (@Visualise.visualise_gatn toy_backend toy_utils
              "d" 1 (Some 1%Z) 0 None None "test"
              (snd (@train_gatn toy_backend toy_utils "d" 1 (3 # 2) (1 # 100) 2 128
                      None None trained_clf_world)))
    as [[report|e] w'] eqn:Hrun.
  - exact (@visualised_sample_has_class toy_backend toy_utils "d" 1 1 0 None None "test"
             _ w' report Hrun).
  - vm_compute in Hrun. discriminate.
Defined.

End MoreWitnesses.
